(** * A shallow embedding of the logging facades of this repository

    The repository holds several rewrites of one logging facade built on
    top of Python's [logging] package:

    - [qlogger.py], [q_logger1.py], [q_logger2.py]: a [logging.Logger]
      subclass whose level methods prefix the message with the caller's
      file, line and a timestamp, plus a class-level registry
      [CaptureConsoleLogs];
    - [final_logger.py]: the same facade with filters, a rotating file
      handler, an optional JSON formatter and a [QueueHandler] /
      [QueueListener] pair;
    - [custom_logger.py]: a wrapper object around [logging.getLogger]
      with timers and [set_level].

    [datascience_logger.py] and [data_science_logger.py] repeat the last
    two designs with further fields and are not modelled.

    Python text is modelled as [string] (ASCII text), integers as [Z],
    [None]-able values as [option], dictionaries as [gmap], and the
    mutable process state (class attributes, logger objects, files, the
    console, the queue) as one record [World] threaded through a small
    state-and-exception monad. *)

From Stdlib Require Import ZArith Ascii String Lia.
From stdpp Require Import base option list gmap strings pretty.

Local Open Scope Z_scope.

(** ** Python text operations used by the sources *)

Module PyStr.

(** [old in s] *)
Fixpoint contains (old s : string) : bool :=
  String.prefix old s ||
  match s with
  | EmptyString => false
  | String _ s' => contains old s'
  end.

Fixpoint drop (n : nat) (s : string) : string :=
  match n, s with
  | O, _ => s
  | S _, EmptyString => EmptyString
  | S n', String _ s' => drop n' s'
  end.

Fixpoint char_in (c : ascii) (s : string) : bool :=
  match s with
  | EmptyString => false
  | String d s' => Ascii.eqb c d || char_in c s'
  end.

(** The scan of [str.replace] for a non-empty [old]: left to right,
    a match is replaced and skipped, any other character is copied.
    [n] bounds the number of scan steps. *)
Fixpoint replace_scan (n : nat) (old new s : string) : string :=
  match n with
  | O => s
  | S n' =>
      match s with
      | EmptyString => EmptyString
      | String c s' =>
          if String.prefix old s
          then new +:+ replace_scan n' old new (drop (String.length old) s)
          else String c (replace_scan n' old new s')
      end
  end.

(** With an empty [old], [str.replace] puts [new] before every
    character and at the end. *)
Fixpoint replace_empty (new s : string) : string :=
  match s with
  | EmptyString => new
  | String c s' => new +:+ String c (replace_empty new s')
  end.

(** [s.replace(old, new)] *)
Definition replace (old new s : string) : string :=
  match old with
  | EmptyString => replace_empty new s
  | String _ _ => replace_scan (String.length s) old new s
  end.

(** [c.upper()] and [s.upper()] on ASCII text *)
Definition upper_char (c : ascii) : ascii :=
  let n := nat_of_ascii c in
  if (97 <=? n)%nat && (n <=? 122)%nat then ascii_of_nat (n - 32) else c.

Fixpoint upper (s : string) : string :=
  match s with
  | EmptyString => EmptyString
  | String c s' => String (upper_char c) (upper s')
  end.

(** [msg % args] for a tuple of [str] arguments. The conversions
    [%s] and [%%] are modelled; [None] stands for the exception that
    Python raises on a missing or a left-over argument or an
    incomplete format, and also for every other conversion, which this
    model does not cover. *)
Fixpoint percent (s : string) (args : list string) : option string :=
  match s with
  | EmptyString =>
      match args with
      | [] => Some EmptyString
      | _ :: _ => None
      end
  | String "%" (String "s" r) =>
      match args with
      | a :: args' => String.append a <$> percent r args'
      | [] => None
      end
  | String "%" (String "%" r) => String "%" <$> percent r args
  | String "%" _ => None
  | String c r => String c <$> percent r args
  end.

(** [os.path.basename] on a POSIX path: the text after the last [/]. *)
Fixpoint basename_go (acc s : string) : string :=
  match s with
  | EmptyString => acc
  | String "/" s' => basename_go EmptyString s'
  | String c s' => basename_go (acc +:+ String c EmptyString) s'
  end.

Definition basename (p : string) : string := basename_go EmptyString p.

End PyStr.

(** ** The process state *)

(** Severities of [logging] *)
Definition NOTSET : Z := 0.
Definition DEBUG : Z := 10.
Definition INFO : Z := 20.
Definition WARNING : Z := 30.
Definition ERROR : Z := 40.
Definition CRITICAL : Z := 50.

(** [logging.getLevelName] *)
Definition getLevelName (level : Z) : string :=
  if level =? CRITICAL then "CRITICAL"
  else if level =? ERROR then "ERROR"
  else if level =? WARNING then "WARNING"
  else if level =? INFO then "INFO"
  else if level =? DEBUG then "DEBUG"
  else if level =? NOTSET then "NOTSET"
  else "Level " +:+ pretty level.

(** One entry of [inspect.stack()]: index 1 is the file name, index 2
    the line number, index 3 the function; [f_module] is the name of the
    module [inspect.getmodule] finds for the frame, if any. *)
Record FrameInfo := {
  f_filename : string;
  f_lineno : Z;
  f_function : string;
  f_module : option string
}.

(** The last entry of [traceback.extract_tb] *)
Record FrameSummary := {
  tb_filename : string;
  tb_lineno : Z;
  tb_name : string;
  tb_line : string
}.

(** The readings of the wall clock in the three formats the code asks
    for: [strftime("%Y-%m-%d-%H-%M-%S")], [strftime("%Y-%m-%d %H:%M:%S")]
    and the [asctime] of [logging]. *)
Record Clock := {
  stamp_dash : string;
  stamp_space : string;
  stamp_asctime : string
}.

(** [logging.LogRecord], with the attributes the formatters read *)
Record LogRecord := {
  r_name : string;
  r_levelno : Z;
  r_pathname : string;
  r_lineno : Z;
  r_msg : string;
  r_args : list string;
  r_created : Clock;
  r_process : Z;
  r_thread : Z;
  r_user_id : option string
}.

Definition r_levelname (r : LogRecord) : string := getLevelName (r_levelno r).
Definition r_filename (r : LogRecord) : string := PyStr.basename (r_pathname r).

Definition set_msg (m : string) (r : LogRecord) : LogRecord :=
  {| r_name := r_name r; r_levelno := r_levelno r; r_pathname := r_pathname r;
     r_lineno := r_lineno r; r_msg := m; r_args := r_args r;
     r_created := r_created r; r_process := r_process r;
     r_thread := r_thread r; r_user_id := r_user_id r |}.

Definition set_args (a : list string) (r : LogRecord) : LogRecord :=
  {| r_name := r_name r; r_levelno := r_levelno r; r_pathname := r_pathname r;
     r_lineno := r_lineno r; r_msg := r_msg r; r_args := a;
     r_created := r_created r; r_process := r_process r;
     r_thread := r_thread r; r_user_id := r_user_id r |}.

Definition set_user_id (u : string) (r : LogRecord) : LogRecord :=
  {| r_name := r_name r; r_levelno := r_levelno r; r_pathname := r_pathname r;
     r_lineno := r_lineno r; r_msg := r_msg r; r_args := r_args r;
     r_created := r_created r; r_process := r_process r;
     r_thread := r_thread r; r_user_id := Some u |}.

(** A [%]-style format string of [logging.Formatter], as its pieces *)
Inductive FmtPiece :=
| Lit (s : string)
| Fasctime | Fname | Flevelname | Ffilename | Flineno
| Fprocess | Fthread | Fmessage.

Inductive Formatter :=
| PlainFormatter (fmt : list FmtPiece)    (* logging.Formatter(fmt) *)
| CustomFormatter (fmt : list FmtPiece)   (* the colouring subclass *)
| ColorFormatter (fmt : list FmtPiece)    (* q_logger1's colouring subclass *)
| JSONFormatter.

(** Where a handler's [emit] puts the record *)
Inductive Target :=
| ToConsole                 (* StreamHandler() *)
| ToFile (path : string)    (* FileHandler / RotatingFileHandler *)
| ToQueue.                  (* QueueHandler(log_queue) *)

Record Handler := {
  h_level : Z;
  h_formatter : option Formatter;
  h_target : Target
}.

(** A filter object: [filter(record)] may change the record in place
    and answers whether the record is kept. *)
Definition Filter := LogRecord -> LogRecord * bool.

(** A [logging.Logger] object *)
Record Logger := {
  l_name : string;
  l_level : Z;
  l_filters : list Filter;
  l_handlers : list Handler;
  l_disabled : bool
}.

Definition with_level (lv : Z) (lg : Logger) : Logger :=
  {| l_name := l_name lg; l_level := lv; l_filters := l_filters lg;
     l_handlers := l_handlers lg; l_disabled := l_disabled lg |}.

Definition with_filter (f : Filter) (lg : Logger) : Logger :=
  {| l_name := l_name lg; l_level := l_level lg;
     l_filters := l_filters lg ++ [f];
     l_handlers := l_handlers lg; l_disabled := l_disabled lg |}.

Definition with_handler (h : Handler) (lg : Logger) : Logger :=
  {| l_name := l_name lg; l_level := l_level lg; l_filters := l_filters lg;
     l_handlers := l_handlers lg ++ [h]; l_disabled := l_disabled lg |}.

(** A [QueueListener]: the handlers it feeds, and whether its thread
    is running. *)
Record QueueListener := {
  ql_handlers : list Handler;
  ql_running : bool
}.

(** What the code reads from its surroundings *)
Record Env := {
  now : Clock;                          (* datetime.datetime.now() *)
  elapsed_since : Clock -> string;      (* str(datetime.now() - t) *)
  exc_info : option FrameSummary;       (* sys.exc_info() traceback *)
  format_exc : string;                  (* traceback.format_exc() *)
  environ : gmap string string;         (* os.environ *)
  module_path : string;                 (* the file of the logger module *)
  pid : Z;
  tid : Z
}.

(** The mutable state of the process. Logger objects live in [heap]
    and are referred to by their index, so that two references to one
    object see each other's updates. A log file is the list of the lines
    appended to it (its rotated generations taken together).

    [console] is the list of the lines the console handlers hand to
    their stream, which is [sys.stderr]. The reports that
    [Handler.handleError] prints on that same stream are not lines of a
    handler: they are counted in [stderr_errors], so that what a
    terminal shows is [console] only while [stderr_errors] stands
    still. In [custom_logger.py] the stream is the wrapper that
    colorama's [init(autoreset=True)] has put around [sys.stderr] when
    the module was imported: there [console] is what goes into the
    wrapper, which then strips or resets the colour codes. *)
Record World := {
  env : Env;
  heap : list Logger;
  loggerDict : gmap string nat;         (* logging.Logger.manager *)
  files : gmap string (list string);
  console : list string;
  stderr_errors : nat;                  (* Handler.handleError calls *)
  log_queue : list LogRecord;           (* queue.Queue() *)
  stack_walks : nat;                    (* inspect.stack() calls *)
  records : list LogRecord;             (* makeRecord calls *)
  shared_logger : option nat;           (* cls._shared_logger *)
  log_file_name : option string;        (* cls._log_file_name *)
  created_loggers : gmap string nat;    (* cls._created_loggers *)
  queue_listener : option QueueListener (* cls.queue_listener *)
}.

Definition set_heap (v : list Logger) (w : World) : World :=
  Build_World (env w) v (loggerDict w) (files w) (console w) (stderr_errors w)
    (log_queue w) (stack_walks w) (records w) (shared_logger w)
    (log_file_name w) (created_loggers w) (queue_listener w).

Definition set_loggerDict (v : gmap string nat) (w : World) : World :=
  Build_World (env w) (heap w) v (files w) (console w) (stderr_errors w)
    (log_queue w) (stack_walks w) (records w) (shared_logger w)
    (log_file_name w) (created_loggers w) (queue_listener w).

Definition set_files (v : gmap string (list string)) (w : World) : World :=
  Build_World (env w) (heap w) (loggerDict w) v (console w) (stderr_errors w)
    (log_queue w) (stack_walks w) (records w) (shared_logger w)
    (log_file_name w) (created_loggers w) (queue_listener w).

Definition set_console (v : list string) (w : World) : World :=
  Build_World (env w) (heap w) (loggerDict w) (files w) v (stderr_errors w)
    (log_queue w) (stack_walks w) (records w) (shared_logger w)
    (log_file_name w) (created_loggers w) (queue_listener w).

Definition set_stderr_errors (v : nat) (w : World) : World :=
  Build_World (env w) (heap w) (loggerDict w) (files w) (console w) v
    (log_queue w) (stack_walks w) (records w) (shared_logger w)
    (log_file_name w) (created_loggers w) (queue_listener w).

Definition set_log_queue (v : list LogRecord) (w : World) : World :=
  Build_World (env w) (heap w) (loggerDict w) (files w) (console w)
    (stderr_errors w) v (stack_walks w) (records w) (shared_logger w)
    (log_file_name w) (created_loggers w) (queue_listener w).

Definition set_stack_walks (v : nat) (w : World) : World :=
  Build_World (env w) (heap w) (loggerDict w) (files w) (console w)
    (stderr_errors w) (log_queue w) v (records w) (shared_logger w)
    (log_file_name w) (created_loggers w) (queue_listener w).

Definition set_records (v : list LogRecord) (w : World) : World :=
  Build_World (env w) (heap w) (loggerDict w) (files w) (console w)
    (stderr_errors w) (log_queue w) (stack_walks w) v (shared_logger w)
    (log_file_name w) (created_loggers w) (queue_listener w).

Definition set_shared_logger (v : option nat) (w : World) : World :=
  Build_World (env w) (heap w) (loggerDict w) (files w) (console w)
    (stderr_errors w) (log_queue w) (stack_walks w) (records w) v
    (log_file_name w) (created_loggers w) (queue_listener w).

Definition set_log_file_name (v : option string) (w : World) : World :=
  Build_World (env w) (heap w) (loggerDict w) (files w) (console w)
    (stderr_errors w) (log_queue w) (stack_walks w) (records w)
    (shared_logger w) v (created_loggers w) (queue_listener w).

Definition set_queue_listener (v : option QueueListener) (w : World) : World :=
  Build_World (env w) (heap w) (loggerDict w) (files w) (console w)
    (stderr_errors w) (log_queue w) (stack_walks w) (records w)
    (shared_logger w) (log_file_name w) (created_loggers w) v.

Definition set_env (v : Env) (w : World) : World :=
  Build_World v (heap w) (loggerDict w) (files w) (console w)
    (stderr_errors w) (log_queue w) (stack_walks w) (records w)
    (shared_logger w) (log_file_name w) (created_loggers w)
    (queue_listener w).

(** The lines of a log file; a file that was never opened has none. *)
Definition file_lines (w : World) (path : string) : list string :=
  default [] (files w !! path).

(** ** Computations: state passing with Python exceptions *)

Inductive Exn := IndexError | AttributeError.

Inductive Result (A : Type) :=
| Ok (a : A)
| Raise (e : Exn).
Arguments Ok {A} a.
Arguments Raise {A} e.

Definition M (A : Type) : Type := World -> Result A * World.

Definition ret {A} (a : A) : M A := fun w => (Ok a, w).

Definition raise {A} (e : Exn) : M A := fun w => (Raise e, w).

Definition bind {A B} (m : M A) (k : A -> M B) : M B :=
  fun w =>
    match m w with
    | (Ok a, w') => k a w'
    | (Raise e, w') => (Raise e, w')
    end.

Definition get : M World := fun w => (Ok w, w).

Definition modify (f : World -> World) : M unit := fun w => (Ok tt, f w).

Notation "'let*' x ':=' m 'in' k" := (bind m (fun x => k))
  (at level 10, x name, m at level 100, k at level 200).

Notation "'do' m 'then' k" := (bind m (fun _ => k))
  (at level 10, m at level 100, k at level 200).

(** The state after a computation, and its outcome *)
Definition exec {A} (m : M A) (w : World) : World := snd (m w).
Definition outcome {A} (m : M A) (w : World) : Result A := fst (m w).

(** Run [f] on every element, in order; an exception ends the loop. *)
Fixpoint for_each {A} (f : A -> M unit) (l : list A) : M unit :=
  match l with
  | [] => ret tt
  | x :: l' => do f x then for_each f l'
  end.

(** Dereference a logger object; a method call on [None] raises
    [AttributeError]. *)
Definition deref (ref : option nat) : M Logger :=
  fun w =>
    match ref with
    | Some i =>
        match heap w !! i with
        | Some lg => (Ok lg, w)
        | None => (Raise AttributeError, w)
        end
    | None => (Raise AttributeError, w)
    end.

(** Allocate a logger object and return its reference. *)
Definition alloc (lg : Logger) : M nat :=
  fun w => (Ok (length (heap w)), set_heap (heap w ++ [lg]) w).

(** Update a logger object in place. *)
Definition update (i : nat) (f : Logger -> Logger) : M unit :=
  modify (fun w => set_heap (alter f i (heap w)) w).

(** ** The parts of Python's [logging] package the facades rely on *)

Module logging.

(** [LogRecord.getMessage]: [msg % args] when there are arguments *)
Definition getMessage (r : LogRecord) : option string :=
  match r_args r with
  | [] => Some (r_msg r)
  | _ :: _ => PyStr.percent (r_msg r) (r_args r)
  end.

Definition piece (r : LogRecord) (message : string) (p : FmtPiece) : string :=
  match p with
  | Lit s => s
  | Fasctime => stamp_asctime (r_created r)
  | Fname => r_name r
  | Flevelname => r_levelname r
  | Ffilename => r_filename r
  | Flineno => pretty (r_lineno r)
  | Fprocess => pretty (r_process r)
  | Fthread => pretty (r_thread r)
  | Fmessage => message
  end.

Definition formatMessage (fmt : list FmtPiece) (r : LogRecord)
    (message : string) : string :=
  foldr String.append EmptyString (piece r message <$> fmt).

(** [logging.Formatter.format] *)
Definition Formatter_format (fmt : list FmtPiece) (r : LogRecord)
    : option string :=
  formatMessage fmt r <$> getMessage r.

Definition ESC : string := String "027" EmptyString.
Definition BLUE : string := ESC +:+ "[94m".
Definition GREEN : string := ESC +:+ "[92m".
Definition YELLOW : string := ESC +:+ "[93m".
Definition RED : string := ESC +:+ "[91m".
Definition MAGENTA : string := ESC +:+ "[95m".
Definition RESET : string := ESC +:+ "[0m".

(** [CustomFormatter.COLORS.get(record.levelname, RESET)] *)
Definition COLORS (levelname : string) : string :=
  if String.eqb levelname "DEBUG" then BLUE
  else if String.eqb levelname "INFO" then GREEN
  else if String.eqb levelname "WARNING" then YELLOW
  else if String.eqb levelname "ERROR" then RED
  else RESET.

(** [ColorFormatter.COLORS.get(record.levelno, RESET)] *)
Definition COLORS_levelno (levelno : Z) : string :=
  if levelno =? DEBUG then BLUE
  else if levelno =? INFO then GREEN
  else if levelno =? WARNING then YELLOW
  else if levelno =? ERROR then RED
  else if levelno =? CRITICAL then MAGENTA
  else RESET.

Definition hex_digit (n : nat) : ascii :=
  ascii_of_nat (if (n <? 10)%nat then 48 + n else 87 + n).

Definition QUOTE : ascii := "034".
Definition BACKSLASH : ascii := "092".

Definition escaped (s : string) : string := String BACKSLASH s.

(** The escaping of [json.dumps] (with [ensure_ascii]) *)
Definition json_escape_char (c : ascii) : string :=
  let n := nat_of_ascii c in
  if Ascii.eqb c QUOTE then escaped (String QUOTE EmptyString)
  else if Ascii.eqb c BACKSLASH then escaped (String BACKSLASH EmptyString)
  else if (n =? 8)%nat then escaped "b"
  else if (n =? 9)%nat then escaped "t"
  else if (n =? 10)%nat then escaped "n"
  else if (n =? 12)%nat then escaped "f"
  else if (n =? 13)%nat then escaped "r"
  else if (n <? 32)%nat || (126 <? n)%nat
       then escaped ("u00" +:+ String (hex_digit (n / 16))
              (String (hex_digit (n mod 16)) EmptyString))
  else String c EmptyString.

Fixpoint json_escape (s : string) : string :=
  match s with
  | EmptyString => EmptyString
  | String c s' => json_escape_char c +:+ json_escape s'
  end.

Definition json_str (s : string) : string :=
  String QUOTE (json_escape s +:+ String QUOTE EmptyString).

(** [JSONFormatter.format]: the five keys, in insertion order *)
Definition JSON_format (e : Env) (r : LogRecord) : string :=
  "{" +:+ json_str "time" +:+ ": " +:+ json_str (stamp_dash (now e)) +:+ ", "
      +:+ json_str "level" +:+ ": " +:+ json_str (r_levelname r) +:+ ", "
      +:+ json_str "file" +:+ ": " +:+ json_str (r_pathname r) +:+ ", "
      +:+ json_str "line" +:+ ": " +:+ pretty (r_lineno r) +:+ ", "
      +:+ json_str "message" +:+ ": " +:+ json_str (r_msg r) +:+ "}".

Definition format (e : Env) (f : Formatter) (r : LogRecord) : option string :=
  match f with
  | PlainFormatter fmt => Formatter_format fmt r
  | CustomFormatter fmt =>
      (fun log_msg => COLORS (r_levelname r) +:+ log_msg +:+ RESET)
        <$> Formatter_format fmt r
  | ColorFormatter fmt =>
      (fun log_msg => COLORS_levelno (r_levelno r) +:+ log_msg +:+ RESET)
        <$> Formatter_format fmt r
  | JSONFormatter => Some (JSON_format e r)
  end.

(** [Handler.format]: the handler's formatter, or the default one *)
Definition Handler_format (e : Env) (h : Handler) (r : LogRecord)
    : option string :=
  format e (default (PlainFormatter [Fmessage]) (h_formatter h)) r.

(** [Handler.handleError]: the report is printed on [sys.stderr] and
    counted here, apart from the lines of [console]; the error is never
    propagated. *)
Definition handleError : M unit :=
  modify (fun w => set_stderr_errors (S (stderr_errors w)) w).

(** [QueueHandler.prepare] *)
Definition prepare (msg : string) (r : LogRecord) : LogRecord :=
  set_args [] (set_msg msg r).

(** [Handler.handle], which calls the handler's [emit] *)
Definition Handler_handle (h : Handler) (r : LogRecord) : M unit :=
  let* w := get in
  match Handler_format (env w) h r with
  | None => handleError
  | Some line =>
      match h_target h with
      | ToConsole => modify (fun w => set_console (console w ++ [line]) w)
      | ToFile path =>
          modify (fun w =>
            set_files (<[path := file_lines w path ++ [line]]> (files w)) w)
      | ToQueue =>
          modify (fun w => set_log_queue (log_queue w ++ [prepare line r]) w)
      end
  end.

(** [Logger.callHandlers], over the handlers of the logger itself:
    the loggers of the repository have no ancestor with a handler (see
    [getLogger]). *)
Definition callHandlers (lg : Logger) (r : LogRecord) : M unit :=
  for_each (fun h =>
              if h_level h <=? r_levelno r then Handler_handle h r
              else ret tt)
           (l_handlers lg).

(** [Filterer.filter]: the first filter that answers false ends the
    loop. *)
Fixpoint Filterer_filter (fs : list Filter) (r : LogRecord)
    : LogRecord * bool :=
  match fs with
  | [] => (r, true)
  | f :: fs' =>
      let '(r', keep) := f r in
      if keep then Filterer_filter fs' r' else (r', false)
  end.

(** [Logger.handle] *)
Definition handle (lg : Logger) (r : LogRecord) : M unit :=
  if l_disabled lg then ret tt
  else
    let '(r', keep) := Filterer_filter (l_filters lg) r in
    if keep then callHandlers lg r' else ret tt.

(** [Logger.isEnabledFor]. The level is the logger's own: the
    loggers of [custom_logger.py] have their level set when they are
    built and by [set_level] only, the other loggers have no parent to
    inherit from, and nothing in the repository calls [logging.disable].
    The cache [logging] keeps of the answers is left out; [setLevel]
    empties it for the loggers that [getLogger] hands out. The logger
    [final_logger.py] constructs itself is not among them: for it the
    definition is that of Python as long as the level has not changed
    since the logger first logged, and what is proved of its level
    methods starts from a process that has not logged yet. *)
Definition isEnabledFor (lg : Logger) (level : Z) : bool :=
  if l_disabled lg then false else l_level lg <=? level.

(** [Logger.makeRecord] *)
Definition makeRecord (e : Env) (name : string) (level : Z)
    (site : string * Z) (msg : string) (args : list string) : LogRecord :=
  {| r_name := name; r_levelno := level; r_pathname := fst site;
     r_lineno := snd site; r_msg := msg; r_args := args;
     r_created := now e; r_process := pid e; r_thread := tid e;
     r_user_id := None |}.

(** [Logger._log]; [site] is what [findCaller] reports: the file and
    line of the statement that called the [logging] method. *)
Definition _log (ref : nat) (level : Z) (msg : string) (args : list string)
    (site : string * Z) : M unit :=
  let* lg := deref (Some ref) in
  let* w := get in
  let r := makeRecord (env w) (l_name lg) level site msg args in
  do modify (fun w => set_records (records w ++ [r]) w) then
  handle lg r.

(** [Logger.debug], [Logger.info], ... and [Logger.log]: the level
    check comes first. *)
Definition log (ref : nat) (level : Z) (msg : string) (args : list string)
    (site : string * Z) : M unit :=
  let* lg := deref (Some ref) in
  if isEnabledFor lg level then _log ref level msg args site else ret tt.

(** [Logger.setLevel] *)
Definition setLevel (ref : nat) (level : Z) : M unit :=
  do deref (Some ref) then update ref (with_level level).

(** [logging.getLogger(name)]: one logger object per name, made on
    first use; an empty name stands for the root logger, whose level
    is WARNING. A logger's handlers alone see its records: names
    are taken without dots and the root logger has no handler. *)
Definition getLogger (name : string) : M nat :=
  let key := if String.eqb name EmptyString then "root" else name in
  let* w := get in
  match loggerDict w !! key with
  | Some i => ret i
  | None =>
      let* i :=
        alloc {| l_name := key;
                 l_level := if String.eqb key "root" then WARNING else NOTSET;
                 l_filters := []; l_handlers := []; l_disabled := false |} in
      do modify (fun w => set_loggerDict (<[key := i]> (loggerDict w)) w) then
      ret i
  end.

(** [QueueListener.handle]: every handler of the listener gets the
    record ([respect_handler_level] is off). *)
Definition QueueListener_handle (hs : list Handler) (r : LogRecord)
    : M unit :=
  for_each (fun h => Handler_handle h r) hs.

(** One turn of the loop of the listener's thread: take the oldest
    record off the queue and handle it. *)
Definition listener_step (ql : QueueListener) : M unit :=
  let* w := get in
  if ql_running ql then
    match log_queue w with
    | [] => ret tt
    | r :: q =>
        do modify (set_log_queue q) then
        QueueListener_handle (ql_handlers ql) r
    end
  else ret tt.

(** The thread handles, in order, the [n] records that are ahead of
    the sentinel. *)
Fixpoint drain (n : nat) (ql : QueueListener) : M unit :=
  match n with
  | O => ret tt
  | S n' => do listener_step ql then drain n' ql
  end.

(** [QueueListener.stop]: put the sentinel on the queue and join
    the thread, which ends when it meets the sentinel. A listener
    whose thread has ended is left as it is. *)
Definition stop (ql : QueueListener) : M QueueListener :=
  if ql_running ql then
    let* w := get in
    do drain (length (log_queue w)) ql then
    ret {| ql_handlers := ql_handlers ql; ql_running := false |}
  else ret ql.

End logging.

(** A frame of the logger module's own code, as [inspect.stack()]
    lists it. *)
Definition own_frame (w : World) (function : string) (line : Z) : FrameInfo :=
  {| f_filename := module_path (env w); f_lineno := line;
     f_function := function; f_module := None |}.

(** [inspect.stack()]: the frames of the running thread, innermost
    first. *)
Definition inspect_stack (frames : list FrameInfo) : M (list FrameInfo) :=
  do modify (fun w => set_stack_walks (S (stack_walks w)) w) then ret frames.

Definition NL : string := String "010" EmptyString.

(** [FileHandler(name)] and [RotatingFileHandler(name, ...)] open the
    file for appending when they are constructed. *)
Definition open_file (path : string) : M unit :=
  modify (fun w => set_files (<[path := file_lines w path]> (files w)) w).

(** [time.sleep(1)]: time passes and nothing else happens; [later]
    says what the surroundings are once the call returns. *)
Definition sleep (later : Env -> Env) : M unit :=
  modify (fun w => set_env (later (env w)) w).

(** ** qlogger.py *)

Module qlogger.

(** [CustomLogger.__get_call_info]; [below] are the frames under its
    own one: the level method that called it, then that method's
    callers. *)
Definition __get_call_info (below : list FrameInfo) : M (string * Z) :=
  let* w := get in
  let* stack := inspect_stack (own_frame w "__get_call_info" 69 :: below) in
  match stack !! 2%nat with
  | Some fr => ret (f_filename fr, f_lineno fr)
  | None => raise IndexError
  end.

(** [CustomLogger.info]; [callers] is the call stack at the call of
    the method, the calling frame first. The call is one with
    positional arguments only: the keyword options the four level
    methods of every variant pass on to [logging] ([exc_info],
    [stack_info], [extra]) are not modelled. *)
Definition info (self : nat) (msg : string) (args : list string)
    (callers : list FrameInfo) : M unit :=
  let* w := get in
  let timestamp := stamp_dash (now (env w)) in
  let* ci := __get_call_info (own_frame w "info" 25 :: callers) in
  let msg := fst ci +:+ " " +:+ pretty (snd ci) +:+ " : " +:+ timestamp
             +:+ " INFO: " +:+ msg in
  logging.log self INFO msg args (module_path (env w), 27).

(** [CustomLogger.debug] *)
Definition debug (self : nat) (msg : string) (args : list string)
    (callers : list FrameInfo) : M unit :=
  let* w := get in
  let timestamp := stamp_dash (now (env w)) in
  let* ci := __get_call_info (own_frame w "debug" 34 :: callers) in
  let msg := fst ci +:+ " " +:+ pretty (snd ci) +:+ " : " +:+ timestamp
             +:+ " DEBUG: " +:+ msg in
  logging.log self INFO msg args (module_path (env w), 36).

(** [CustomLogger.warning] *)
Definition warning (self : nat) (msg : string) (args : list string)
    (callers : list FrameInfo) : M unit :=
  let* w := get in
  let timestamp := stamp_dash (now (env w)) in
  let* ci := __get_call_info (own_frame w "warning" 43 :: callers) in
  let msg := fst ci +:+ " " +:+ pretty (snd ci) +:+ " : " +:+ timestamp
             +:+ " WARNING: " +:+ msg in
  logging.log self INFO msg args (module_path (env w), 45).

(** The text [error] appends while an exception is being handled *)
Definition exception_text (tb : option FrameSummary) : string :=
  match tb with
  | Some t =>
      NL +:+ " Exception in" +:+ tb_filename t +:+ ", Line "
         +:+ pretty (tb_lineno t) +:+ ", in " +:+ tb_name t +:+ ": "
         +:+ tb_line t
  | None => EmptyString
  end.

(** [CustomLogger.error] *)
Definition error (self : nat) (msg : string) (args : list string)
    (callers : list FrameInfo) : M unit :=
  let* w := get in
  let timestamp := stamp_dash (now (env w)) in
  let msg := msg +:+ exception_text (exc_info (env w)) in
  let* ci := __get_call_info (own_frame w "error" 57 :: callers) in
  let msg := fst ci +:+ " " +:+ pretty (snd ci) +:+ " : " +:+ timestamp
             +:+ " ERROR: " +:+ msg in
  logging.log self INFO msg args (module_path (env w), 59).

(** [CaptureConsoleLogs.setup_logger] *)
Definition setup_logger (log_file_name : string) : M nat :=
  let* w := get in
  match shared_logger w with
  | Some lg => ret lg
  | None =>
      let* logger :=
        alloc {| l_name := "custom_logger"; l_level := DEBUG;
                 l_filters := []; l_handlers := []; l_disabled := false |} in
      do logging.setLevel logger DEBUG then
      do open_file log_file_name then
      let file_hendler :=
        {| h_level := DEBUG; h_formatter := None;
           h_target := ToFile log_file_name |} in
      let console_hendler :=
        {| h_level := DEBUG; h_formatter := None; h_target := ToConsole |} in
      do update logger (with_handler file_hendler) then
      do update logger (with_handler console_hendler) then
      do modify (set_shared_logger (Some logger)) then
      ret logger
  end.

(** [CaptureConsoleLogs.get_logger] *)
Definition get_logger : M (option nat) :=
  let log_file_name := "test_console" in
  let* w := get in
  do (if bool_decide (shared_logger w = None)
         && bool_decide (created_loggers w !! log_file_name = None)
      then
        let timestamp := stamp_dash (now (env w)) in
        let log_file_name := log_file_name +:+ "_" +:+ timestamp +:+ ".log" in
        let* lg := setup_logger log_file_name in
        do modify (set_shared_logger (Some lg)) then
        modify (set_log_file_name (Some log_file_name))
      else ret tt) then
  let* w := get in
  ret (shared_logger w).

(** [CaptureConsoleLogs.get_log_file_name] *)
Definition get_log_file_name : M (option string) :=
  let* w := get in ret (log_file_name w).

(** [CaptureConsoleLogs.count_down]. The loop runs while [duration]
    is not zero; [fuel] bounds the number of tests of the loop
    condition, and the answer tells whether the loop ended within it.
    [callers] is the call stack at the call of [count_down]. *)
Fixpoint count_down (fuel : nat) (later : Env -> Env) (duration : Z)
    (callers : list FrameInfo) : M bool :=
  match fuel with
  | O => ret false
  | S fuel' =>
      if duration =? 0 then ret true
      else
        let minutes := duration / 60 in
        let secs := duration mod 60 in
        let timer := pretty minutes +:+ " min :" +:+ pretty secs +:+ " secs" in
        do (if duration mod 10 =? 0 then
              let* w := get in
              let* lg := get_logger in
              match lg with
              | Some l =>
                  info l ("Wait for: " +:+ timer) []
                    (own_frame w "count_down" 145 :: callers)
              | None => raise AttributeError
              end
            else ret tt) then
        do sleep later then
        count_down fuel' later (duration - 1) callers
  end.

End qlogger.

(** ** q_logger1.py *)

Module q_logger1.

(** [CustomLogger.__get_call_info] *)
Definition __get_call_info (below : list FrameInfo) : M (string * Z) :=
  let* w := get in
  let* stack := inspect_stack (own_frame w "__get_call_info" 60 :: below) in
  match stack !! 2%nat with
  | Some fr => ret (f_filename fr, f_lineno fr)
  | None => raise IndexError
  end.

(** [CustomLogger.info] *)
Definition info (self : nat) (msg : string) (args : list string)
    (callers : list FrameInfo) : M unit :=
  let* w := get in
  let timestamp := stamp_dash (now (env w)) in
  let* ci := __get_call_info (own_frame w "info" 23 :: callers) in
  let msg := fst ci +:+ " " +:+ pretty (snd ci) +:+ " : " +:+ timestamp
             +:+ " INFO: " +:+ msg in
  logging.log self INFO msg args (module_path (env w), 25).

(** [CustomLogger.debug] *)
Definition debug (self : nat) (msg : string) (args : list string)
    (callers : list FrameInfo) : M unit :=
  let* w := get in
  let timestamp := stamp_dash (now (env w)) in
  let* ci := __get_call_info (own_frame w "debug" 32 :: callers) in
  let msg := fst ci +:+ " " +:+ pretty (snd ci) +:+ " : " +:+ timestamp
             +:+ " DEBUG: " +:+ msg in
  logging.log self DEBUG msg args (module_path (env w), 34).

(** [CustomLogger.warning] *)
Definition warning (self : nat) (msg : string) (args : list string)
    (callers : list FrameInfo) : M unit :=
  let* w := get in
  let timestamp := stamp_dash (now (env w)) in
  let* ci := __get_call_info (own_frame w "warning" 41 :: callers) in
  let msg := fst ci +:+ " " +:+ pretty (snd ci) +:+ " : " +:+ timestamp
             +:+ " WARNING: " +:+ msg in
  logging.log self WARNING msg args (module_path (env w), 43).

Definition exception_text (tb : option FrameSummary) : string :=
  match tb with
  | Some t =>
      NL +:+ " Exception in " +:+ tb_filename t +:+ ", Line "
         +:+ pretty (tb_lineno t) +:+ ", in " +:+ tb_name t +:+ ": "
         +:+ tb_line t
  | None => EmptyString
  end.

(** [CustomLogger.error] *)
Definition error (self : nat) (msg : string) (args : list string)
    (callers : list FrameInfo) : M unit :=
  let* w := get in
  let timestamp := stamp_dash (now (env w)) in
  let msg := msg +:+ exception_text (exc_info (env w)) in
  let* ci := __get_call_info (own_frame w "error" 55 :: callers) in
  let msg := fst ci +:+ " " +:+ pretty (snd ci) +:+ " : " +:+ timestamp
             +:+ " ERROR: " +:+ msg in
  logging.log self ERROR msg args (module_path (env w), 57).

(** [CaptureConsoleLogs.setup_logger] *)
Definition setup_logger (log_file_name : string) : M nat :=
  let* w := get in
  match shared_logger w with
  | Some lg => ret lg
  | None =>
      let* logger :=
        alloc {| l_name := "custom_logger"; l_level := DEBUG;
                 l_filters := []; l_handlers := []; l_disabled := false |} in
      do logging.setLevel logger DEBUG then
      do open_file log_file_name then
      let file_handler :=
        {| h_level := DEBUG; h_formatter := Some (PlainFormatter [Fmessage]);
           h_target := ToFile log_file_name |} in
      let console_handler :=
        {| h_level := DEBUG; h_formatter := Some (ColorFormatter [Fmessage]);
           h_target := ToConsole |} in
      do update logger (with_handler file_handler) then
      do update logger (with_handler console_handler) then
      do modify (set_shared_logger (Some logger)) then
      ret logger
  end.

(** [CaptureConsoleLogs.get_logger] *)
Definition get_logger : M (option nat) :=
  let log_file_name := "test_console" in
  let* w := get in
  do (if bool_decide (shared_logger w = None)
         && bool_decide (created_loggers w !! log_file_name = None)
      then
        let timestamp := stamp_dash (now (env w)) in
        let log_file_name := log_file_name +:+ "_" +:+ timestamp +:+ ".log" in
        let* lg := setup_logger log_file_name in
        do modify (set_shared_logger (Some lg)) then
        modify (set_log_file_name (Some log_file_name))
      else ret tt) then
  let* w := get in
  ret (shared_logger w).

End q_logger1.

(** ** q_logger2.py *)

Module q_logger2.

(** [CustomLogger.__get_call_info] *)
Definition __get_call_info (below : list FrameInfo) : M (string * Z) :=
  let* w := get in
  let* stack := inspect_stack (own_frame w "__get_call_info" 84 :: below) in
  match stack !! 2%nat with
  | Some fr => ret (f_filename fr, f_lineno fr)
  | None => raise IndexError
  end.

(** [CustomLogger.info] *)
Definition info (self : nat) (msg : string) (args : list string)
    (callers : list FrameInfo) : M unit :=
  let* w := get in
  let timestamp := stamp_dash (now (env w)) in
  let* ci := __get_call_info (own_frame w "info" 40 :: callers) in
  let msg := fst ci +:+ " " +:+ pretty (snd ci) +:+ " : " +:+ timestamp
             +:+ " INFO: " +:+ msg in
  logging.log self INFO msg args (module_path (env w), 42).

(** [CustomLogger.debug] *)
Definition debug (self : nat) (msg : string) (args : list string)
    (callers : list FrameInfo) : M unit :=
  let* w := get in
  let timestamp := stamp_dash (now (env w)) in
  let* ci := __get_call_info (own_frame w "debug" 49 :: callers) in
  let msg := fst ci +:+ " " +:+ pretty (snd ci) +:+ " : " +:+ timestamp
             +:+ " DEBUG: " +:+ msg in
  logging.log self INFO msg args (module_path (env w), 51).

(** [CustomLogger.warning] *)
Definition warning (self : nat) (msg : string) (args : list string)
    (callers : list FrameInfo) : M unit :=
  let* w := get in
  let timestamp := stamp_dash (now (env w)) in
  let* ci := __get_call_info (own_frame w "warning" 58 :: callers) in
  let msg := fst ci +:+ " " +:+ pretty (snd ci) +:+ " : " +:+ timestamp
             +:+ " WARNING: " +:+ msg in
  logging.log self INFO msg args (module_path (env w), 60).

Definition exception_text (tb : option FrameSummary) : string :=
  match tb with
  | Some t =>
      NL +:+ " Exception in " +:+ tb_filename t +:+ ", Line "
         +:+ pretty (tb_lineno t) +:+ ", in " +:+ tb_name t +:+ ": "
         +:+ tb_line t
  | None => EmptyString
  end.

(** [CustomLogger.error] *)
Definition error (self : nat) (msg : string) (args : list string)
    (callers : list FrameInfo) : M unit :=
  let* w := get in
  let timestamp := stamp_dash (now (env w)) in
  let msg := msg +:+ exception_text (exc_info (env w)) in
  let* ci := __get_call_info (own_frame w "error" 72 :: callers) in
  let msg := fst ci +:+ " " +:+ pretty (snd ci) +:+ " : " +:+ timestamp
             +:+ " ERROR: " +:+ msg in
  logging.log self INFO msg args (module_path (env w), 74).

(** [CaptureConsoleLogs.setup_logger] *)
Definition setup_logger (log_file_name : string) : M nat :=
  let* w := get in
  match shared_logger w with
  | Some lg => ret lg
  | None =>
      let* logger :=
        alloc {| l_name := "custom_logger"; l_level := DEBUG;
                 l_filters := []; l_handlers := []; l_disabled := false |} in
      do logging.setLevel logger DEBUG then
      do open_file log_file_name then
      let file_handler :=
        {| h_level := DEBUG; h_formatter := Some (PlainFormatter [Fmessage]);
           h_target := ToFile log_file_name |} in
      let console_handler :=
        {| h_level := DEBUG; h_formatter := Some (CustomFormatter [Fmessage]);
           h_target := ToConsole |} in
      do update logger (with_handler file_handler) then
      do update logger (with_handler console_handler) then
      do modify (set_shared_logger (Some logger)) then
      ret logger
  end.

(** [CaptureConsoleLogs.get_logger] *)
Definition get_logger : M (option nat) :=
  let log_file_name := "test_console" in
  let* w := get in
  do (if bool_decide (shared_logger w = None)
         && bool_decide (created_loggers w !! log_file_name = None)
      then
        let timestamp := stamp_dash (now (env w)) in
        let log_file_name := log_file_name +:+ "_" +:+ timestamp +:+ ".log" in
        let* lg := setup_logger log_file_name in
        do modify (set_shared_logger (Some lg)) then
        modify (set_log_file_name (Some log_file_name))
      else ret tt) then
  let* w := get in
  ret (shared_logger w).

End q_logger2.

(** ** final_logger.py *)

Module final_logger.

(** [SensitiveDataFilter.filter] *)
Definition SensitiveDataFilter : Filter :=
  fun record =>
    (set_msg (PyStr.replace "password" "******" (r_msg record)) record, true).

(** [ContextFilter.filter] *)
Definition ContextFilter : Filter :=
  fun record => (set_user_id "12345" record, true).

(** [CustomLogger.__get_call_info] *)
Definition __get_call_info (below : list FrameInfo) : M (string * Z) :=
  let* w := get in
  let* stack := inspect_stack (own_frame w "__get_call_info" 105 :: below) in
  match stack !! 2%nat with
  | Some fr => ret (f_filename fr, f_lineno fr)
  | None => raise IndexError
  end.

(** [CustomLogger.info] *)
Definition info (self : nat) (msg : string) (args : list string)
    (callers : list FrameInfo) : M unit :=
  let* w := get in
  let timestamp := stamp_dash (now (env w)) in
  let* ci := __get_call_info (own_frame w "info" 73 :: callers) in
  let msg := fst ci +:+ " " +:+ pretty (snd ci) +:+ " : " +:+ timestamp
             +:+ " INFO: " +:+ msg in
  logging.log self INFO msg args (module_path (env w), 75).

(** [CustomLogger.debug] *)
Definition debug (self : nat) (msg : string) (args : list string)
    (callers : list FrameInfo) : M unit :=
  let* w := get in
  let timestamp := stamp_dash (now (env w)) in
  let* ci := __get_call_info (own_frame w "debug" 79 :: callers) in
  let msg := fst ci +:+ " " +:+ pretty (snd ci) +:+ " : " +:+ timestamp
             +:+ " DEBUG: " +:+ msg in
  logging.log self INFO msg args (module_path (env w), 81).

(** [CustomLogger.warning] *)
Definition warning (self : nat) (msg : string) (args : list string)
    (callers : list FrameInfo) : M unit :=
  let* w := get in
  let timestamp := stamp_dash (now (env w)) in
  let* ci := __get_call_info (own_frame w "warning" 85 :: callers) in
  let msg := fst ci +:+ " " +:+ pretty (snd ci) +:+ " : " +:+ timestamp
             +:+ " WARNING: " +:+ msg in
  logging.log self INFO msg args (module_path (env w), 87).

Definition exception_text (tb : option FrameSummary) : string :=
  match tb with
  | Some t =>
      NL +:+ " Exception in " +:+ tb_filename t +:+ ", Line "
         +:+ pretty (tb_lineno t) +:+ ", in " +:+ tb_name t +:+ ": "
         +:+ tb_line t
  | None => EmptyString
  end.

(** [CustomLogger.error] *)
Definition error (self : nat) (msg : string) (args : list string)
    (callers : list FrameInfo) : M unit :=
  let* w := get in
  let timestamp := stamp_dash (now (env w)) in
  let msg := msg +:+ exception_text (exc_info (env w)) in
  let* ci := __get_call_info (own_frame w "error" 96 :: callers) in
  let msg := fst ci +:+ " " +:+ pretty (snd ci) +:+ " : " +:+ timestamp
             +:+ " ERROR: " +:+ msg in
  logging.log self INFO msg args (module_path (env w), 98).

(** The handlers [setup_logger] builds *)
Definition file_handler (log_file_name : string) (log_level : Z)
    (structured_logging : bool) : Handler :=
  {| h_level := log_level;
     h_formatter :=
       Some (if structured_logging then JSONFormatter
             else PlainFormatter
                    [Fasctime; Lit " - "; Flevelname; Lit " - "; Fmessage]);
     h_target := ToFile log_file_name |}.

Definition console_handler (log_level : Z) : Handler :=
  {| h_level := log_level;
     h_formatter := Some (CustomFormatter [Fmessage]);
     h_target := ToConsole |}.

Definition queue_handler : Handler :=
  {| h_level := NOTSET; h_formatter := None; h_target := ToQueue |}.

(** [CaptureConsoleLogs.setup_logger] *)
Definition setup_logger (log_file_name : string) (log_level : Z)
    (structured_logging : bool) : M nat :=
  let* w := get in
  match shared_logger w with
  | Some lg => ret lg
  | None =>
      let* logger :=
        alloc {| l_name := "custom_logger"; l_level := log_level;
                 l_filters := []; l_handlers := []; l_disabled := false |} in
      do open_file log_file_name then
      let file_handler :=
        file_handler log_file_name log_level structured_logging in
      let console_handler := console_handler log_level in
      do update logger (with_filter SensitiveDataFilter) then
      do update logger (with_filter ContextFilter) then
      do update logger (with_handler file_handler) then
      do update logger (with_handler console_handler) then
      do modify (set_log_queue []) then
      do update logger (with_handler queue_handler) then
      do modify (set_queue_listener
                   (Some {| ql_handlers := [file_handler; console_handler];
                            ql_running := true |})) then
      do modify (set_shared_logger (Some logger)) then
      ret logger
  end.

(** [CaptureConsoleLogs.get_logger] *)
Definition get_logger (log_file_name : string) (log_level : Z)
    (structured_logging : bool) : M (option nat) :=
  let* w := get in
  let environment := default "development" (environ (env w) !! "ENV") in
  do (if bool_decide (shared_logger w = None)
         && bool_decide (created_loggers w !! log_file_name = None)
      then
        let timestamp := stamp_dash (now (env w)) in
        let log_file_name := log_file_name +:+ "_" +:+ timestamp +:+ ".log" in
        let* lg := setup_logger log_file_name log_level structured_logging in
        do modify (set_shared_logger (Some lg)) then
        modify (set_log_file_name (Some log_file_name))
      else ret tt) then
  let* w := get in
  do (match shared_logger w with
      | Some lg =>
          if String.eqb environment "production"
          then logging.setLevel lg WARNING
          else logging.setLevel lg log_level
      | None => raise AttributeError
      end) then
  let* w := get in
  ret (shared_logger w).

(** The thread started by [cls.queue_listener.start()] takes a turn. *)
Definition listener_turn : M unit :=
  let* w := get in
  match queue_listener w with
  | Some ql => logging.listener_step ql
  | None => ret tt
  end.

(** [CaptureConsoleLogs.shutdown_logger]; [logging.shutdown] flushes
    and closes the handlers, which leaves what they wrote as it is. *)
Definition shutdown_logger : M unit :=
  let* w := get in
  do (match queue_listener w with
      | Some ql =>
          let* ql' := logging.stop ql in
          modify (set_queue_listener (Some ql'))
      | None => ret tt
      end) then
  let* w := get in
  do deref (shared_logger w) then
  ret tt.

(** [CaptureConsoleLogs.get_log_file_name] *)
Definition get_log_file_name : M (option string) :=
  let* w := get in ret (log_file_name w).

(** [CaptureConsoleLogs.count_down]; [get_logger] is called with its
    default arguments. [fuel] bounds the number of tests of the loop
    condition, and the answer tells whether the loop ended within it. *)
Fixpoint count_down (fuel : nat) (later : Env -> Env) (duration : Z)
    (callers : list FrameInfo) : M bool :=
  match fuel with
  | O => ret false
  | S fuel' =>
      if duration =? 0 then ret true
      else
        let minutes := duration / 60 in
        let secs := duration mod 60 in
        let timer := pretty minutes +:+ " min :" +:+ pretty secs +:+ " secs" in
        do (if duration mod 10 =? 0 then
              let* w := get in
              let* lg := get_logger "test_console" DEBUG false in
              match lg with
              | Some l =>
                  info l ("Wait for: " +:+ timer) []
                    (own_frame w "count_down" 198 :: callers)
              | None => raise AttributeError
              end
            else ret tt) then
        do sleep later then
        count_down fuel' later (duration - 1) callers
  end.

End final_logger.

(** ** custom_logger.py *)

Module custom_logger.

(** The colour codes of [colorama] *)
Definition Fore_GREEN : string := logging.ESC +:+ "[32m".
Definition Fore_CYAN : string := logging.ESC +:+ "[36m".
Definition Fore_YELLOW : string := logging.ESC +:+ "[33m".
Definition Fore_RED : string := logging.ESC +:+ "[31m".
Definition Fore_MAGENTA : string := logging.ESC +:+ "[35m".
Definition Style_RESET_ALL : string := logging.ESC +:+ "[0m".

(** A [CustomLogger] object: the wrapped logger and, once
    [start_timer] has run, the attribute [start_time]. *)
Record CustomLogger := {
  logger : nat;
  start_time : option Clock
}.

Definition console_format : list FmtPiece :=
  [Fasctime; Lit " - "; Fname; Lit " - "; Flevelname; Lit " - [";
   Ffilename; Lit ":"; Flineno; Lit "] - "; Fmessage].

Definition file_format : list FmtPiece :=
  [Fasctime; Lit " - "; Fname; Lit " - "; Flevelname; Lit " - [";
   Ffilename; Lit ":"; Flineno; Lit "] - [PID:"; Fprocess; Lit "] [TID:";
   Fthread; Lit "] - "; Fmessage].

(** [CustomLogger.__init__]. The stream of the console handler is
    [sys.stderr] as colorama's [init(autoreset=True)] has wrapped it at
    import; the lines in [console] are those given to the wrapper. *)
Definition __init__ (name : string) (log_to_file : bool) (log_file : string)
    : M CustomLogger :=
  let* lg := logging.getLogger name in
  do logging.setLevel lg DEBUG then
  let console_handler :=
    {| h_level := DEBUG; h_formatter := Some (PlainFormatter console_format);
       h_target := ToConsole |} in
  do update lg (with_handler console_handler) then
  do (if log_to_file then
        do open_file log_file then
        let file_handler :=
          {| h_level := DEBUG;
             h_formatter := Some (PlainFormatter file_format);
             h_target := ToFile log_file |} in
        update lg (with_handler file_handler)
      else ret tt) then
  ret {| logger := lg; start_time := None |}.

(** [CustomLogger._get_caller_info]; [below] are the frames under its
    own one. *)
Definition _get_caller_info (below : list FrameInfo)
    : M (string * string * Z) :=
  let* w := get in
  let* stack := inspect_stack (own_frame w "_get_caller_info" 49 :: below) in
  match stack !! 2%nat with
  | Some frame =>
      let class_name := default "Unknown" (f_module frame) in
      ret (class_name, f_function frame, f_lineno frame)
  | None => raise IndexError
  end.

(** [CustomLogger._get_datetime] *)
Definition _get_datetime : M string :=
  let* w := get in ret (stamp_space (now (env w))).

(** The text the level methods put in front of the message *)
Definition located (dt : string) (ci : string * string * Z)
    (message : string) : string :=
  dt +:+ " - " +:+ fst (fst ci) +:+ "." +:+ snd (fst ci) +:+ " (Line "
     +:+ pretty (snd ci) +:+ "): " +:+ message.

(** [CustomLogger.log_info] *)
Definition log_info (self : CustomLogger) (message : string)
    (callers : list FrameInfo) : M unit :=
  let* w := get in
  let* ci := _get_caller_info (own_frame w "log_info" 61 :: callers) in
  let* dt := _get_datetime in
  logging.log (logger self) INFO
    (Fore_GREEN +:+ located dt ci message +:+ Style_RESET_ALL) []
    (module_path (env w), 62).

(** [CustomLogger.log_debug] *)
Definition log_debug (self : CustomLogger) (message : string)
    (callers : list FrameInfo) : M unit :=
  let* w := get in
  let* ci := _get_caller_info (own_frame w "log_debug" 65 :: callers) in
  let* dt := _get_datetime in
  logging.log (logger self) DEBUG
    (Fore_CYAN +:+ located dt ci message +:+ Style_RESET_ALL) []
    (module_path (env w), 66).

(** [CustomLogger.log_warning] *)
Definition log_warning (self : CustomLogger) (message : string)
    (callers : list FrameInfo) : M unit :=
  let* w := get in
  let* ci := _get_caller_info (own_frame w "log_warning" 69 :: callers) in
  let* dt := _get_datetime in
  logging.log (logger self) WARNING
    (Fore_YELLOW +:+ located dt ci message +:+ Style_RESET_ALL) []
    (module_path (env w), 70).

(** [CustomLogger.log_error] *)
Definition log_error (self : CustomLogger) (message : string)
    (callers : list FrameInfo) : M unit :=
  let* w := get in
  let* ci := _get_caller_info (own_frame w "log_error" 73 :: callers) in
  let error_trace := format_exc (env w) in
  let* dt := _get_datetime in
  logging.log (logger self) ERROR
    (Fore_RED +:+ located dt ci message +:+ NL +:+ error_trace
       +:+ Style_RESET_ALL) []
    (module_path (env w), 75).

(** [CustomLogger.log_critical] *)
Definition log_critical (self : CustomLogger) (message : string)
    (callers : list FrameInfo) : M unit :=
  let* w := get in
  let* ci := _get_caller_info (own_frame w "log_critical" 78 :: callers) in
  let critical_trace := format_exc (env w) in
  let* dt := _get_datetime in
  logging.log (logger self) CRITICAL
    (Fore_MAGENTA +:+ located dt ci message +:+ NL +:+ critical_trace
       +:+ Style_RESET_ALL) []
    (module_path (env w), 80).

(** [CustomLogger.start_timer]; the object comes back with its
    attribute set. *)
Definition start_timer (self : CustomLogger) (log_msg : string)
    : M CustomLogger :=
  let* w := get in
  let self := {| logger := logger self;
                 start_time := Some (now (env w)) |} in
  do logging.log (logger self) INFO ("Start: " +:+ log_msg) []
       (module_path (env w), 85) then
  ret self.

(** [CustomLogger.end_timer] *)
Definition end_timer (self : CustomLogger) (log_msg : string) : M unit :=
  let* w := get in
  match start_time self with
  | Some t =>
      let elapsed_time := elapsed_since (env w) t in
      logging.log (logger self) INFO
        ("End: " +:+ log_msg +:+ " | Elapsed Time: " +:+ elapsed_time) []
        (module_path (env w), 91)
  | None =>
      logging.log (logger self) WARNING
        "Timer was not started before calling end_timer!" []
        (module_path (env w), 93)
  end.

Definition level_dict : gmap string Z :=
  {[ "DEBUG" := DEBUG; "INFO" := INFO; "WARNING" := WARNING;
     "ERROR" := ERROR; "CRITICAL" := CRITICAL ]}.

(** [CustomLogger.set_level] *)
Definition set_level (self : CustomLogger) (level : string) : M unit :=
  logging.setLevel (logger self)
    (default INFO (level_dict !! PyStr.upper level)).

(** [CustomLogger.log_exception]; [exc] is the text [str(exc)] of the
    exception. *)
Definition log_exception (self : CustomLogger) (message exc : string)
    (callers : list FrameInfo) : M unit :=
  let* w := get in
  let* ci := _get_caller_info (own_frame w "log_exception" 108 :: callers) in
  let* dt := _get_datetime in
  logging.log (logger self) ERROR
    (Fore_RED +:+ located dt ci message +:+ NL +:+ "Exception: " +:+ exc
       +:+ NL +:+ format_exc (env w) +:+ Style_RESET_ALL) []
    (module_path (env w), 109).

End custom_logger.

(** ** A world to run the examples in *)

Definition clock0 : Clock :=
  {| stamp_dash := "2024-05-01-10-30-00";
     stamp_space := "2024-05-01 10:30:00";
     stamp_asctime := "2024-05-01 10:30:00,123" |}.

Definition env0 : Env :=
  {| now := clock0; elapsed_since := fun _ => "0:00:01.500000";
     exc_info := None; format_exc := "NoneType: None" +:+ NL;
     environ := ∅; module_path := "/srv/app/logger.py"; pid := 4242;
     tid := 1 |}.

(** The state of a fresh interpreter that has imported the module. *)
Definition boot (e : Env) : World :=
  {| env := e; heap := []; loggerDict := ∅; files := ∅; console := [];
     stderr_errors := 0; log_queue := []; stack_walks := 0; records := [];
     shared_logger := None; log_file_name := None; created_loggers := ∅;
     queue_listener := None |}.

Definition main_frame : FrameInfo :=
  {| f_filename := "/srv/app/main.py"; f_lineno := 12;
     f_function := "<module>"; f_module := Some "__main__" |}.

(** Acquire the shared logger and use it. *)
Definition with_logger (acquire : M (option nat)) (use : nat -> M unit)
    : M unit :=
  let* lg := acquire in
  match lg with
  | Some l => use l
  | None => ret tt
  end.

(** The plain rendering as the specification words it:
    [<file> <line> : <timestamp> <LEVEL>: <message>]. *)
Definition plain_template (file : string) (line : Z)
    (timestamp LEVEL message : string) : string :=
  file +:+ " " +:+ pretty line +:+ " : " +:+ timestamp +:+ " " +:+ LEVEL
       +:+ ": " +:+ message.

(** The records [m] makes from [w] all carry the text [text]. *)
Definition renders (m : M unit) (w : World) (text : string) : Prop :=
  exists made,
    records (exec m w) = records w ++ made /\
    Forall (fun r => r_msg r = text) made.

(** The fallback of the caller resolver as the specification words it:
    on a stack shallower than the frames it skips, the resolver answers
    the sentinel. *)
Definition sentinel_fallback (resolver : list FrameInfo -> M (string * Z))
    : Prop :=
  forall below w,
    (length below < 2)%nat -> outcome (resolver below) w = Ok ("unknown", -1).

(** The logger object [final_logger]'s [setup_logger] builds, at
    level [level]: two filters, three handlers. *)
Definition final_configured (path : string) (log_level : Z)
    (structured_logging : bool) (level : Z) : Logger :=
  {| l_name := "custom_logger"; l_level := level;
     l_filters := [final_logger.SensitiveDataFilter;
                   final_logger.ContextFilter];
     l_handlers := [final_logger.file_handler path log_level structured_logging;
                    final_logger.console_handler log_level;
                    final_logger.queue_handler];
     l_disabled := false |}.

Definition final_listener (path : string) (log_level : Z)
    (structured_logging : bool) (running : bool) : QueueListener :=
  {| ql_handlers := [final_logger.file_handler path log_level structured_logging;
                     final_logger.console_handler log_level];
     ql_running := running |}.

(** The level [final_logger]'s [get_logger] sets *)
Definition final_level (e : Env) (log_level : Z) : Z :=
  if String.eqb (default "development" (environ e !! "ENV")) "production"
  then WARNING else log_level.

Definition final_path (e : Env) (log_file_name : string) : string :=
  log_file_name +:+ "_" +:+ stamp_dash (now e) +:+ ".log".

(** The state after the first [get_logger] of a fresh process *)
Definition final_started (e : Env) (log_file_name : string) (log_level : Z)
    (structured_logging : bool) : World :=
  let path := final_path e log_file_name in
  {| env := e;
     heap := [final_configured path log_level structured_logging
                (final_level e log_level)];
     loggerDict := ∅;
     files := <[path := []]> ∅;
     console := []; stderr_errors := 0; log_queue := []; stack_walks := 0;
     records := []; shared_logger := Some 0%nat;
     log_file_name := Some path; created_loggers := ∅;
     queue_listener :=
       Some (final_listener path log_level structured_logging true) |}.

(** The state after the first [get_logger] of [qlogger.py] in a fresh
    process *)
Definition qlogger_started (e : Env) : World :=
  let path := final_path e "test_console" in
  {| env := e;
     heap := [{| l_name := "custom_logger"; l_level := DEBUG; l_filters := [];
                 l_handlers :=
                   [{| h_level := DEBUG; h_formatter := None;
                       h_target := ToFile path |};
                    {| h_level := DEBUG; h_formatter := None;
                       h_target := ToConsole |}];
                 l_disabled := false |}];
     loggerDict := ∅;
     files := <[path := []]> ∅;
     console := []; stderr_errors := 0; log_queue := []; stack_walks := 0;
     records := []; shared_logger := Some 0%nat;
     log_file_name := Some path; created_loggers := ∅;
     queue_listener := None |}.

(** The level methods of the [logging.Logger] subclass of
    [final_logger.py] *)
Inductive Method := FInfo | FDebug | FWarning | FError.

Definition final_call (m : Method)
    : nat -> string -> list string -> list FrameInfo -> M unit :=
  match m with
  | FInfo => final_logger.info
  | FDebug => final_logger.debug
  | FWarning => final_logger.warning
  | FError => final_logger.error
  end.

Definition method_name (m : Method) : string :=
  match m with
  | FInfo => "INFO" | FDebug => "DEBUG" | FWarning => "WARNING"
  | FError => "ERROR"
  end.

Definition final_site (m : Method) : Z :=
  match m with
  | FInfo => 75 | FDebug => 81 | FWarning => 87 | FError => 98
  end.

Definition final_message (m : Method) (e : Env) (msg : string) : string :=
  match m with
  | FError => msg +:+ final_logger.exception_text (exc_info e)
  | _ => msg
  end.





(** The level methods of [custom_logger.py] *)
Inductive LevelMethod := MDebug | MInfo | MWarning | MError | MCritical.

Definition method_level (m : LevelMethod) : Z :=
  match m with
  | MDebug => DEBUG | MInfo => INFO | MWarning => WARNING
  | MError => ERROR | MCritical => CRITICAL
  end.

Definition custom_call (m : LevelMethod)
    : custom_logger.CustomLogger -> string -> list FrameInfo -> M unit :=
  match m with
  | MDebug => custom_logger.log_debug
  | MInfo => custom_logger.log_info
  | MWarning => custom_logger.log_warning
  | MError => custom_logger.log_error
  | MCritical => custom_logger.log_critical
  end.

(** The text and the call site of each level method of
    [custom_logger.py] *)
Definition custom_text (m : LevelMethod) (e : Env) (fr : FrameInfo)
    (message : string) : string :=
  let at_caller :=
    custom_logger.located (stamp_space (now e))
      (default "Unknown" (f_module fr), f_function fr, f_lineno fr) message in
  match m with
  | MDebug =>
      custom_logger.Fore_CYAN +:+ at_caller +:+ custom_logger.Style_RESET_ALL
  | MInfo =>
      custom_logger.Fore_GREEN +:+ at_caller +:+ custom_logger.Style_RESET_ALL
  | MWarning =>
      custom_logger.Fore_YELLOW +:+ at_caller +:+ custom_logger.Style_RESET_ALL
  | MError =>
      custom_logger.Fore_RED +:+ at_caller +:+ NL +:+ format_exc e
        +:+ custom_logger.Style_RESET_ALL
  | MCritical =>
      custom_logger.Fore_MAGENTA +:+ at_caller +:+ NL +:+ format_exc e
        +:+ custom_logger.Style_RESET_ALL
  end.

Definition custom_site (m : LevelMethod) : Z :=
  match m with
  | MDebug => 66 | MInfo => 62 | MWarning => 70 | MError => 75
  | MCritical => 80
  end.


(** The level [set_level] arrives at for a name in upper case *)
Definition level_named (NAME : string) : Z :=
  if String.eqb NAME "DEBUG" then DEBUG
  else if String.eqb NAME "INFO" then INFO
  else if String.eqb NAME "WARNING" then WARNING
  else if String.eqb NAME "ERROR" then ERROR
  else if String.eqb NAME "CRITICAL" then CRITICAL
  else INFO.

Definition known_level (NAME : string) : bool :=
  String.eqb NAME "DEBUG" || String.eqb NAME "INFO"
  || String.eqb NAME "WARNING" || String.eqb NAME "ERROR"
  || String.eqb NAME "CRITICAL".

Definition app_logger : custom_logger.CustomLogger :=
  {| custom_logger.logger := 0%nat; custom_logger.start_time := None |}.

(** ** What the handlers put out *)

(** The lines a handler writes to the console for a record, the
    lines it writes to the file [path], and the records it puts on the
    queue. *)
Definition console_out (e : Env) (r : LogRecord) (h : Handler) : list string :=
  match h_target h, logging.Handler_format e h r with
  | ToConsole, Some line => [line]
  | _, _ => []
  end.

Definition file_out (path : string) (e : Env) (r : LogRecord) (h : Handler)
    : list string :=
  match h_target h, logging.Handler_format e h r with
  | ToFile p, Some line => if String.eqb p path then [line] else []
  | _, _ => []
  end.


(** The handlers of a list that take a record of [r]'s level *)
Definition takers (r : LogRecord) (hs : list Handler) : list Handler :=
  List.filter (fun h => h_level h <=? r_levelno r) hs.

(** [m] appends [out] to the list [proj], whatever the state, and
    changes nothing the handlers read. *)
Definition emits {A B} (proj : World -> list B) (out : Env -> list B)
    (m : M A) : Prop :=
  forall w, proj (exec m w) = proj w ++ out (env w).

(** ** The states [final_logger.py] goes through *)

(** The state of a process that has built the shared logger for the
    file [path] and has logged nothing yet; [level] is the level of
    the logger, [log_level] that of its handlers. *)
Definition final_state (e : Env) (path : string) (log_level : Z)
    (structured_logging : bool) (level : Z) : World :=
  {| env := e;
     heap := [final_configured path log_level structured_logging level];
     loggerDict := ∅;
     files := <[path := []]> ∅;
     console := []; stderr_errors := 0; log_queue := []; stack_walks := 0;
     records := []; shared_logger := Some 0%nat;
     log_file_name := Some path; created_loggers := ∅;
     queue_listener :=
       Some (final_listener path log_level structured_logging true) |}.

(** One call of [get_logger], with its three arguments *)
Record Acquire := {
  a_name : string;
  a_level : Z;
  a_structured : bool
}.

Definition acquire (a : Acquire) : M unit :=
  do final_logger.get_logger (a_name a) (a_level a) (a_structured a) then
  ret tt.




(** The surroundings of the examples, with [ENV=production] *)
Definition env_production : Env :=
  {| now := clock0; elapsed_since := fun _ => "0:00:01.500000";
     exc_info := None; format_exc := "NoneType: None" +:+ NL;
     environ := {[ "ENV" := "production" ]};
     module_path := "/srv/app/logger.py"; pid := 4242; tid := 1 |}.

(** ** The states and the level methods of [qlogger.py], [q_logger1.py]
    and [q_logger2.py] *)

(** The logger object their [setup_logger] builds: a file handler and
    a console handler, each with the formatter the module gives it *)
Definition q_configured (path : string)
    (file_formatter console_formatter : option Formatter) : Logger :=
  {| l_name := "custom_logger"; l_level := DEBUG; l_filters := [];
     l_handlers :=
       [{| h_level := DEBUG; h_formatter := file_formatter;
           h_target := ToFile path |};
        {| h_level := DEBUG; h_formatter := console_formatter;
           h_target := ToConsole |}];
     l_disabled := false |}.

(** The state after the first [get_logger] of a fresh process *)
Definition q_started (e : Env)
    (file_formatter console_formatter : option Formatter) : World :=
  let path := final_path e "test_console" in
  {| env := e;
     heap := [q_configured path file_formatter console_formatter];
     loggerDict := ∅;
     files := <[path := []]> ∅;
     console := []; stderr_errors := 0; log_queue := []; stack_walks := 0;
     records := []; shared_logger := Some 0%nat;
     log_file_name := Some path; created_loggers := ∅;
     queue_listener := None |}.

Definition q_logger1_started (e : Env) : World :=
  q_started e (Some (PlainFormatter [Fmessage]))
    (Some (ColorFormatter [Fmessage])).

Definition q_logger2_started (e : Env) : World :=
  q_started e (Some (PlainFormatter [Fmessage]))
    (Some (CustomFormatter [Fmessage])).

Definition qlogger_call (m : Method)
    : nat -> string -> list string -> list FrameInfo -> M unit :=
  match m with
  | FInfo => qlogger.info
  | FDebug => qlogger.debug
  | FWarning => qlogger.warning
  | FError => qlogger.error
  end.

Definition q_logger1_call (m : Method)
    : nat -> string -> list string -> list FrameInfo -> M unit :=
  match m with
  | FInfo => q_logger1.info
  | FDebug => q_logger1.debug
  | FWarning => q_logger1.warning
  | FError => q_logger1.error
  end.

Definition q_logger2_call (m : Method)
    : nat -> string -> list string -> list FrameInfo -> M unit :=
  match m with
  | FInfo => q_logger2.info
  | FDebug => q_logger2.debug
  | FWarning => q_logger2.warning
  | FError => q_logger2.error
  end.

(** The message a level method works with: [error] appends the
    exception text of its module. *)
Definition facade_message (exception_text : option FrameSummary -> string)
    (m : Method) (e : Env) (msg : string) : string :=
  match m with
  | FError => msg +:+ exception_text (exc_info e)
  | _ => msg
  end.

(** The text a level method hands to [logging] when it is called from
    the frame [fr] *)
Definition facade_text (exception_text : option FrameSummary -> string)
    (m : Method) (e : Env) (fr : FrameInfo) (msg : string) : string :=
  plain_template (f_filename fr) (f_lineno fr) (stamp_dash (now e))
    (method_name m) (facade_message exception_text m e msg).

Definition qlogger_site (m : Method) : Z :=
  match m with
  | FInfo => 27 | FDebug => 36 | FWarning => 45 | FError => 59
  end.

Definition q_logger1_site (m : Method) : Z :=
  match m with
  | FInfo => 25 | FDebug => 34 | FWarning => 43 | FError => 57
  end.

Definition q_logger2_site (m : Method) : Z :=
  match m with
  | FInfo => 42 | FDebug => 51 | FWarning => 60 | FError => 74
  end.

(** The severity each level method of [q_logger1.py] logs at, and the
    colour its console formatter gives that severity *)
Definition q_logger1_level (m : Method) : Z :=
  match m with
  | FInfo => INFO | FDebug => DEBUG | FWarning => WARNING | FError => ERROR
  end.

Definition q_logger1_colour (m : Method) : string :=
  match m with
  | FInfo => logging.GREEN | FDebug => logging.BLUE
  | FWarning => logging.YELLOW | FError => logging.RED
  end.

(** One call of a level method, as a script makes it *)
Record Invocation := {
  i_method : Method;
  i_msg : string;
  i_args : list string;
  i_callers : list FrameInfo
}.

Definition invoke
    (call : Method -> nat -> string -> list string -> list FrameInfo -> M unit)
    (self : nat) (c : Invocation) : M unit :=
  call (i_method c) self (i_msg c) (i_args c) (i_callers c).

(** The lines a handler with the formatter [f] writes for a record *)
Definition rendered (e : Env) (f : option Formatter) (r : LogRecord)
    : list string :=
  option_list (logging.format e (default (PlainFormatter [Fmessage]) f) r).

(** What stays true from call to call in a script of calls without
    arguments: the logger and the surroundings are the same, no handler
    has reported an error, and the console holds the lines of the file,
    each passed through [paint]. *)
Definition script_invariant_holds (e : Env) (ff cf : option Formatter)
    (paint : string -> string) (w : World) : Prop :=
  heap w = heap (q_started e ff cf) /\ env w = e /\
  stderr_errors w = 0%nat /\
  console w = paint <$> file_lines w (final_path e "test_console").

(** ** [count_down] *)

(** A process in which [qlogger.py]'s [get_logger] will answer with a
    working logger: a fresh one, or one that holds the shared logger. *)
Definition qlogger_ready (w : World) : Prop :=
  w = boot (env w) \/
  (shared_logger w = Some 0%nat /\
   exists path, heap w !! 0%nat = Some (q_configured path None None)).

(** The text [count_down] logs when [k] seconds are left, as the
    level method renders it in the surroundings [e] *)
Definition wait_text (e : Env) (line k : Z) : string :=
  plain_template (module_path e) line (stamp_dash (now e)) "INFO"
    ("Wait for: " +:+ pretty (k / 60) +:+ " min :" +:+ pretty (k mod 60)
       +:+ " secs").


(** ** The states and the lines of [custom_logger.py] *)

(** The key [logging.getLogger] keeps a name under *)
Definition logger_key (name : string) : string :=
  if String.eqb name EmptyString then "root" else name.

(** The handlers one run of [__init__] adds *)
Definition custom_handlers (log_to_file : bool) (log_file : string)
    : list Handler :=
  {| h_level := DEBUG;
     h_formatter := Some (PlainFormatter custom_logger.console_format);
     h_target := ToConsole |}
  :: (if log_to_file
      then [{| h_level := DEBUG;
               h_formatter := Some (PlainFormatter custom_logger.file_format);
               h_target := ToFile log_file |}]
      else []).

(** The state of a fresh process after [k] constructions of a
    [CustomLogger] with the same arguments *)
Definition custom_built (e : Env) (name : string) (log_to_file : bool)
    (log_file : string) (k : nat) : World :=
  {| env := e;
     heap := [{| l_name := logger_key name; l_level := DEBUG; l_filters := [];
                 l_handlers :=
                   concat (replicate k (custom_handlers log_to_file log_file));
                 l_disabled := false |}];
     loggerDict := {[ logger_key name := 0%nat ]};
     files := if log_to_file then {[ log_file := [] ]} else ∅;
     console := []; stderr_errors := 0; log_queue := []; stack_walks := 0;
     records := []; shared_logger := None; log_file_name := None;
     created_loggers := ∅; queue_listener := None |}.

(** Construct a [CustomLogger] [k] times over. *)
Fixpoint construct (k : nat) (name : string) (log_to_file : bool)
    (log_file : string) : M unit :=
  match k with
  | O => ret tt
  | S k' =>
      do custom_logger.__init__ name log_to_file log_file then
      construct k' name log_to_file log_file
  end.

(** The lines of the console and of the file for a call of the level
    method [m] with the text [text] *)
Definition custom_console_line (e : Env) (name : string) (m : LevelMethod)
    (text : string) : string :=
  stamp_asctime (now e) +:+ " - " +:+ logger_key name +:+ " - "
    +:+ getLevelName (method_level m) +:+ " - ["
    +:+ PyStr.basename (module_path e) +:+ ":" +:+ pretty (custom_site m)
    +:+ "] - " +:+ text.

Definition custom_file_line (e : Env) (name : string) (m : LevelMethod)
    (text : string) : string :=
  stamp_asctime (now e) +:+ " - " +:+ logger_key name +:+ " - "
    +:+ getLevelName (method_level m) +:+ " - ["
    +:+ PyStr.basename (module_path e) +:+ ":" +:+ pretty (custom_site m)
    +:+ "] - [PID:" +:+ pretty (pid e) +:+ "] [TID:" +:+ pretty (tid e)
    +:+ "] - " +:+ text.

(** Whether [ENV] says production *)
Definition is_production (e : Env) : bool :=
  String.eqb (default "development" (environ e !! "ENV")) "production".

(** A process that has not logged through [final_logger.py] yet: a
    fresh one, or one that has only acquired the logger. *)
Definition final_unused (e : Env) (w : World) : Prop :=
  w = boot e \/ exists path lvl st level, w = final_state e path lvl st level.

(** What stays true from round to round of [count_down] of
    [final_logger.py] in the surroundings [e]: the variables of the
    environment are those of [e], and the process is fresh or holds the
    shared logger. *)
Definition final_ready (e : Env) (w : World) : Prop :=
  environ (env w) = environ e /\
  (w = boot (env w) \/
   (shared_logger w = Some 0%nat /\
    exists path lvl st level,
      heap w !! 0%nat = Some (final_configured path lvl st level))).

(** ** Reading a JSON string back *)



(** * Properties *)

(** ** How computations compose *)

(** [m] leaves the part [proj] of the state as it is. *)
Definition preserves {A B} (proj : World -> B) (m : M A) : Prop :=
  forall w, proj (exec m w) = proj w.

(** [m] only appends to the list [proj], and what it appends
    satisfies [P]. *)
Definition appends {A B} (proj : World -> list B) (P : B -> Prop)
    (m : M A) : Prop :=
  forall w, exists new, proj (exec m w) = proj w ++ new /\ Forall P new.

(** [m] never raises. *)
Definition total {A} (m : M A) : Prop :=
  forall w, exists a, outcome m w = Ok a.

Section Compose.
Context {A B C : Type}.

Lemma exec_bind (m : M A) (k : A -> M B) w :
  exec (bind m k) w =
  match outcome m w with
  | Ok a => exec (k a) (exec m w)
  | Raise _ => exec m w
  end.
Proof.
  unfold exec, outcome, bind. destruct (m w) as [[a|e] w']; reflexivity.
Qed.

Lemma outcome_bind (m : M A) (k : A -> M B) w :
  outcome (bind m k) w =
  match outcome m w with
  | Ok a => outcome (k a) (exec m w)
  | Raise e => Raise e
  end.
Proof.
  unfold exec, outcome, bind. destruct (m w) as [[a|e] w']; reflexivity.
Qed.

Lemma preserves_bind (proj : World -> C) (m : M A) (k : A -> M B) :
  preserves proj m -> (forall a, preserves proj (k a)) ->
  preserves proj (bind m k).
Proof.
  intros Hm Hk w. rewrite exec_bind.
  destruct (outcome m w); [rewrite Hk|]; apply Hm.
Qed.

Lemma appends_bind (proj : World -> list C) P (m : M A) (k : A -> M B) :
  appends proj P m -> (forall a, appends proj P (k a)) ->
  appends proj P (bind m k).
Proof.
  intros Hm Hk w. rewrite exec_bind.
  destruct (Hm w) as (n1 & E1 & F1).
  destruct (outcome m w) as [a|e]; [|eauto].
  destruct (Hk a (exec m w)) as (n2 & E2 & F2).
  exists (n1 ++ n2). rewrite E2, E1, app_assoc.
  split; [reflexivity | apply Forall_app; auto].
Qed.

Lemma total_bind (m : M A) (k : A -> M B) :
  total m -> (forall a, total (k a)) -> total (bind m k).
Proof.
  intros Hm Hk w. rewrite outcome_bind.
  destruct (Hm w) as [a ->]. apply Hk.
Qed.

Lemma preserves_appends (proj : World -> list C) P (m : M A) :
  preserves proj m -> appends proj P m.
Proof.
  intros H w. exists []. rewrite app_nil_r. split; [apply H | constructor].
Qed.

Lemma preserves_ret (proj : World -> C) (a : A) : preserves proj (ret a).
Proof. intros w; reflexivity. Qed.

Lemma preserves_raise (proj : World -> C) e : preserves proj (@raise A e).
Proof. intros w; reflexivity. Qed.

Lemma total_ret (a : A) : total (ret a).
Proof. intros w; exists a; reflexivity. Qed.

End Compose.

Lemma preserves_get {C} (proj : World -> C) : preserves proj get.
Proof. intros w; reflexivity. Qed.

Lemma preserves_modify {C} (proj : World -> C) f :
  (forall w, proj (f w) = proj w) -> preserves proj (modify f).
Proof. intros H w; apply H. Qed.

Lemma total_get : total get.
Proof. intros w; exists w; reflexivity. Qed.

Lemma total_modify f : total (modify f).
Proof. intros w; exists tt; reflexivity. Qed.

Lemma preserves_for_each {A C} (proj : World -> C) (f : A -> M unit) l :
  (forall x, preserves proj (f x)) -> preserves proj (for_each f l).
Proof.
  intros H. induction l as [|x l IH]; simpl.
  - apply preserves_ret.
  - apply preserves_bind; auto.
Qed.

Lemma appends_for_each {A C} (proj : World -> list C) P (f : A -> M unit) l :
  (forall x, appends proj P (f x)) -> appends proj P (for_each f l).
Proof.
  intros H. induction l as [|x l IH]; simpl.
  - apply preserves_appends, preserves_ret.
  - apply appends_bind; auto.
Qed.

Lemma total_for_each {A} (f : A -> M unit) l :
  (forall x, total (f x)) -> total (for_each f l).
Proof.
  intros H. induction l as [|x l IH]; simpl.
  - apply total_ret.
  - apply total_bind; auto.
Qed.

Lemma outcome_total_unit (m : M unit) w : total m -> outcome m w = Ok tt.
Proof. intros H. destruct (H w) as [[] ->]. reflexivity. Qed.


Lemma preserves_inspect_stack {C} (proj : World -> C) frames :
  (forall v w, proj (set_stack_walks v w) = proj w) ->
  preserves proj (inspect_stack frames).
Proof. intros H w. apply H. Qed.

Lemma total_inspect_stack frames : total (inspect_stack frames).
Proof. intros w. exists frames. reflexivity. Qed.

(** Goals [total m] follow the shape of [m]. *)
Ltac step_total :=
  first
    [ apply total_ret | apply total_get | apply total_modify
    | apply total_inspect_stack
    | apply total_bind; [|intros]
    | apply total_for_each; intros
    | match goal with
      | |- total (match ?x with _ => _ end) => destruct x
      end ].

(** ** What the calls into [logging] do to the state *)

Section Logging.

Lemma Handler_handle_total h r : total (logging.Handler_handle h r).
Proof. unfold logging.Handler_handle, logging.handleError. repeat step_total. Qed.

Lemma callHandlers_total lg r : total (logging.callHandlers lg r).
Proof.
  unfold logging.callHandlers. apply total_for_each. intros h.
  destruct (h_level h <=? r_levelno r);
    [apply Handler_handle_total | apply total_ret].
Qed.

Lemma handle_total lg r : total (logging.handle lg r).
Proof.
  unfold logging.handle. destruct (l_disabled lg); [apply total_ret|].
  destruct (logging.Filterer_filter (l_filters lg) r) as [r' []];
    [apply callHandlers_total | apply total_ret].
Qed.

(** Handlers write to the sinks and the queue, and to nothing else. *)
Lemma Handler_handle_preserves {C} (proj : World -> C) h r :
  (forall v w, proj (set_console v w) = proj w) ->
  (forall v w, proj (set_files v w) = proj w) ->
  (forall v w, proj (set_log_queue v w) = proj w) ->
  (forall v w, proj (set_stderr_errors v w) = proj w) ->
  preserves proj (logging.Handler_handle h r).
Proof.
  intros H1 H2 H3 H4.
  unfold logging.Handler_handle, logging.handleError.
  apply preserves_bind; [apply preserves_get|intros w0].
  destruct (logging.Handler_format (env w0) h r);
    [destruct (h_target h)|]; apply preserves_modify; auto.
Qed.

Lemma handle_preserves {C} (proj : World -> C) lg r :
  (forall v w, proj (set_console v w) = proj w) ->
  (forall v w, proj (set_files v w) = proj w) ->
  (forall v w, proj (set_log_queue v w) = proj w) ->
  (forall v w, proj (set_stderr_errors v w) = proj w) ->
  preserves proj (logging.handle lg r).
Proof.
  intros H1 H2 H3 H4. unfold logging.handle, logging.callHandlers.
  destruct (l_disabled lg); [apply preserves_ret|].
  destruct (logging.Filterer_filter (l_filters lg) r) as [r' []];
    [|apply preserves_ret].
  apply preserves_for_each. intros h.
  destruct (h_level h <=? r_levelno r');
    [apply Handler_handle_preserves; auto | apply preserves_ret].
Qed.

(** [Logger.log] when the logger object exists *)
Lemma log_unfold self lg level msg args site w :
  heap w !! self = Some lg ->
  logging.log self level msg args site w =
  if logging.isEnabledFor lg level
  then logging.handle lg
         (logging.makeRecord (env w) (l_name lg) level site msg args)
         (set_records
            (records w ++
               [logging.makeRecord (env w) (l_name lg) level site msg args])
            w)
  else (Ok tt, w).
Proof.
  intros H. unfold logging.log, logging._log, bind, deref, get, modify.
  rewrite H. destruct (logging.isEnabledFor lg level); [|reflexivity].
  simpl. rewrite H. reflexivity.
Qed.

(** A disabled level: the call changes nothing at all. *)
Lemma log_disabled self lg level msg args site w :
  heap w !! self = Some lg ->
  logging.isEnabledFor lg level = false ->
  logging.log self level msg args site w = (Ok tt, w).
Proof. intros H E. rewrite (log_unfold _ lg) by exact H. rewrite E. reflexivity. Qed.

(** The records a call to [Logger.log] makes carry the level it was
    called with. *)
Lemma log_appends_records self level msg args site :
  appends records
    (fun r => r_levelno r = level /\ r_msg r = msg /\ r_args r = args)
    (logging.log self level msg args site).
Proof.
  intros w. destruct (heap w !! self) as [lg|] eqn:H.
  - unfold exec. rewrite (log_unfold _ lg) by exact H.
    destruct (logging.isEnabledFor lg level).
    + eexists. split.
      * change (snd (logging.handle lg ?r ?w')) with (exec (logging.handle lg r) w').
        rewrite handle_preserves by reflexivity. reflexivity.
      * repeat constructor.
    + exists []. rewrite app_nil_r. split; [reflexivity|constructor].
  - exists []. rewrite app_nil_r. split; [|constructor].
    unfold exec, logging.log, bind, deref. rewrite H. reflexivity.
Qed.

Lemma log_preserves {C} (proj : World -> C) self level msg args site :
  (forall v w, proj (set_console v w) = proj w) ->
  (forall v w, proj (set_files v w) = proj w) ->
  (forall v w, proj (set_log_queue v w) = proj w) ->
  (forall v w, proj (set_stderr_errors v w) = proj w) ->
  (forall v w, proj (set_records v w) = proj w) ->
  preserves proj (logging.log self level msg args site).
Proof.
  intros H1 H2 H3 H4 H5 w. destruct (heap w !! self) as [lg|] eqn:H.
  - unfold exec. rewrite (log_unfold _ lg) by exact H.
    destruct (logging.isEnabledFor lg level); [|reflexivity].
    change (snd (logging.handle lg ?r ?w')) with (exec (logging.handle lg r) w').
    rewrite handle_preserves by assumption. apply H5.
  - unfold exec, logging.log, bind, deref. rewrite H. reflexivity.
Qed.

Lemma log_total_on self lg level msg args site w :
  heap w !! self = Some lg ->
  outcome (logging.log self level msg args site) w = Ok tt.
Proof.
  intros H. unfold outcome. rewrite (log_unfold _ lg) by exact H.
  destruct (logging.isEnabledFor lg level); [|reflexivity].
  apply (outcome_total_unit (logging.handle lg _)), handle_total.
Qed.

End Logging.

Lemma appends_weaken {A B} (proj : World -> list B) (P Q : B -> Prop)
    (m : M A) :
  (forall b, P b -> Q b) -> appends proj P m -> appends proj Q m.
Proof.
  intros HPQ H w. destruct (H w) as (new & E & F).
  exists new. split; [exact E|]. eapply Forall_impl; eauto.
Qed.

Lemma append_empty_r (s : string) : s +:+ EmptyString = s.
Proof.
  induction s as [|c s IH]; [reflexivity|].
  change (String c (s +:+ EmptyString) = String c s). rewrite IH. reflexivity.
Qed.

(** A formatter for [%(message)s] gives the message itself. *)
Lemma format_message_only r :
  logging.Formatter_format [Fmessage] r = logging.getMessage r.
Proof.
  unfold logging.Formatter_format, logging.formatMessage.
  destruct (logging.getMessage r) as [m|]; [|reflexivity].
  simpl. rewrite append_empty_r. reflexivity.
Qed.

(** ** The level methods of the [logging.Logger] subclasses *)

Section Facade.

Lemma qlogger_get_call_info_preserves {C} (proj : World -> C) below :
  (forall v w, proj (set_stack_walks v w) = proj w) ->
  preserves proj (qlogger.__get_call_info below).
Proof.
  intros H. unfold qlogger.__get_call_info.
  apply preserves_bind; [apply preserves_get|intros w0].
  apply preserves_bind; [apply preserves_inspect_stack, H|intros st].
  destruct (st !! 2%nat); [apply preserves_ret|apply preserves_raise].
Qed.

Lemma q_logger1_get_call_info_preserves {C} (proj : World -> C) below :
  (forall v w, proj (set_stack_walks v w) = proj w) ->
  preserves proj (q_logger1.__get_call_info below).
Proof.
  intros H. unfold q_logger1.__get_call_info.
  apply preserves_bind; [apply preserves_get|intros w0].
  apply preserves_bind; [apply preserves_inspect_stack, H|intros st].
  destruct (st !! 2%nat); [apply preserves_ret|apply preserves_raise].
Qed.

Lemma q_logger2_get_call_info_preserves {C} (proj : World -> C) below :
  (forall v w, proj (set_stack_walks v w) = proj w) ->
  preserves proj (q_logger2.__get_call_info below).
Proof.
  intros H. unfold q_logger2.__get_call_info.
  apply preserves_bind; [apply preserves_get|intros w0].
  apply preserves_bind; [apply preserves_inspect_stack, H|intros st].
  destruct (st !! 2%nat); [apply preserves_ret|apply preserves_raise].
Qed.

Lemma final_get_call_info_preserves {C} (proj : World -> C) below :
  (forall v w, proj (set_stack_walks v w) = proj w) ->
  preserves proj (final_logger.__get_call_info below).
Proof.
  intros H. unfold final_logger.__get_call_info.
  apply preserves_bind; [apply preserves_get|intros w0].
  apply preserves_bind; [apply preserves_inspect_stack, H|intros st].
  destruct (st !! 2%nat); [apply preserves_ret|apply preserves_raise].
Qed.

(** A level method that ends in [log self level ...] makes records of
    severity [level] only. *)
Lemma facade_appends_level (get_ci : World -> M (string * Z)) level self
    args site (text : World -> string * Z -> string) :
  (forall w, preserves records (get_ci w)) ->
  appends records (fun r => r_levelno r = level)
    (let* w := get in
     let* ci := get_ci w in
     logging.log self level (text w ci) args (site w)).
Proof.
  intros H.
  apply appends_bind; [apply preserves_appends, preserves_get|intros w0].
  apply appends_bind; [apply preserves_appends, H|intros ci].
  eapply appends_weaken; [|apply log_appends_records]. simpl. tauto.
Qed.

(** With a caller on the stack, a level method is one stack walk
    followed by the call into [logging]. *)
Lemma qlogger_info_run self msg args fr callers w :
  qlogger.info self msg args (fr :: callers) w =
  logging.log self INFO
    (plain_template (f_filename fr) (f_lineno fr) (stamp_dash (now (env w)))
       "INFO" msg)
    args (module_path (env w), 27) (set_stack_walks (S (stack_walks w)) w).
Proof. reflexivity. Qed.

Lemma qlogger_debug_run self msg args fr callers w :
  qlogger.debug self msg args (fr :: callers) w =
  logging.log self INFO
    (plain_template (f_filename fr) (f_lineno fr) (stamp_dash (now (env w)))
       "DEBUG" msg)
    args (module_path (env w), 36) (set_stack_walks (S (stack_walks w)) w).
Proof. reflexivity. Qed.

Lemma qlogger_warning_run self msg args fr callers w :
  qlogger.warning self msg args (fr :: callers) w =
  logging.log self INFO
    (plain_template (f_filename fr) (f_lineno fr) (stamp_dash (now (env w)))
       "WARNING" msg)
    args (module_path (env w), 45) (set_stack_walks (S (stack_walks w)) w).
Proof. reflexivity. Qed.

Lemma qlogger_error_run self msg args fr callers w :
  qlogger.error self msg args (fr :: callers) w =
  logging.log self INFO
    (plain_template (f_filename fr) (f_lineno fr) (stamp_dash (now (env w)))
       "ERROR" (msg +:+ qlogger.exception_text (exc_info (env w))))
    args (module_path (env w), 59) (set_stack_walks (S (stack_walks w)) w).
Proof. reflexivity. Qed.

Lemma final_info_run self msg args fr callers w :
  final_logger.info self msg args (fr :: callers) w =
  logging.log self INFO
    (plain_template (f_filename fr) (f_lineno fr) (stamp_dash (now (env w)))
       "INFO" msg)
    args (module_path (env w), 75) (set_stack_walks (S (stack_walks w)) w).
Proof. reflexivity. Qed.

Lemma log_renders self level msg args site w w0 :
  records w = records w0 ->
  exists made,
    records (exec (logging.log self level msg args site) w)
    = records w0 ++ made /\
    Forall (fun r => r_msg r = msg) made.
Proof.
  intros E. destruct (log_appends_records self level msg args site w)
    as (made & E1 & F).
  exists made. rewrite E1, E. split; [reflexivity|].
  eapply Forall_impl; [exact F|]. simpl. tauto.
Qed.

End Facade.

(** ** Severity of the records the level methods make *)

(** In [q_logger1.py] each level method calls the [logging] method of
    its own severity, as the run of [warning] shows. *)
Lemma q_logger1_levels :
  (forall self msg args callers,
     appends records (fun r => r_levelno r = DEBUG)
       (q_logger1.debug self msg args callers) /\
     appends records (fun r => r_levelno r = WARNING)
       (q_logger1.warning self msg args callers) /\
     appends records (fun r => r_levelno r = ERROR)
       (q_logger1.error self msg args callers)) /\
  r_levelno <$>
    records (exec (with_logger q_logger1.get_logger
                     (fun l => q_logger1.warning l "disk is low" []
                                 [main_frame]))
               (boot env0)) = [WARNING].
Proof.
  split; [|vm_compute; reflexivity].
  intros self msg args callers. repeat split.
  - apply (facade_appends_level _ DEBUG self args
             (fun w => (module_path (env w), 34))
             (fun w ci => fst ci +:+ " " +:+ pretty (snd ci) +:+ " : "
                +:+ stamp_dash (now (env w)) +:+ " DEBUG: " +:+ msg)).
    intros w; apply q_logger1_get_call_info_preserves; reflexivity.
  - apply (facade_appends_level _ WARNING self args
             (fun w => (module_path (env w), 43))
             (fun w ci => fst ci +:+ " " +:+ pretty (snd ci) +:+ " : "
                +:+ stamp_dash (now (env w)) +:+ " WARNING: " +:+ msg)).
    intros w; apply q_logger1_get_call_info_preserves; reflexivity.
  - apply (facade_appends_level _ ERROR self args
             (fun w => (module_path (env w), 57))
             (fun w ci => fst ci +:+ " " +:+ pretty (snd ci) +:+ " : "
                +:+ stamp_dash (now (env w)) +:+ " ERROR: "
                +:+ (msg +:+ q_logger1.exception_text (exc_info (env w))))).
    intros w; apply q_logger1_get_call_info_preserves; reflexivity.
Qed.

(** C1. The claim asks that [warning], [debug] and [error] emit at
    WARNING, DEBUG and ERROR severity. In [final_logger.py],
    [qlogger.py] and [q_logger2.py] every record these methods make has
    severity INFO, whatever the message: each of them ends in
    [super().info]. The last three conjuncts run the three methods on
    the logger that [get_logger] returns and read the severity of the
    one record each of them makes. *)
Theorem C1_level_methods_emit_at_INFO :
  (forall self msg args callers,
     appends records (fun r => r_levelno r = INFO)
       (final_logger.warning self msg args callers)) /\
  (forall self msg args callers,
     appends records (fun r => r_levelno r = INFO)
       (qlogger.debug self msg args callers)) /\
  (forall self msg args callers,
     appends records (fun r => r_levelno r = INFO)
       (q_logger2.error self msg args callers)) /\
  r_levelno <$>
    records (exec (with_logger (final_logger.get_logger "test_console" DEBUG false)
                     (fun l => final_logger.warning l "disk is low" []
                                 [main_frame]))
               (boot env0)) = [INFO] /\
  r_levelno <$>
    records (exec (with_logger qlogger.get_logger
                     (fun l => qlogger.debug l "cache miss" [] [main_frame]))
               (boot env0)) = [INFO] /\
  r_levelno <$>
    records (exec (with_logger q_logger2.get_logger
                     (fun l => q_logger2.error l "write failed" []
                                 [main_frame]))
               (boot env0)) = [INFO].
Proof.
  split; [|split; [|split; [|repeat split; vm_compute; reflexivity]]].
  - intros self msg args callers.
    apply (facade_appends_level _ INFO self args
             (fun w => (module_path (env w), 87))
             (fun w ci => fst ci +:+ " " +:+ pretty (snd ci) +:+ " : "
                +:+ stamp_dash (now (env w)) +:+ " WARNING: " +:+ msg)).
    intros w; apply final_get_call_info_preserves; reflexivity.
  - intros self msg args callers.
    apply (facade_appends_level _ INFO self args
             (fun w => (module_path (env w), 36))
             (fun w ci => fst ci +:+ " " +:+ pretty (snd ci) +:+ " : "
                +:+ stamp_dash (now (env w)) +:+ " DEBUG: " +:+ msg)).
    intros w; apply qlogger_get_call_info_preserves; reflexivity.
  - intros self msg args callers.
    apply (facade_appends_level _ INFO self args
             (fun w => (module_path (env w), 74))
             (fun w ci => fst ci +:+ " " +:+ pretty (snd ci) +:+ " : "
                +:+ stamp_dash (now (env w)) +:+ " ERROR: "
                +:+ (msg +:+ q_logger2.exception_text (exc_info (env w))))).
    intros w; apply q_logger2_get_call_info_preserves; reflexivity.
Qed.

(** ** The plain rendering *)

(** On the logger of a fresh process, [info] of [qlogger.py] writes
    the text as it is to the console and to the file. *)
Lemma qlogger_info_written e msg fr callers :
  let w := exec (qlogger.info 0 msg [] (fr :: callers)) (qlogger_started e) in
  let text := plain_template (f_filename fr) (f_lineno fr)
                (stamp_dash (now e)) "INFO" msg in
  console w = [text] /\
  file_lines w (final_path e "test_console") = [text].
Proof.
  intros w text. subst w. unfold exec. rewrite qlogger_info_run.
  fold text.
  rewrite (log_unfold _ _ _ _ _ _ _ (eq_refl : heap (set_stack_walks _ (qlogger_started e)) !! 0%nat = Some _)).
  cbn -[plain_template final_path].
  unfold logging.handle, logging.callHandlers, logging.Handler_handle, bind, get, modify. cbn -[plain_template final_path].
  unfold logging.Handler_format. cbn -[plain_template final_path].
  rewrite !append_empty_r.
  unfold file_lines. cbn -[plain_template final_path].
  rewrite !lookup_insert_eq. cbn -[plain_template final_path].
  split; reflexivity.
Qed.

(** ** Text *)

Lemma prefix_cons a s b t :
  String.prefix (String a s) (String b t)
  = Ascii.eqb a b && String.prefix s t.
Proof.
  simpl. destruct (ascii_dec a b) as [->|N].
  - rewrite Ascii.eqb_refl. reflexivity.
  - apply Ascii.eqb_neq in N. rewrite N. reflexivity.
Qed.

Lemma length_drop n s : (String.length (PyStr.drop n s) <= String.length s)%nat.
Proof.
  revert s. induction n as [|n IH]; intros s; [simpl; lia|].
  destruct s as [|c s]; simpl; [lia|]. specialize (IH s). lia.
Qed.

Section Replace.
Variables (o0 n0 : ascii) (orest nrest : string).
Let old := String o0 orest.
Let new := String n0 nrest.
Hypothesis old_head_not_in_new : PyStr.char_in o0 new = false.
Hypothesis new_head_not_in_old_tail : PyStr.char_in n0 orest = false.

(** The bound on the scan is never reached: any two bounds that cover
    the text give the same result, and [replace] unfolds as the scan
    reads. *)
Lemma replace_scan_fuel n m s :
  (String.length s <= n)%nat -> (String.length s <= m)%nat ->
  PyStr.replace_scan n old new s = PyStr.replace_scan m old new s.
Proof.
  revert m s. induction n as [|n IH]; intros m s Hn Hm.
  - destruct s; [destruct m; reflexivity | simpl in Hn; lia].
  - destruct s as [|c s]; [destruct m; reflexivity|].
    destruct m as [|m]; [simpl in Hm; lia|].
    cbn [PyStr.replace_scan]. simpl in Hn, Hm.
    destruct (String.prefix old (String c s)).
    + f_equal. cbn [String.length old PyStr.drop].
      pose proof (length_drop (String.length orest) s).
      apply IH; lia.
    + f_equal. apply IH; lia.
Qed.

Lemma replace_cons c s :
  PyStr.replace old new (String c s) =
  if String.prefix old (String c s)
  then new +:+ PyStr.replace old new (PyStr.drop (String.length old) (String c s))
  else String c (PyStr.replace old new s).
Proof.
  unfold PyStr.replace, old. cbn [String.length PyStr.replace_scan].
  destruct (String.prefix (String o0 orest) (String c s)); [|reflexivity].
  f_equal. cbn [String.length PyStr.drop].
  pose proof (length_drop (String.length orest) s).
  apply replace_scan_fuel; lia.
Qed.

(** Text that starts none of its occurrences of [old] can be skipped. *)
Lemma contains_skip a r :
  PyStr.char_in o0 a = false ->
  PyStr.contains old (a +:+ r) = PyStr.contains old r.
Proof.
  induction a as [|c a IH]; intros H; [reflexivity|].
  simpl in H. apply orb_false_elim in H as [Hc Ha].
  change (String c a +:+ r) with (String c (a +:+ r)).
  cbn [PyStr.contains]. unfold old at 1. rewrite prefix_cons, Hc. simpl.
  apply IH, Ha.
Qed.

(** A prefix of the output that avoids the first character of [new]
    was copied from the input. *)
Lemma prefix_scan_inv n u s :
  PyStr.char_in n0 u = false ->
  String.prefix u (PyStr.replace_scan n old new s) = true ->
  String.prefix u s = true.
Proof.
  revert u s. induction n as [|n IH]; intros u s Hu H; [exact H|].
  destruct s as [|c s]; [exact H|]. cbn [PyStr.replace_scan] in H.
  destruct u as [|x u]; [reflexivity|].
  simpl in Hu. apply orb_false_elim in Hu as [Hx Hu].
  destruct (String.prefix old (String c s)).
  - unfold new in H. change (String n0 nrest +:+ ?t) with (String n0 (nrest +:+ t)) in H.
    rewrite prefix_cons in H. apply andb_prop in H as [E _].
    apply Ascii.eqb_eq in E. subst x. rewrite Ascii.eqb_refl in Hx. discriminate.
  - rewrite prefix_cons in H |- *. apply andb_prop in H as [E H].
    rewrite E. simpl. eapply IH; eauto.
Qed.

(** No occurrence of [old] is left once the scan has run over all of
    the text. *)
Lemma replace_scan_free n s :
  (String.length s <= n)%nat ->
  PyStr.contains old (PyStr.replace_scan n old new s) = false.
Proof.
  revert s. induction n as [|n IH]; intros s Hn.
  - destruct s; [reflexivity | simpl in Hn; lia].
  - destruct s as [|c s]; [reflexivity|]. cbn [PyStr.replace_scan].
    destruct (String.prefix old (String c s)) eqn:Hp.
    + rewrite contains_skip by exact old_head_not_in_new.
      apply IH. simpl in Hn. cbn [String.length old PyStr.drop].
      pose proof (length_drop (String.length orest) s). lia.
    + cbn [PyStr.contains]. rewrite IH by (simpl in Hn; lia).
      rewrite orb_false_r.
      destruct (String.prefix old (String c (PyStr.replace_scan n old new s)))
        eqn:Hq; [|reflexivity].
      unfold old in Hq, Hp. rewrite prefix_cons in Hq, Hp.
      apply andb_prop in Hq as [E Hq]. rewrite E in Hp. simpl in Hp.
      apply prefix_scan_inv in Hq; [congruence|exact new_head_not_in_old_tail].
Qed.

Lemma replace_free s : PyStr.contains old (PyStr.replace old new s) = false.
Proof. apply replace_scan_free. lia. Qed.

End Replace.

Section Barrier.
Variables (w0 : ascii) (wrest : string) (c : ascii).


End Barrier.

Lemma redacted_free s :
  PyStr.contains "password" (PyStr.replace "password" "******" s) = false.
Proof. apply replace_free; reflexivity. Qed.

(** ** The caller resolver *)

(** C5, as stated, fails: [info] called with no Python frame under it
    (a call from an embedding program, say) leaves two frames on the
    stack, and [stack[2]] raises [IndexError]; so does
    [_get_caller_info] called directly from a module's top level. *)
Lemma C5_shallow_stack_raises :
  outcome (qlogger.__get_call_info [own_frame (boot env0) "info" 25]) (boot env0)
  = Raise IndexError /\
  outcome (qlogger.info 0 "hello" [] []) (boot env0) = Raise IndexError /\
  outcome (custom_logger._get_caller_info [main_frame]) (boot env0)
  = Raise IndexError /\
  ~ sentinel_fallback qlogger.__get_call_info.
Proof.
  repeat split; try reflexivity.
  intros H. specialize (H [main_frame] (boot env0)).
  discriminate H. simpl. lia.
Qed.

(** C5, amended. The resolver answers the file and line of the third
    frame of [inspect.stack()] (the caller of the level method) when
    there is one, and raises [IndexError] when the stack has fewer than
    three frames; there is no sentinel. [_get_caller_info] of
    [custom_logger.py] does the same, with the module name (or
    [Unknown]), the function and the line. *)
Theorem C5_call_info_third_frame_or_IndexError w :
  outcome (qlogger.__get_call_info []) w = Raise IndexError /\
  (forall f0, outcome (qlogger.__get_call_info [f0]) w = Raise IndexError) /\
  (forall f0 f1 rest,
     outcome (qlogger.__get_call_info (f0 :: f1 :: rest)) w
     = Ok (f_filename f1, f_lineno f1)) /\
  outcome (custom_logger._get_caller_info []) w = Raise IndexError /\
  (forall f0,
     outcome (custom_logger._get_caller_info [f0]) w = Raise IndexError) /\
  (forall f0 f1 rest,
     outcome (custom_logger._get_caller_info (f0 :: f1 :: rest)) w
     = Ok (default "Unknown" (f_module f1), f_function f1, f_lineno f1)).
Proof. repeat split. Qed.

(** ** The registry [CaptureConsoleLogs] *)

Lemma final_get_logger_boot e name lvl st :
  final_logger.get_logger name lvl st (boot e)
  = (Ok (Some 0%nat), final_started e name lvl st).
Proof.
  unfold final_logger.get_logger, final_started, final_level, final_path.
  cbn. unfold bind at 1. cbn. rewrite lookup_empty. cbn.
  unfold bind at 1. cbn. unfold file_lines. cbn. rewrite lookup_empty. cbn.
  destruct (String.eqb _ "production"); reflexivity.
Qed.

Lemma qlogger_get_logger_boot e :
  qlogger.get_logger (boot e) = (Ok (Some 0%nat), qlogger_started e).
Proof.
  unfold qlogger.get_logger, qlogger_started, final_path.
  cbn. unfold bind at 1. cbn.
  unfold bind at 1. cbn. unfold file_lines. cbn. rewrite lookup_empty. cbn.
  reflexivity.
Qed.

Lemma final_get_logger_again w i lg name lvl st :
  shared_logger w = Some i -> heap w !! i = Some lg ->
  final_logger.get_logger name lvl st w
  = (Ok (Some i),
     set_heap (alter (with_level (final_level (env w) lvl)) i (heap w)) w).
Proof.
  intros Hs Hh. unfold final_logger.get_logger, final_level.
  unfold bind at 1. cbn. rewrite Hs. cbn. rewrite Hs.
  destruct (String.eqb _ "production"); unfold logging.setLevel, bind, deref;
    cbn; rewrite Hh; cbn; rewrite Hs; reflexivity.
Qed.

Lemma qlogger_get_logger_again w i :
  shared_logger w = Some i -> qlogger.get_logger w = (Ok (Some i), w).
Proof.
  intros Hs. unfold qlogger.get_logger.
  unfold bind at 1. cbn. rewrite Hs. cbn. rewrite Hs. reflexivity.
Qed.

Lemma alter_level_twice lv i (h : list Logger) :
  alter (with_level lv) i (alter (with_level lv) i h) = alter (with_level lv) i h.
Proof.
  revert i. induction h as [|x h IH]; intros [|i]; simpl; try reflexivity.
  f_equal. apply IH.
Qed.

Lemma final_get_logger_idempotent w i lg name lvl st :
  shared_logger w = Some i -> heap w !! i = Some lg ->
  let w' := exec (final_logger.get_logger name lvl st) w in
  final_logger.get_logger name lvl st w' = (Ok (Some i), w').
Proof.
  intros Hs Hh w'. subst w'. unfold exec.
  rewrite (final_get_logger_again w i lg) by assumption. cbn [snd].
  rewrite (final_get_logger_again _ i (with_level (final_level (env w) lvl) lg)).
  - cbn. rewrite alter_level_twice. reflexivity.
  - exact Hs.
  - cbn. rewrite list_lookup_alter_eq, Hh. reflexivity.
Qed.

(** C6, amended. The registry holds one logger for the whole process,
    not one per name. The first [get_logger] of a fresh process builds the
    logger, its handlers and its log file, named after that call's name
    (first two conjuncts). Every later [get_logger], under whatever name,
    answers the same object and builds nothing: the state is the one
    before, except that [final_logger.py] sets the level of the object
    again (third and fourth conjunct). Asking a second time with the
    same arguments changes nothing more (fifth conjunct). *)
Theorem C6_one_shared_logger :
  (forall e name lvl st,
     final_logger.get_logger name lvl st (boot e)
     = (Ok (Some 0%nat), final_started e name lvl st)) /\
  (forall e, qlogger.get_logger (boot e) = (Ok (Some 0%nat), qlogger_started e)) /\
  (forall w i lg name lvl st,
     shared_logger w = Some i -> heap w !! i = Some lg ->
     let w' := exec (final_logger.get_logger name lvl st) w in
     outcome (final_logger.get_logger name lvl st) w = Ok (Some i) /\
     w' = set_heap (alter (with_level (final_level (env w) lvl)) i (heap w)) w /\
     length (heap w') = length (heap w) /\
     files w' = files w /\
     queue_listener w' = queue_listener w /\
     log_file_name w' = log_file_name w) /\
  (forall w i,
     shared_logger w = Some i -> qlogger.get_logger w = (Ok (Some i), w)) /\
  (forall w i lg name lvl st,
     shared_logger w = Some i -> heap w !! i = Some lg ->
     let w' := exec (final_logger.get_logger name lvl st) w in
     final_logger.get_logger name lvl st w' = (Ok (Some i), w')).
Proof.
  split; [exact final_get_logger_boot|].
  split; [exact qlogger_get_logger_boot|].
  split; [|split; [exact qlogger_get_logger_again
                  |exact final_get_logger_idempotent]].
  intros w i lg name lvl st Hs Hh. unfold exec, outcome.
  rewrite (final_get_logger_again w i lg) by assumption. cbn.
  repeat split. apply length_alter.
Qed.

(** The instances of C6 at the state after [get_logger("orders")],
    asked for [billing], and at the state after [qlogger]'s first
    [get_logger]. *)
Lemma C6_one_shared_logger_witness :
  let w := final_started env0 "orders" DEBUG false in
  shared_logger w = Some 0%nat /\
  heap w !! 0%nat
  = Some (final_configured (final_path env0 "orders") DEBUG false DEBUG) /\
  outcome (final_logger.get_logger "billing" INFO true) w = Ok (Some 0%nat) /\
  files (exec (final_logger.get_logger "billing" INFO true) w) = files w /\
  shared_logger (qlogger_started env0) = Some 0%nat /\
  qlogger.get_logger (qlogger_started env0)
  = (Ok (Some 0%nat), qlogger_started env0) /\
  (let w' := exec (final_logger.get_logger "billing" INFO true) w in
   final_logger.get_logger "billing" INFO true w' = (Ok (Some 0%nat), w')).
Proof.
  intros w. split; [reflexivity|]. split; [reflexivity|].
  destruct C6_one_shared_logger as (_ & _ & H & Hq & Hi).
  destruct (H w 0%nat
              (final_configured (final_path env0 "orders") DEBUG false DEBUG)
              "billing" INFO true eq_refl eq_refl)
    as (Ho & _ & _ & Hf & _).
  split; [exact Ho|]. split; [exact Hf|]. split; [reflexivity|].
  split; [exact (Hq (qlogger_started env0) 0%nat eq_refl)|].
  exact (Hi w 0%nat
           (final_configured (final_path env0 "orders") DEBUG false DEBUG)
           "billing" INFO true eq_refl eq_refl).
Defined.

(** C6, as stated, fails in [final_logger.py]: the claim has one
    logger per name, built by the first call for that name. After
    [get_logger("orders")] the first call for [billing] builds nothing:
    it answers the logger of [orders], the state is unchanged, the
    recorded file name is the one of [orders] and no file for [billing]
    exists. *)
Lemma C6_second_name_constructs_nothing :
  let w1 := exec (final_logger.get_logger "orders" DEBUG false) (boot env0) in
  let w2 := exec (final_logger.get_logger "billing" DEBUG false) w1 in
  outcome (final_logger.get_logger "orders" DEBUG false) (boot env0)
  = Ok (Some 0%nat) /\
  outcome (final_logger.get_logger "billing" DEBUG false) w1
  = Ok (Some 0%nat) /\
  w2 = w1 /\
  log_file_name w2 = Some "orders_2024-05-01-10-30-00.log" /\
  files w2 !! "billing_2024-05-01-10-30-00.log" = None /\
  length (heap w2) = 1%nat.
Proof. vm_compute. repeat split. Qed.

(** ** The filter chain of [final_logger.py] *)

(** C10. Both filters answer [True] for every record, so does the
    chain of the two, and [Logger.handle] of a logger that carries them
    always goes on to [callHandlers], with the record as the filters
    left it. The logger [get_logger] builds carries exactly these two
    filters and is not disabled. *)
Theorem C10_filters_never_reject :
  (forall r, snd (final_logger.SensitiveDataFilter r) = true) /\
  (forall r, snd (final_logger.ContextFilter r) = true) /\
  (forall r,
     snd (logging.Filterer_filter
            [final_logger.SensitiveDataFilter; final_logger.ContextFilter] r)
     = true) /\
  (forall name level handlers r,
     let lg := {| l_name := name; l_level := level;
                  l_filters := [final_logger.SensitiveDataFilter;
                                final_logger.ContextFilter];
                  l_handlers := handlers; l_disabled := false |} in
     logging.handle lg r =
     logging.callHandlers lg
       (set_user_id "12345"
          (set_msg (PyStr.replace "password" "******" (r_msg r)) r))) /\
  (forall e name lvl st,
     exists lg,
       heap (exec (final_logger.get_logger name lvl st) (boot e)) !! 0%nat
       = Some lg /\
       l_filters lg = [final_logger.SensitiveDataFilter;
                       final_logger.ContextFilter] /\
       l_disabled lg = false).
Proof.
  repeat split.
  intros e name lvl st. unfold exec. rewrite final_get_logger_boot.
  eexists. repeat split.
Qed.

(** ** Redaction *)










Lemma getMessage_no_args r :
  r_args r = [] -> logging.getMessage r = Some (r_msg r).
Proof. intros H. unfold logging.getMessage. rewrite H. reflexivity. Qed.









Lemma final_call_run m self msg args fr callers w :
  final_call m self msg args (fr :: callers) w =
  logging.log self INFO
    (plain_template (f_filename fr) (f_lineno fr) (stamp_dash (now (env w)))
       (method_name m) (final_message m (env w) msg))
    args (module_path (env w), final_site m)
    (set_stack_walks (S (stack_walks w)) w).
Proof. destruct m; reflexivity. Qed.



Section Listener.
Context {C : Type} (proj : World -> list C) (P : C -> Prop).
Variables (Q : LogRecord -> Prop) (hs : list Handler).
Hypothesis proj_queue : forall v w, proj (set_log_queue v w) = proj w.
Hypothesis proj_listener :
  forall v w, proj (set_queue_listener v w) = proj w.
Hypothesis writes :
  forall r, Q r -> appends proj P (logging.QueueListener_handle hs r).
Hypothesis keeps :
  forall r, preserves log_queue (logging.QueueListener_handle hs r).



End Listener.



Lemma Handler_handle_keeps_queue h r :
  h_target h <> ToQueue -> preserves log_queue (logging.Handler_handle h r).
Proof.
  intros H w. unfold exec, logging.Handler_handle, logging.handleError,
    bind, get, modify. simpl.
  destruct (logging.Handler_format (env w) h r); [|reflexivity].
  destruct (h_target h); [reflexivity|reflexivity|congruence].
Qed.





(** ** Delivery through the queue *)

(** C3. The claim asks for each record exactly once in each sink.
    [setup_logger] adds the file and console handlers to the logger and
    also hands them to the queue listener, so a record that is handled is
    written by both handlers at once and a second time when the listener
    takes it off the queue: after [info] and [shutdown_logger], whatever
    the message and the caller, the one record made stands twice on the
    console and twice in the file. It makes no difference whether the
    listener's thread takes its turn before [shutdown_logger] or only
    then. *)
Theorem C3_each_record_is_delivered_twice msg fr callers :
  let run :=
    with_logger (final_logger.get_logger "test_console" DEBUG false)
      (fun l => do final_logger.info l msg [] (fr :: callers) then
                final_logger.shutdown_logger) in
  let run_early :=
    with_logger (final_logger.get_logger "test_console" DEBUG false)
      (fun l => do final_logger.info l msg [] (fr :: callers) then
                do final_logger.listener_turn then
                final_logger.shutdown_logger) in
  let w := exec run (boot env0) in
  let text :=
    PyStr.replace "password" "******"
      (plain_template (f_filename fr) (f_lineno fr) "2024-05-01-10-30-00"
         "INFO" msg) in
  outcome run (boot env0) = Ok tt /\
  length (records w) = 1%nat /\
  log_queue w = [] /\
  console w = [logging.GREEN +:+ text +:+ logging.RESET;
               logging.GREEN +:+ text +:+ logging.RESET] /\
  file_lines w "test_console_2024-05-01-10-30-00.log"
  = ["2024-05-01 10:30:00,123 - INFO - " +:+ text;
     "2024-05-01 10:30:00,123 - INFO - " +:+ text] /\
  console (exec run_early (boot env0)) = console w /\
  files (exec run_early (boot env0)) = files w.
Proof.
  intros run run_early w text.
  assert (H : outcome run (boot env0) = Ok tt /\
    length (records w) = 1%nat /\
    log_queue w = [] /\
    console w
    = [logging.GREEN +:+ (text +:+ EmptyString) +:+ logging.RESET;
       logging.GREEN +:+ ((text +:+ EmptyString) +:+ EmptyString)
         +:+ logging.RESET] /\
    file_lines w "test_console_2024-05-01-10-30-00.log"
    = ["2024-05-01 10:30:00,123 - INFO - " +:+ (text +:+ EmptyString);
       "2024-05-01 10:30:00,123 - INFO - "
         +:+ ((text +:+ EmptyString) +:+ EmptyString)] /\
    console (exec run_early (boot env0)) = console w /\
    files (exec run_early (boot env0)) = files w).
  { vm_compute. repeat split; reflexivity. }
  rewrite !append_empty_r in H. exact H.
Qed.

(** ** custom_logger.py: levels and timers *)


Lemma custom_call_run m self message fr callers w :
  custom_call m self message (fr :: callers) w =
  logging.log (custom_logger.logger self) (method_level m)
    (custom_text m (env w) fr message) [] (module_path (env w), custom_site m)
    (set_stack_walks (S (stack_walks w)) w).
Proof. destruct m; reflexivity. Qed.





Lemma setLevel_run i lg level w :
  heap w !! i = Some lg ->
  logging.setLevel i level w
  = (Ok tt, set_heap (alter (with_level level) i (heap w)) w).
Proof.
  intros H. unfold logging.setLevel, bind, deref, update, modify.
  rewrite H. reflexivity.
Qed.

Lemma level_dict_lookup NAME :
  default INFO (custom_logger.level_dict !! NAME) = level_named NAME.
Proof.
  unfold custom_logger.level_dict, level_named.
  repeat (rewrite lookup_insert; case_decide;
          [subst NAME; reflexivity
          |match goal with
           | H : ?k <> NAME |- _ =>
               destruct (String.eqb_spec NAME k) as [E|_];
               [congruence|clear H]
           end]).
  rewrite lookup_singleton. case_decide; [subst NAME; reflexivity|].
  destruct (String.eqb_spec NAME "CRITICAL") as [E|_]; [congruence|reflexivity].
Qed.

Lemma level_named_unknown NAME :
  known_level NAME = false -> level_named NAME = INFO.
Proof.
  unfold known_level, level_named.
  destruct (String.eqb NAME "DEBUG"), (String.eqb NAME "INFO"),
    (String.eqb NAME "WARNING"), (String.eqb NAME "ERROR"),
    (String.eqb NAME "CRITICAL"); simpl; intros H;
    try reflexivity; discriminate H.
Qed.

(** C9, amended. [set_level] never fails: the name is put in upper
    case and looked up, and the logger's level becomes the level of that
    name, or INFO when the name is none of DEBUG, INFO, WARNING, ERROR,
    CRITICAL. No error is surfaced for an unknown name. *)
Theorem C9_unknown_level_becomes_INFO w self lg level :
  heap w !! custom_logger.logger self = Some lg ->
  outcome (custom_logger.set_level self level) w = Ok tt /\
  exec (custom_logger.set_level self level) w
  = set_heap (alter (with_level (level_named (PyStr.upper level)))
                (custom_logger.logger self) (heap w)) w /\
  heap (exec (custom_logger.set_level self level) w) !! custom_logger.logger self
  = Some (with_level (level_named (PyStr.upper level)) lg) /\
  (known_level (PyStr.upper level) = false ->
   level_named (PyStr.upper level) = INFO).
Proof.
  intros H. unfold custom_logger.set_level, outcome, exec.
  rewrite (setLevel_run _ lg) by exact H. rewrite level_dict_lookup. simpl.
  repeat split.
  - rewrite list_lookup_alter_eq, H. reflexivity.
  - apply level_named_unknown.
Qed.

(** The instance of C9 at the name [verbose] on a fresh logger. *)
Lemma C9_unknown_level_becomes_INFO_witness :
  let w := exec (custom_logger.__init__ "app" false "app.log") (boot env0) in
  exists lg,
    heap w !! custom_logger.logger app_logger = Some lg /\
    known_level (PyStr.upper "verbose") = false /\
    outcome (custom_logger.set_level app_logger "verbose") w = Ok tt /\
    heap (exec (custom_logger.set_level app_logger "verbose") w)
      !! custom_logger.logger app_logger
    = Some (with_level (level_named (PyStr.upper "verbose")) lg) /\
    level_named (PyStr.upper "verbose") = INFO.
Proof.
  intros w. eexists. split; [reflexivity|]. split; [reflexivity|].
  destruct (C9_unknown_level_becomes_INFO w app_logger _ "verbose" eq_refl)
    as (H1 & _ & H3 & H4).
  split; [exact H1|]. split; [exact H3|]. apply H4. reflexivity.
Defined.

(** C9, as stated, fails: [set_level("VERBOSE")] returns normally and
    leaves the logger at INFO. *)
Lemma C9_unknown_level_accepted :
  let w := exec (custom_logger.__init__ "app" false "app.log") (boot env0) in
  outcome (custom_logger.__init__ "app" false "app.log") (boot env0)
  = Ok app_logger /\
  known_level (PyStr.upper "VERBOSE") = false /\
  outcome (custom_logger.set_level app_logger "VERBOSE") w = Ok tt /\
  l_level <$> heap (exec (custom_logger.set_level app_logger "VERBOSE") w) !! 0%nat
  = Some INFO.
Proof. vm_compute. repeat split. Qed.

(** C8, amended. [end_timer] on an object whose timer was never
    started returns normally. It logs at WARNING: when WARNING is enabled
    for the logger, exactly one record is made, of severity WARNING, with
    the fixed text; when the logger's level is above WARNING the call
    changes nothing. *)
Theorem C8_end_timer_without_start w self lg log_msg :
  custom_logger.start_time self = None ->
  heap w !! custom_logger.logger self = Some lg ->
  let w' := exec (custom_logger.end_timer self log_msg) w in
  outcome (custom_logger.end_timer self log_msg) w = Ok tt /\
  if logging.isEnabledFor lg WARNING
  then exists r,
         records w' = records w ++ [r] /\ r_levelno r = WARNING /\
         r_msg r = "Timer was not started before calling end_timer!"
  else w' = w.
Proof.
  intros Hs Hh w'. subst w'. unfold custom_logger.end_timer.
  unfold outcome, exec, bind, get. simpl. rewrite Hs.
  split; [apply (log_total_on _ lg), Hh|].
  rewrite (log_unfold _ lg) by exact Hh.
  destruct (logging.isEnabledFor lg WARNING); [|reflexivity].
  eexists. split; [|split].
  - change (snd (logging.handle lg ?r ?w'))
      with (exec (logging.handle lg r) w').
    rewrite handle_preserves by reflexivity. reflexivity.
  - reflexivity.
  - reflexivity.
Qed.

(** The instance of C8 at a fresh logger, whose level is DEBUG. *)
Lemma C8_end_timer_without_start_witness :
  let w := exec (custom_logger.__init__ "app" false "app.log") (boot env0) in
  let w' := exec (custom_logger.end_timer app_logger "load") w in
  exists lg,
    custom_logger.start_time app_logger = None /\
    heap w !! custom_logger.logger app_logger = Some lg /\
    logging.isEnabledFor lg WARNING = true /\
    outcome (custom_logger.end_timer app_logger "load") w = Ok tt /\
    exists r,
      records w' = records w ++ [r] /\ r_levelno r = WARNING /\
      r_msg r = "Timer was not started before calling end_timer!".
Proof.
  intros w w'. eexists. split; [reflexivity|]. split; [reflexivity|].
  split; [reflexivity|].
  exact (C8_end_timer_without_start w app_logger _ "load" eq_refl eq_refl).
Defined.

(** C8, as stated, fails: after [set_level("ERROR")], [end_timer]
    without [start_timer] returns normally but makes no record at all and
    writes nothing. *)
Lemma C8_warning_disabled_no_record :
  let w := exec (let* l := custom_logger.__init__ "app" false "app.log" in
                 custom_logger.set_level l "ERROR") (boot env0) in
  outcome (custom_logger.__init__ "app" false "app.log") (boot env0)
  = Ok app_logger /\
  l_level <$> heap w !! 0%nat = Some ERROR /\
  outcome (custom_logger.end_timer app_logger "load") w = Ok tt /\
  records (exec (custom_logger.end_timer app_logger "load") w) = [] /\
  console (exec (custom_logger.end_timer app_logger "load") w) = [].
Proof. vm_compute. repeat split. Qed.

(** * Further properties of the code *)

(** ** The redaction filter on messages without the word *)

Lemma replace_scan_absent n old new s :
  PyStr.contains old s = false -> PyStr.replace_scan n old new s = s.
Proof.
  revert s. induction n as [|n IH]; intros s H; [reflexivity|].
  destruct s as [|c s]; [reflexivity|].
  cbn [PyStr.replace_scan].
  cbn [PyStr.contains] in H. apply orb_false_iff in H as [Hp Hc].
  rewrite Hp, IH by exact Hc. reflexivity.
Qed.

Lemma set_msg_same r : set_msg (r_msg r) r = r.
Proof. destruct r; reflexivity. Qed.

(** X1. [SensitiveDataFilter.filter] hands a record back exactly as
    it came when, and only when, the word [password] does not occur in
    its message; and filtering a second time changes nothing more. *)
Theorem sensitive_filter_fixes_clean_messages (r : LogRecord) :
  (fst (final_logger.SensitiveDataFilter r) = r <->
   PyStr.contains "password" (r_msg r) = false) /\
  final_logger.SensitiveDataFilter (fst (final_logger.SensitiveDataFilter r))
  = final_logger.SensitiveDataFilter r.
Proof.
  assert (A : forall r', PyStr.contains "password" (r_msg r') = false ->
                         fst (final_logger.SensitiveDataFilter r') = r').
  { intros r' H. unfold final_logger.SensitiveDataFilter, PyStr.replace. cbn [fst].
    rewrite replace_scan_absent by exact H. apply set_msg_same. }
  split; [split|].
  - intros E. apply (f_equal r_msg) in E. cbn in E. rewrite <- E.
    apply redacted_free.
  - apply A.
  - set (r1 := fst (final_logger.SensitiveDataFilter r)).
    change (final_logger.SensitiveDataFilter r1)
      with (fst (final_logger.SensitiveDataFilter r1), true).
    rewrite A by apply redacted_free. reflexivity.
Qed.

(** ** [set_level] of [custom_logger.py] *)

Lemma upper_char_idempotent c :
  PyStr.upper_char (PyStr.upper_char c) = PyStr.upper_char c.
Proof. destruct c as [[] [] [] [] [] [] [] []]; reflexivity. Qed.

Lemma upper_idempotent s : PyStr.upper (PyStr.upper s) = PyStr.upper s.
Proof.
  induction s as [|c s IH]; [reflexivity|].
  cbn [PyStr.upper]. rewrite upper_char_idempotent, IH. reflexivity.
Qed.

Lemma alter_level_last lv lv' i (h : list Logger) :
  alter (with_level lv') i (alter (with_level lv) i h)
  = alter (with_level lv') i h.
Proof.
  revert i. induction h as [|x h IH]; intros [|i]; simpl; try reflexivity.
  f_equal. apply IH.
Qed.

Lemma set_level_run self lg level w :
  heap w !! custom_logger.logger self = Some lg ->
  custom_logger.set_level self level w
  = (Ok tt,
     set_heap (alter (with_level (level_named (PyStr.upper level)))
                 (custom_logger.logger self) (heap w)) w).
Proof.
  intros H. unfold custom_logger.set_level.
  rewrite (setLevel_run _ lg) by exact H. rewrite level_dict_lookup.
  reflexivity.
Qed.

(** X2. [set_level] reads the name of the level without regard to
    letter case, and of two calls in a row only the second one counts. *)
Theorem set_level_any_case_and_last_call_wins w self lg level level' :
  heap w !! custom_logger.logger self = Some lg ->
  custom_logger.set_level self (PyStr.upper level) w
  = custom_logger.set_level self level w /\
  exec (do custom_logger.set_level self level then
        custom_logger.set_level self level') w
  = exec (custom_logger.set_level self level') w.
Proof.
  intros H. split.
  - rewrite !(set_level_run _ lg) by exact H.
    rewrite upper_idempotent. reflexivity.
  - rewrite exec_bind. unfold outcome, exec.
    rewrite (set_level_run self lg level) by exact H.
    rewrite (set_level_run self lg level' w) by exact H. cbn [fst snd].
    rewrite (set_level_run _ (with_level (level_named (PyStr.upper level)) lg)).
    + cbn. rewrite alter_level_last. reflexivity.
    + cbn. rewrite list_lookup_alter_eq, H. reflexivity.
Qed.

Lemma set_level_any_case_and_last_call_wins_witness :
  custom_logger.set_level app_logger (PyStr.upper "debug")
    (exec (custom_logger.__init__ "app" false "app.log") (boot env0))
  = custom_logger.set_level app_logger "debug"
      (exec (custom_logger.__init__ "app" false "app.log") (boot env0)) /\
  exec (do custom_logger.set_level app_logger "debug" then
        custom_logger.set_level app_logger "error")
    (exec (custom_logger.__init__ "app" false "app.log") (boot env0))
  = exec (custom_logger.set_level app_logger "error")
      (exec (custom_logger.__init__ "app" false "app.log") (boot env0)).
Proof.
  eapply (set_level_any_case_and_last_call_wins _ app_logger).
  vm_compute. reflexivity.
Defined.

(** X3. After [set_level(level)] a level method of
    [custom_logger.py] makes a record exactly when its own severity is
    not below the level that [level] names (INFO for an unknown name);
    the record carries the method's severity and its coloured text. *)
Theorem set_level_gates_level_methods w self lg level m message fr callers :
  heap w !! custom_logger.logger self = Some lg ->
  l_disabled lg = false ->
  let w1 := exec (custom_logger.set_level self level) w in
  let w2 := exec (custom_call m self message (fr :: callers)) w1 in
  records w2 =
  records w ++
    (if level_named (PyStr.upper level) <=? method_level m
     then [logging.makeRecord (env w) (l_name lg) (method_level m)
             (module_path (env w), custom_site m)
             (custom_text m (env w) fr message) []]
     else []).
Proof.
  intros H D w1 w2. subst w2 w1. unfold exec at 2.
  rewrite (set_level_run _ lg) by exact H. cbn [snd].
  unfold exec. rewrite custom_call_run.
  set (lg' := with_level (level_named (PyStr.upper level)) lg).
  rewrite (log_unfold _ lg')
    by (cbn; rewrite list_lookup_alter_eq, H; reflexivity).
  unfold logging.isEnabledFor. cbn [lg' l_disabled l_level with_level].
  rewrite D.
  destruct (level_named (PyStr.upper level) <=? method_level m).
  - change (snd (logging.handle lg' ?r ?w'))
      with (exec (logging.handle lg' r) w').
    rewrite handle_preserves by reflexivity. reflexivity.
  - cbn. rewrite app_nil_r. reflexivity.
Qed.

Lemma set_level_gates_level_methods_witness :
  let w := exec (custom_logger.__init__ "app" false "app.log") (boot env0) in
  let w1 := exec (custom_logger.set_level app_logger "warning") w in
  records
    (exec (custom_call MInfo app_logger "ready" [main_frame]) w1) = [] /\
  length
    (records
       (exec (custom_call MError app_logger "broken" [main_frame]) w1))
  = 1%nat.
Proof.
  intros w w1. subst w1. split.
  - refine (eq_trans
      (set_level_gates_level_methods w app_logger _ "warning" MInfo "ready"
         main_frame [] _ _) _).
    + vm_compute. reflexivity.
    + reflexivity.
    + vm_compute. reflexivity.
  - refine (eq_trans (f_equal length
      (set_level_gates_level_methods w app_logger _ "warning" MError "broken"
         main_frame [] _ _)) _).
    + vm_compute. reflexivity.
    + reflexivity.
    + vm_compute. reflexivity.
Defined.

(** ** Transcripts: what exactly reaches the sinks *)

Lemma emits_ret {A B} (proj : World -> list B) (a : A) :
  emits proj (fun _ => []) (ret a).
Proof. intros w. cbn. rewrite app_nil_r. reflexivity. Qed.

Lemma emits_bind {A B C} (proj : World -> list C) out1 out2 (m : M A)
    (k : A -> M B) :
  emits proj out1 m -> preserves env m -> total m ->
  (forall a, emits proj out2 (k a)) ->
  emits proj (fun e => out1 e ++ out2 e) (bind m k).
Proof.
  intros Hm He Ht Hk w. rewrite exec_bind.
  destruct (Ht w) as [a ->]. rewrite Hk, Hm, He, app_assoc. reflexivity.
Qed.

Lemma emits_for_each {A B} (proj : World -> list B) (out : Env -> A -> list B)
    (f : A -> M unit) l :
  (forall x, emits proj (fun e => out e x) (f x)) ->
  (forall x, preserves env (f x)) ->
  (forall x, total (f x)) ->
  emits proj (fun e => flat_map (out e) l) (for_each f l).
Proof.
  intros Hf He Ht. induction l as [|x l IH]; cbn [for_each flat_map].
  - apply emits_ret.
  - apply (emits_bind proj (fun e => out e x)); auto.
Qed.

Lemma file_lines_insert w path p v :
  file_lines (set_files (<[p := v]> (files w)) w) path
  = if String.eqb p path then v else file_lines w path.
Proof.
  unfold file_lines. cbn.
  destruct (String.eqb_spec p path) as [->|N].
  - rewrite lookup_insert_eq. reflexivity.
  - rewrite lookup_insert_ne by exact N. reflexivity.
Qed.

Lemma Handler_handle_env h r : preserves env (logging.Handler_handle h r).
Proof. apply Handler_handle_preserves; reflexivity. Qed.

Lemma Handler_handle_console h r :
  emits console (fun e => console_out e r h) (logging.Handler_handle h r).
Proof.
  intros w. unfold console_out, exec, logging.Handler_handle, bind, get.
  destruct (logging.Handler_format (env w) h r) as [line|];
    destruct (h_target h); cbn; rewrite ?app_nil_r; reflexivity.
Qed.

Lemma Handler_handle_file path h r :
  emits (fun w => file_lines w path) (fun e => file_out path e r h)
    (logging.Handler_handle h r).
Proof.
  intros w. unfold file_out, exec, logging.Handler_handle, bind, get.
  destruct (logging.Handler_format (env w) h r) as [line|];
    destruct (h_target h) as [|p|]; cbn [snd modify logging.handleError];
    rewrite ?app_nil_r; try reflexivity.
  rewrite file_lines_insert.
  destruct (String.eqb_spec p path) as [->|N];
    rewrite ?app_nil_r; reflexivity.
Qed.


Lemma flat_map_takers {B} (out : Handler -> list B) r hs :
  flat_map (fun h => if h_level h <=? r_levelno r then out h else []) hs
  = flat_map out (takers r hs).
Proof.
  unfold takers. induction hs as [|h hs IH]; [reflexivity|].
  cbn [flat_map List.filter]. destruct (h_level h <=? r_levelno r); cbn;
    rewrite IH; reflexivity.
Qed.

(** [callHandlers] writes what the handlers that take the record
    write, in the order of the handlers. *)
Lemma callHandlers_emits {B} (proj : World -> list B)
    (out : Env -> LogRecord -> Handler -> list B) lg r :
  (forall h r, emits proj (fun e => out e r h) (logging.Handler_handle h r)) ->
  emits proj (fun e => flat_map (out e r) (takers r (l_handlers lg)))
    (logging.callHandlers lg r).
Proof.
  intros H w. unfold logging.callHandlers.
  rewrite (emits_for_each proj
             (fun e h => if h_level h <=? r_levelno r then out e r h else [])).
  - rewrite flat_map_takers. reflexivity.
  - intros h. destruct (h_level h <=? r_levelno r);
      [apply H | apply emits_ret].
  - intros h. destruct (h_level h <=? r_levelno r);
      [apply Handler_handle_env | apply preserves_ret].
  - intros h. destruct (h_level h <=? r_levelno r);
      [apply Handler_handle_total | apply total_ret].
Qed.

Lemma listener_handle_emits {B} (proj : World -> list B)
    (out : Env -> LogRecord -> Handler -> list B) hs r :
  (forall h r, emits proj (fun e => out e r h) (logging.Handler_handle h r)) ->
  emits proj (fun e => flat_map (out e r) hs)
    (logging.QueueListener_handle hs r).
Proof.
  intros H. unfold logging.QueueListener_handle.
  apply (emits_for_each proj (fun e h => out e r h)).
  - intros h. apply H.
  - intros h. apply Handler_handle_env.
  - intros h. apply Handler_handle_total.
Qed.

Lemma listener_handle_env hs r :
  preserves env (logging.QueueListener_handle hs r).
Proof. apply preserves_for_each. intros h. apply Handler_handle_env. Qed.

Lemma listener_handle_keeps_queue hs r :
  Forall (fun h => h_target h <> ToQueue) hs ->
  preserves log_queue (logging.QueueListener_handle hs r).
Proof.
  intros F. unfold logging.QueueListener_handle.
  induction F as [|h hs Hh F IH]; cbn [for_each].
  - apply preserves_ret.
  - apply preserves_bind; [apply Handler_handle_keeps_queue, Hh | intros; apply IH].
Qed.

Lemma listener_handle_total hs r :
  total (logging.QueueListener_handle hs r).
Proof. apply total_for_each. intros h. apply Handler_handle_total. Qed.

Lemma drain_step n hs r q w :
  log_queue w = r :: q ->
  exec (logging.drain (S n) {| ql_handlers := hs; ql_running := true |}) w
  = exec (logging.drain n {| ql_handlers := hs; ql_running := true |})
      (exec (logging.QueueListener_handle hs r) (set_log_queue q w)).
Proof.
  intros E. cbn [logging.drain]. rewrite exec_bind.
  assert (S1 : logging.listener_step
                 {| ql_handlers := hs; ql_running := true |} w
               = logging.QueueListener_handle hs r (set_log_queue q w)).
  { unfold logging.listener_step, bind, get. cbn. rewrite E. reflexivity. }
  unfold outcome at 1. unfold exec at 2. rewrite S1.
  change (fst (logging.QueueListener_handle hs r ?v))
    with (outcome (logging.QueueListener_handle hs r) v).
  rewrite (outcome_total_unit _ _ (listener_handle_total hs r)).
  reflexivity.
Qed.

(** The thread of a running listener handles the queued records
    oldest first and leaves the queue empty. *)
Lemma drain_emits {B} (proj : World -> list B)
    (out : Env -> LogRecord -> Handler -> list B) hs :
  (forall h r, emits proj (fun e => out e r h) (logging.Handler_handle h r)) ->
  (forall v w, proj (set_log_queue v w) = proj w) ->
  Forall (fun h => h_target h <> ToQueue) hs ->
  forall q w, log_queue w = q ->
    let w' := exec (logging.drain (length q)
                      {| ql_handlers := hs; ql_running := true |}) w in
    proj w' = proj w ++ flat_map (fun r => flat_map (out (env w) r) hs) q /\
    log_queue w' = [] /\ env w' = env w.
Proof.
  intros H Hq F q. induction q as [|r q IH]; intros w E w'; subst w'.
  - cbn. rewrite app_nil_r. auto.
  - cbn [length flat_map]. rewrite (drain_step _ _ r q) by exact E.
    set (w1 := exec (logging.QueueListener_handle hs r) (set_log_queue q w)).
    assert (Q1 : log_queue w1 = q)
      by (unfold w1; rewrite listener_handle_keeps_queue by exact F;
          reflexivity).
    assert (E1 : env w1 = env w)
      by (unfold w1; rewrite listener_handle_env; reflexivity).
    destruct (IH w1 Q1) as (P1 & P2 & P3).
    rewrite P1, P2, P3, E1. repeat split.
    unfold w1. rewrite (listener_handle_emits proj out) by exact H.
    rewrite Hq. cbn [env set_log_queue]. rewrite app_assoc. reflexivity.
Qed.

(** ** [shutdown_logger] *)

Lemma listener_step_total ql : total (logging.listener_step ql).
Proof.
  unfold logging.listener_step. apply total_bind; [apply total_get|].
  intros w. destruct (ql_running ql); [|apply total_ret].
  destruct (log_queue w); [apply total_ret|].
  apply total_bind; [apply total_modify | intros; apply listener_handle_total].
Qed.

Lemma drain_total n ql : total (logging.drain n ql).
Proof.
  induction n as [|n IH]; cbn [logging.drain]; [apply total_ret|].
  apply total_bind; [apply listener_step_total | intros; apply IH].
Qed.

Lemma listener_handle_preserves {C} (proj : World -> C) hs r :
  (forall v w, proj (set_console v w) = proj w) ->
  (forall v w, proj (set_files v w) = proj w) ->
  (forall v w, proj (set_log_queue v w) = proj w) ->
  (forall v w, proj (set_stderr_errors v w) = proj w) ->
  preserves proj (logging.QueueListener_handle hs r).
Proof.
  intros. apply preserves_for_each. intros h.
  apply Handler_handle_preserves; assumption.
Qed.

Lemma drain_preserves {C} (proj : World -> C) n ql :
  (forall v w, proj (set_console v w) = proj w) ->
  (forall v w, proj (set_files v w) = proj w) ->
  (forall v w, proj (set_log_queue v w) = proj w) ->
  (forall v w, proj (set_stderr_errors v w) = proj w) ->
  preserves proj (logging.drain n ql).
Proof.
  intros H1 H2 H3 H4. induction n as [|n IH]; cbn [logging.drain];
    [apply preserves_ret|].
  apply preserves_bind; [|intros; apply IH].
  unfold logging.listener_step.
  apply preserves_bind; [apply preserves_get|]. intros w.
  destruct (ql_running ql); [|apply preserves_ret].
  destruct (log_queue w); [apply preserves_ret|].
  apply preserves_bind; [apply preserves_modify; intros; apply H3|].
  intros. apply listener_handle_preserves; assumption.
Qed.

(** [shutdown_logger] with a running listener: the thread handles
    what is queued, the listener is marked as stopped, and
    [logging.shutdown] is reached through the shared logger. *)
Lemma shutdown_run hs w i lg :
  queue_listener w = Some {| ql_handlers := hs; ql_running := true |} ->
  shared_logger w = Some i -> heap w !! i = Some lg ->
  final_logger.shutdown_logger w
  = (Ok tt,
     set_queue_listener (Some {| ql_handlers := hs; ql_running := false |})
       (exec (logging.drain (length (log_queue w))
                {| ql_handlers := hs; ql_running := true |}) w)).
Proof.
  intros Hl Hs Hh.
  set (ql := {| ql_handlers := hs; ql_running := true |}).
  pose proof (outcome_total_unit _ w (drain_total (length (log_queue w)) ql))
    as T.
  pose proof (drain_preserves shared_logger (length (log_queue w)) ql
                ltac:(reflexivity) ltac:(reflexivity) ltac:(reflexivity)
                ltac:(reflexivity) w) as P1.
  pose proof (drain_preserves heap (length (log_queue w)) ql
                ltac:(reflexivity) ltac:(reflexivity) ltac:(reflexivity)
                ltac:(reflexivity) w) as P2.
  unfold outcome in T. unfold exec in P1, P2 |- *.
  unfold final_logger.shutdown_logger, bind, get. rewrite Hl.
  unfold logging.stop, bind, get. cbn [ql_running ql_handlers].
  fold ql.
  destruct (logging.drain (length (log_queue w)) ql w) as [res w1].
  cbn [fst snd] in *. subst res. cbn.
  unfold deref. cbn. rewrite P1, Hs, P2, Hh. reflexivity.
Qed.

Lemma final_listener_no_queue path lvl st running :
  Forall (fun h => h_target h <> ToQueue)
    (ql_handlers (final_listener path lvl st running)).
Proof. repeat constructor; discriminate. Qed.

Lemma shutdown_drains hs w i lg :
  queue_listener w = Some {| ql_handlers := hs; ql_running := true |} ->
  Forall (fun h => h_target h <> ToQueue) hs ->
  shared_logger w = Some i -> heap w !! i = Some lg ->
  let w' := exec final_logger.shutdown_logger w in
  outcome final_logger.shutdown_logger w = Ok tt /\
  log_queue w' = [] /\
  queue_listener w' = Some {| ql_handlers := hs; ql_running := false |} /\
  console w'
  = console w
    ++ flat_map (fun r => flat_map (console_out (env w) r) hs) (log_queue w) /\
  forall p,
    file_lines w' p
    = file_lines w p
      ++ flat_map (fun r => flat_map (file_out p (env w) r) hs) (log_queue w).
Proof.
  intros Hl F Hs Hh w'. subst w'. unfold outcome, exec.
  rewrite (shutdown_run hs w i lg Hl Hs Hh). cbn [fst snd].
  split; [reflexivity|].
  destruct (drain_emits console console_out hs Handler_handle_console
              ltac:(reflexivity) F (log_queue w) w eq_refl) as (C1 & C2 & _).
  split; [exact C2|]. split; [reflexivity|]. split; [exact C1|].
  intros p.
  destruct (drain_emits (fun w => file_lines w p) (file_out p) hs
              (Handler_handle_file p) ltac:(reflexivity) F (log_queue w) w
              eq_refl) as (F1 & _).
  exact F1.
Qed.

(** X4. [shutdown_logger] with a running listener returns normally,
    leaves the queue empty and the listener stopped, and appends to the
    console and to every file what the listener's two handlers write for
    the queued records, oldest record first. *)
Theorem shutdown_writes_the_queue_oldest_first w path lvl st i lg :
  queue_listener w = Some (final_listener path lvl st true) ->
  shared_logger w = Some i -> heap w !! i = Some lg ->
  let hs := ql_handlers (final_listener path lvl st true) in
  let w' := exec final_logger.shutdown_logger w in
  outcome final_logger.shutdown_logger w = Ok tt /\
  log_queue w' = [] /\
  queue_listener w' = Some (final_listener path lvl st false) /\
  console w'
  = console w
    ++ flat_map (fun r => flat_map (console_out (env w) r) hs) (log_queue w) /\
  forall p,
    file_lines w' p
    = file_lines w p
      ++ flat_map (fun r => flat_map (file_out p (env w) r) hs) (log_queue w).
Proof.
  intros Hl Hs Hh.
  exact (shutdown_drains _ w i lg Hl (final_listener_no_queue path lvl st true)
           Hs Hh).
Qed.

Lemma shutdown_writes_the_queue_oldest_first_witness :
  let w := exec (do final_logger.info 0 "one" [] [main_frame] then
                 final_logger.info 0 "two" [] [main_frame])
             (final_started env0 "test_console" DEBUG false) in
  let w' := exec final_logger.shutdown_logger w in
  r_msg <$> log_queue w
  = ["/srv/app/main.py 12 : 2024-05-01-10-30-00 INFO: one";
     "/srv/app/main.py 12 : 2024-05-01-10-30-00 INFO: two"] /\
  log_queue w' = [] /\
  console w'
  = console w
    ++ [logging.GREEN
          +:+ "/srv/app/main.py 12 : 2024-05-01-10-30-00 INFO: one"
          +:+ logging.RESET;
        logging.GREEN
          +:+ "/srv/app/main.py 12 : 2024-05-01-10-30-00 INFO: two"
          +:+ logging.RESET].
Proof.
  intros w w'. split; [vm_compute; reflexivity|].
  destruct (shutdown_writes_the_queue_oldest_first w
              "test_console_2024-05-01-10-30-00.log" DEBUG false 0%nat
              (final_configured "test_console_2024-05-01-10-30-00.log" DEBUG
                 false DEBUG))
    as (_ & Q & _ & C & _);
    [vm_compute; reflexivity | vm_compute; reflexivity
    | vm_compute; reflexivity |].
  split; [exact Q|]. fold w' in C. rewrite C. f_equal.
Defined.

(** ** Sequences of [get_logger] calls *)

Lemma final_started_state e name lvl st :
  final_started e name lvl st
  = final_state e (final_path e name) lvl st (final_level e lvl).
Proof. reflexivity. Qed.

Lemma final_get_logger_state e path lvl0 st0 level name lvl st :
  final_logger.get_logger name lvl st (final_state e path lvl0 st0 level)
  = (Ok (Some 0%nat), final_state e path lvl0 st0 (final_level e lvl)).
Proof.
  rewrite (final_get_logger_again _ 0%nat
             (final_configured path lvl0 st0 level)) by reflexivity.
  reflexivity.
Qed.

Lemma last_cons {A} (l : list A) x d : List.last (x :: l) d = List.last l x.
Proof.
  revert x d. induction l as [|y l IH]; intros x d; [reflexivity|].
  change (List.last (x :: y :: l) d) with (List.last (y :: l) d).
  rewrite !IH. reflexivity.
Qed.

Lemma last_fmap {A B} (f : A -> B) (l : list A) d :
  List.last (f <$> l) (f d) = f (List.last l d).
Proof.
  revert d. induction l as [|y l IH]; intros d; [reflexivity|].
  cbn [fmap list_fmap]. rewrite !last_cons. apply IH.
Qed.

Lemma acquire_all_state e path lvl0 st0 later :
  forall level,
    for_each acquire later (final_state e path lvl0 st0 level)
    = (Ok tt,
       final_state e path lvl0 st0
         (List.last (final_level e <$> (a_level <$> later)) level)).
Proof.
  induction later as [|a later IH]; intros level; [reflexivity|].
  cbn [for_each]. unfold bind at 1. unfold acquire at 1. unfold bind at 1.
  rewrite final_get_logger_state. cbn [ret]. rewrite IH.
  f_equal. f_equal. cbn [fmap list_fmap]. rewrite last_cons. reflexivity.
Qed.

(** X5. After any sequence of [get_logger] calls in a fresh process
    the state is the one the first call built (file name, handlers and
    their level, structured or not), with the logger's level set by the
    last call; [get_log_file_name] answers the file of the first call. *)
Theorem first_get_logger_fixes_all_but_the_level e first later :
  let path := final_path e (a_name first) in
  let w := exec (for_each acquire (first :: later)) (boot e) in
  w = final_state e path (a_level first) (a_structured first)
        (final_level e (a_level (List.last later first))) /\
  outcome (do for_each acquire (first :: later) then
           final_logger.get_log_file_name) (boot e) = Ok (Some path).
Proof.
  intros path w.
  assert (R : for_each acquire (first :: later) (boot e)
              = (Ok tt,
                 final_state e path (a_level first) (a_structured first)
                   (final_level e (a_level (List.last later first))))).
  { cbn [for_each]. unfold bind at 1. unfold acquire at 1. unfold bind at 1.
    rewrite final_get_logger_boot. cbn [ret].
    rewrite final_started_state, acquire_all_state. f_equal. f_equal.
    rewrite <- list_fmap_compose.
    apply (last_fmap (final_level e ∘ a_level) later first). }
  split.
  - subst w. unfold exec. rewrite R. reflexivity.
  - rewrite outcome_bind. unfold outcome at 1, exec. rewrite R. reflexivity.
Qed.

(** ** One call of a level method of [final_logger.py], line by line *)


Lemma file_handler_format e path lvl st r :
  logging.Handler_format e (final_logger.file_handler path lvl st) r
  = if st then Some (logging.JSON_format e r)
    else (fun m => stamp_asctime (r_created r) +:+ " - " +:+ r_levelname r
                     +:+ " - " +:+ m) <$> logging.getMessage r.
Proof.
  destruct st; [reflexivity|].
  change (logging.Handler_format e (final_logger.file_handler path lvl false) r)
    with (logging.Formatter_format
            [Fasctime; Lit " - "; Flevelname; Lit " - "; Fmessage] r).
  unfold logging.Formatter_format, logging.formatMessage.
  destruct (logging.getMessage r) as [m|]; [|reflexivity].
  cbn. rewrite append_empty_r. reflexivity.
Qed.







Lemma handle_env lg r : preserves env (logging.handle lg r).
Proof. apply handle_preserves; reflexivity. Qed.

Lemma callHandlers_preserves {C} (proj : World -> C) lg r :
  (forall v w, proj (set_console v w) = proj w) ->
  (forall v w, proj (set_files v w) = proj w) ->
  (forall v w, proj (set_log_queue v w) = proj w) ->
  (forall v w, proj (set_stderr_errors v w) = proj w) ->
  preserves proj (logging.callHandlers lg r).
Proof.
  intros H1 H2 H3 H4. apply preserves_for_each. intros h.
  destruct (h_level h <=? r_levelno r);
    [apply Handler_handle_preserves; auto | apply preserves_ret].
Qed.





(** X7. With [ENV=production] the logger a fresh process gets from
    [get_logger] is at WARNING, whatever level was asked for, so none
    of [info], [debug], [warning] and [error] logs anything: the call
    returns, one stack walk is made and nothing else changes. *)
Theorem production_silences_every_level_method e name lvl st m msg args fr
    callers :
  environ e !! "ENV" = Some "production" ->
  let w := final_started e name lvl st in
  final_call m 0 msg args (fr :: callers) w
  = (Ok tt, set_stack_walks 1 w).
Proof.
  intros P w. rewrite final_call_run.
  apply (log_disabled _
           (final_configured (final_path e name) lvl st (final_level e lvl)));
    [reflexivity|].
  unfold final_level. rewrite P. reflexivity.
Qed.

Lemma production_silences_every_level_method_witness :
  final_call FError 0 "disk failure" [] [main_frame]
    (final_started env_production "test_console" DEBUG false)
  = (Ok tt,
     set_stack_walks 1
       (final_started env_production "test_console" DEBUG false)).
Proof.
  apply (production_silences_every_level_method env_production "test_console"
           DEBUG false FError "disk failure" [] main_frame []).
  vm_compute. reflexivity.
Defined.

(** ** The sinks of [qlogger.py], [q_logger1.py] and [q_logger2.py] *)

Lemma qlogger_started_q e : qlogger_started e = q_started e None None.
Proof. reflexivity. Qed.

Lemma qlogger_call_run m self msg args callers w :
  qlogger_call m self msg args callers w =
  match callers with
  | fr :: _ =>
      logging.log self INFO
        (facade_text qlogger.exception_text m (env w) fr msg) args
        (module_path (env w), qlogger_site m)
        (set_stack_walks (S (stack_walks w)) w)
  | [] => (Raise IndexError, set_stack_walks (S (stack_walks w)) w)
  end.
Proof. destruct callers; destruct m; reflexivity. Qed.

Lemma q_logger1_call_run m self msg args callers w :
  q_logger1_call m self msg args callers w =
  match callers with
  | fr :: _ =>
      logging.log self (q_logger1_level m)
        (facade_text q_logger1.exception_text m (env w) fr msg) args
        (module_path (env w), q_logger1_site m)
        (set_stack_walks (S (stack_walks w)) w)
  | [] => (Raise IndexError, set_stack_walks (S (stack_walks w)) w)
  end.
Proof. destruct callers; destruct m; reflexivity. Qed.

Lemma q_logger2_call_run m self msg args callers w :
  q_logger2_call m self msg args callers w =
  match callers with
  | fr :: _ =>
      logging.log self INFO
        (facade_text q_logger2.exception_text m (env w) fr msg) args
        (module_path (env w), q_logger2_site m)
        (set_stack_walks (S (stack_walks w)) w)
  | [] => (Raise IndexError, set_stack_walks (S (stack_walks w)) w)
  end.
Proof. destruct callers; destruct m; reflexivity. Qed.

Lemma q_logger1_get_logger_boot e :
  q_logger1.get_logger (boot e) = (Ok (Some 0%nat), q_logger1_started e).
Proof. reflexivity. Qed.

Lemma q_logger2_get_logger_boot e :
  q_logger2.get_logger (boot e) = (Ok (Some 0%nat), q_logger2_started e).
Proof. reflexivity. Qed.

(** [Logger.log] on the logger of a [q_configured] state, seen from
    the sinks: the record goes to the file and to the console, each
    through its formatter. *)
Lemma log_q_sinks w self path ff cf level text args site :
  heap w !! self = Some (q_configured path ff cf) ->
  DEBUG <= level ->
  let r := logging.makeRecord (env w) "custom_logger" level site text args in
  let w' := exec (logging.log self level text args site) w in
  outcome (logging.log self level text args site) w = Ok tt /\
  console w' = console w ++ rendered (env w) cf r /\
  file_lines w' path = file_lines w path ++ rendered (env w) ff r /\
  records w' = records w ++ [r] /\
  heap w' = heap w /\ env w' = env w /\
  shared_logger w' = shared_logger w /\ stack_walks w' = stack_walks w.
Proof.
  intros Hh Hl r w'. subst w'.
  set (lg := q_configured path ff cf) in *.
  split; [apply (log_total_on _ lg), Hh|].
  unfold exec. rewrite (log_unfold _ lg) by exact Hh.
  assert (En : logging.isEnabledFor lg level = true).
  { unfold logging.isEnabledFor. cbn. apply Z.leb_le. exact Hl. }
  rewrite En. unfold logging.handle.
  cbn [lg q_configured l_disabled l_filters logging.Filterer_filter].
  fold lg. change (logging.makeRecord (env w) (l_name lg) level site text args)
    with r.
  set (w1 := set_records _ w).
  change (snd (logging.callHandlers lg r w1))
    with (exec (logging.callHandlers lg r) w1).
  rewrite (callHandlers_emits console console_out lg r Handler_handle_console).
  rewrite (callHandlers_emits (fun w => file_lines w path) (file_out path) lg r
             (Handler_handle_file path)).
  rewrite !(callHandlers_preserves _ lg r) by reflexivity.
  assert (T : takers r (l_handlers lg) = l_handlers lg).
  { unfold takers. cbn.
    replace (DEBUG <=? level) with true by (symmetry; apply Z.leb_le; exact Hl).
    reflexivity. }
  rewrite T. cbn [lg q_configured l_handlers flat_map].
  unfold console_out, file_out, rendered, logging.Handler_format.
  cbn [h_target h_formatter]. rewrite String.eqb_refl.
  change (env w1) with (env w).
  repeat split.
  - destruct (logging.format (env w) _ r); reflexivity.
  - destruct (logging.format (env w) _ r); reflexivity.
Qed.

(** A record without arguments is formatted by every formatter, so no
    handler reports an error for it. *)
Lemma format_no_args e f r :
  r_args r = [] -> exists line, logging.format e f r = Some line.
Proof.
  intros A. destruct f; unfold logging.format, logging.Formatter_format;
    rewrite ?getMessage_no_args by exact A; eauto.
Qed.

Lemma Handler_handle_no_error h r :
  r_args r = [] -> preserves stderr_errors (logging.Handler_handle h r).
Proof.
  intros A w. unfold exec, logging.Handler_handle, bind, get.
  unfold logging.Handler_format.
  destruct (format_no_args (env w)
              (default (PlainFormatter [Fmessage]) (h_formatter h)) r A)
    as [line ->].
  destruct (h_target h); reflexivity.
Qed.

Lemma callHandlers_no_error lg r :
  r_args r = [] -> preserves stderr_errors (logging.callHandlers lg r).
Proof.
  intros A. apply preserves_for_each. intros h.
  destruct (h_level h <=? r_levelno r);
    [apply Handler_handle_no_error, A | apply preserves_ret].
Qed.

Lemma log_q_no_error w self path ff cf level text site :
  heap w !! self = Some (q_configured path ff cf) ->
  stderr_errors (exec (logging.log self level text [] site) w)
  = stderr_errors w.
Proof.
  intros Hh. unfold exec.
  rewrite (log_unfold _ (q_configured path ff cf)) by exact Hh.
  destruct (logging.isEnabledFor _ level); [|reflexivity].
  unfold logging.handle.
  cbn [q_configured l_disabled l_filters logging.Filterer_filter].
  change (snd (logging.callHandlers ?l ?r ?v))
    with (exec (logging.callHandlers l r) v).
  rewrite callHandlers_no_error by reflexivity. reflexivity.
Qed.


(** ** The plain rendering at the sinks *)







(** ** Scripts: any sequence of calls of the level methods *)

Section Script.
Variable call : Method -> nat -> string -> list string -> list FrameInfo
                -> M unit.
Variables (ff cf : option Formatter) (e : Env) (paint : string -> string).
Hypothesis call_run :
  forall m self msg callers w,
  exists text site,
    call m self msg [] callers w =
    match callers with
    | _ :: _ =>
        logging.log self INFO text [] site
          (set_stack_walks (S (stack_walks w)) w)
    | [] => (Raise IndexError, set_stack_walks (S (stack_walks w)) w)
    end.
Hypothesis painted :
  forall r, r_levelno r = INFO -> rendered e cf r = paint <$> rendered e ff r.

Lemma script_step c w :
  i_args c = [] ->
  script_invariant_holds e ff cf paint w ->
  script_invariant_holds e ff cf paint (exec (invoke call 0 c) w).
Proof.
  intros A (Hh & He & Hs & Hc). unfold invoke, exec. rewrite A.
  destruct (call_run (i_method c) 0%nat (i_msg c) (i_callers c) w)
    as (text & site & ->).
  destruct (i_callers c) as [|fr callers]; [repeat split; assumption|].
  set (w0 := set_stack_walks _ w).
  assert (H0 : heap w0 !! 0%nat
               = Some (q_configured (final_path e "test_console") ff cf))
    by (cbn; rewrite Hh; reflexivity).
  destruct (log_q_sinks w0 0%nat (final_path e "test_console") ff cf INFO text
              [] site H0 ltac:(discriminate))
    as (_ & C & F & _ & H & E & _).
  pose proof (log_q_no_error w0 0%nat (final_path e "test_console") ff cf INFO
                text site H0) as N.
  unfold exec in C, F, H, E, N. unfold script_invariant_holds.
  rewrite C, F, H, E, N.
  change (env w0) with (env w). change (heap w0) with (heap w).
  change (console w0) with (console w).
  change (stderr_errors w0) with (stderr_errors w).
  change (file_lines w0 (final_path e "test_console"))
    with (file_lines w (final_path e "test_console")).
  rewrite He, Hc, fmap_app, painted by reflexivity. auto.
Qed.

Lemma script_invariant calls w :
  Forall (fun c => i_args c = []) calls ->
  script_invariant_holds e ff cf paint w ->
  script_invariant_holds e ff cf paint (exec (for_each (invoke call 0) calls) w).
Proof.
  intros F. revert w. induction F as [|c calls A F IH]; intros w I; [exact I|].
  cbn [for_each]. rewrite exec_bind.
  pose proof (script_step c w A I) as I1.
  destruct (outcome (invoke call 0 c) w); [|exact I1].
  apply IH, I1.
Qed.

End Script.

Lemma q_started_file e ff cf :
  file_lines (q_started e ff cf) (final_path e "test_console") = [].
Proof. unfold file_lines. cbn. rewrite lookup_insert_eq. reflexivity. Qed.

Lemma fmap_id_list (l : list string) : (fun s : string => s) <$> l = l.
Proof. apply list_fmap_id. Qed.

(** X8. When a script calls the level methods of [qlogger.py] on the
    shared logger with the message alone, however often and in whatever
    order, the log file holds the same lines as the console handler has
    written, in the same order; no handler has reported an error, so
    nothing else is on the console's stream; and the logger stays as
    [setup_logger] built it. *)
Theorem qlogger_file_mirrors_console e calls :
  Forall (fun c => i_args c = []) calls ->
  let w := exec (for_each (invoke qlogger_call 0) calls) (qlogger_started e) in
  file_lines w (final_path e "test_console") = console w /\
  stderr_errors w = 0%nat /\
  heap w = heap (qlogger_started e).
Proof.
  intros A w.
  destruct (script_invariant qlogger_call None None e (fun s => s)) with
    (calls := calls) (w := qlogger_started e) as (H & _ & S0 & C).
  - intros m self msg callers w0. rewrite qlogger_call_run.
    destruct callers as [|fr callers];
      [exists EmptyString, (EmptyString, 0) | eexists _, _]; reflexivity.
  - intros r _. rewrite fmap_id_list. reflexivity.
  - exact A.
  - repeat split. rewrite fmap_id_list. symmetry.
    apply (q_started_file e None None).
  - fold w in H, C, S0. rewrite fmap_id_list in C.
    split; [symmetry; exact C|]. split; [exact S0|exact H].
Qed.

Lemma qlogger_file_mirrors_console_witness :
  let calls :=
    [{| i_method := FInfo; i_msg := "job started"; i_args := [];
        i_callers := [main_frame] |};
     {| i_method := FError; i_msg := "job failed"; i_args := [];
        i_callers := [main_frame] |}] in
  let w := exec (for_each (invoke qlogger_call 0) calls)
             (qlogger_started env0) in
  file_lines w (final_path env0 "test_console") = console w /\
  stderr_errors w = 0%nat /\
  heap w = heap (qlogger_started env0).
Proof.
  intros calls.
  apply (qlogger_file_mirrors_console env0 calls).
  repeat constructor.
Defined.

Lemma rendered_custom e r :
  r_levelno r = INFO ->
  rendered e (Some (CustomFormatter [Fmessage])) r
  = (fun line => logging.GREEN +:+ line +:+ logging.RESET)
      <$> rendered e (Some (PlainFormatter [Fmessage])) r.
Proof.
  intros L. unfold rendered.
  change (logging.format e
            (default (PlainFormatter [Fmessage])
               (Some (CustomFormatter [Fmessage]))) r)
    with ((fun log_msg =>
             logging.COLORS (getLevelName (r_levelno r)) +:+ log_msg
               +:+ logging.RESET) <$> logging.Formatter_format [Fmessage] r).
  change (logging.format e
            (default (PlainFormatter [Fmessage])
               (Some (PlainFormatter [Fmessage]))) r)
    with (logging.Formatter_format [Fmessage] r).
  rewrite L.
  destruct (logging.Formatter_format [Fmessage] r); reflexivity.
Qed.

(** X9. When a script calls the level methods of [q_logger2.py] on
    the shared logger with the message alone, the console handler has
    written the lines of the log file, each wrapped in the green of INFO
    and the reset code, and no handler has reported an error: no method
    is shown in another colour. *)
Theorem q_logger2_console_is_the_file_in_green e calls :
  Forall (fun c => i_args c = []) calls ->
  let w := exec (for_each (invoke q_logger2_call 0) calls)
             (q_logger2_started e) in
  console w
  = (fun line => logging.GREEN +:+ line +:+ logging.RESET)
      <$> file_lines w (final_path e "test_console") /\
  stderr_errors w = 0%nat.
Proof.
  intros A w.
  destruct (script_invariant q_logger2_call (Some (PlainFormatter [Fmessage]))
              (Some (CustomFormatter [Fmessage])) e
              (fun line => logging.GREEN +:+ line +:+ logging.RESET)) with
    (calls := calls) (w := q_logger2_started e) as (_ & _ & S0 & C).
  - intros m self msg callers w0. rewrite q_logger2_call_run.
    destruct callers as [|fr callers];
      [exists EmptyString, (EmptyString, 0) | eexists _, _]; reflexivity.
  - apply rendered_custom.
  - exact A.
  - repeat split. unfold q_logger2_started.
    rewrite (q_started_file e (Some (PlainFormatter [Fmessage]))
               (Some (CustomFormatter [Fmessage]))).
    reflexivity.
  - split; [exact C|exact S0].
Qed.

Lemma q_logger2_console_is_the_file_in_green_witness :
  let calls :=
    [{| i_method := FWarning; i_msg := "disk is low"; i_args := [];
        i_callers := [main_frame] |};
     {| i_method := FError; i_msg := "write failed"; i_args := [];
        i_callers := [main_frame] |}] in
  let w := exec (for_each (invoke q_logger2_call 0) calls)
             (q_logger2_started env0) in
  console w
  = (fun line => logging.GREEN +:+ line +:+ logging.RESET)
      <$> file_lines w (final_path env0 "test_console") /\
  stderr_errors w = 0%nat.
Proof.
  intros calls.
  apply (q_logger2_console_is_the_file_in_green env0 calls).
  repeat constructor.
Defined.

(** X10. Each level method of [q_logger1.py], called without
    arguments, appends its text to the log file as it is, and to the
    console in the colour of its own severity: blue for [debug], green
    for [info], yellow for [warning], red for [error]. *)
Theorem q_logger1_colours_by_method w self path m msg fr callers :
  heap w !! self
  = Some (q_configured path (Some (PlainFormatter [Fmessage]))
            (Some (ColorFormatter [Fmessage]))) ->
  let text := facade_text q_logger1.exception_text m (env w) fr msg in
  let w' := exec (q_logger1_call m self msg [] (fr :: callers)) w in
  console w' = console w ++ [q_logger1_colour m +:+ text +:+ logging.RESET] /\
  file_lines w' path = file_lines w path ++ [text] /\
  r_levelno <$> records w' = (r_levelno <$> records w) ++ [q_logger1_level m].
Proof.
  intros Hh text w'. subst w'. unfold exec. rewrite q_logger1_call_run.
  fold text. set (w0 := set_stack_walks _ w).
  destruct (log_q_sinks w0 self path (Some (PlainFormatter [Fmessage]))
              (Some (ColorFormatter [Fmessage])) (q_logger1_level m) text []
              (module_path (env w), q_logger1_site m))
    as (_ & C & F & R & _); [exact Hh | destruct m; discriminate |].
  unfold exec in C, F, R. change (env w0) with (env w) in *.
  rewrite C, F, R, fmap_app. clear C F R.
  unfold rendered.
  change (logging.format (env w)
            (default (PlainFormatter [Fmessage])
               (Some (ColorFormatter [Fmessage]))) ?r)
    with ((fun log_msg =>
             logging.COLORS_levelno (r_levelno r) +:+ log_msg
               +:+ logging.RESET) <$> logging.Formatter_format [Fmessage] r).
  change (logging.format (env w)
            (default (PlainFormatter [Fmessage])
               (Some (PlainFormatter [Fmessage]))) ?r)
    with (logging.Formatter_format [Fmessage] r).
  rewrite format_message_only, getMessage_no_args by reflexivity.
  repeat split. destruct m; reflexivity.
Qed.

Lemma q_logger1_colours_by_method_witness :
  let w' := exec (q_logger1_call FWarning 0 "disk is low" [] [main_frame])
              (q_logger1_started env0) in
  console w'
  = [logging.YELLOW
       +:+ "/srv/app/main.py 12 : 2024-05-01-10-30-00 WARNING: disk is low"
       +:+ logging.RESET] /\
  file_lines w' "test_console_2024-05-01-10-30-00.log"
  = ["/srv/app/main.py 12 : 2024-05-01-10-30-00 WARNING: disk is low"] /\
  r_levelno <$> records w' = [WARNING].
Proof.
  exact (q_logger1_colours_by_method (q_logger1_started env0) 0
           "test_console_2024-05-01-10-30-00.log" FWarning "disk is low"
           main_frame [] eq_refl).
Defined.

(** ** [count_down] *)

Lemma set_env_boot e e' : set_env e' (boot e) = boot e'.
Proof. reflexivity. Qed.

Lemma qlogger_ready_sleep later w :
  qlogger_ready w -> qlogger_ready (exec (sleep later) w).
Proof.
  intros [E|H]; [left|right; exact H].
  unfold exec, sleep, modify. cbn [snd]. rewrite E at 2.
  apply set_env_boot.
Qed.

(** The body of the loop when the seconds left are a multiple of ten *)
Lemma qlogger_wait_step w k callers :
  qlogger_ready w ->
  let m := let* w0 := get in
           let* lg := qlogger.get_logger in
           match lg with
           | Some l =>
               qlogger.info l
                 ("Wait for: " +:+ pretty (k / 60) +:+ " min :"
                    +:+ pretty (k mod 60) +:+ " secs") []
                 (own_frame w0 "count_down" 145 :: callers)
           | None => raise AttributeError
           end in
  outcome m w = Ok tt /\
  (exists r, records (exec m w) = records w ++ [r] /\
             r_levelno r = INFO /\ r_msg r = wait_text (env w) 145 k) /\
  env (exec m w) = env w /\
  shared_logger (exec m w) = Some 0%nat /\
  exists path, heap (exec m w) !! 0%nat = Some (q_configured path None None).
Proof.
  intros R m.
  assert (G : exists w1 path,
            qlogger.get_logger w = (Ok (Some 0%nat), w1) /\
            env w1 = env w /\ records w1 = records w /\
            shared_logger w1 = Some 0%nat /\
            heap w1 !! 0%nat = Some (q_configured path None None)).
  { destruct R as [E|(S0 & path & Hh)].
    - exists (qlogger_started (env w)), (final_path (env w) "test_console").
      rewrite E at 1. rewrite qlogger_get_logger_boot.
      repeat split. rewrite E. reflexivity.
    - exists w, path. rewrite (qlogger_get_logger_again w 0%nat S0). auto. }
  destruct G as (w1 & path & G & E1 & R1 & S1 & H1).
  subst m. unfold outcome, exec, bind at 1 2 3 4 5, get.
  unfold bind at 1 2 3 4 5. rewrite G.
  rewrite qlogger_info_run.
  set (w2 := set_stack_walks _ w1).
  destruct (log_q_sinks w2 0%nat path None None INFO
              (plain_template (f_filename (own_frame w "count_down" 145))
                 (f_lineno (own_frame w "count_down" 145))
                 (stamp_dash (now (env w1))) "INFO"
                 ("Wait for: " +:+ pretty (k / 60) +:+ " min :"
                    +:+ pretty (k mod 60) +:+ " secs"))
              [] (module_path (env w1), 27) H1 ltac:(discriminate))
    as (O & _ & _ & Rr & Hh & Ee & Ss & _).
  unfold outcome, exec in O, Rr, Hh, Ee, Ss.
  rewrite O, Rr, Hh, Ee, Ss.
  change (env w2) with (env w1). change (records w2) with (records w1).
  change (shared_logger w2) with (shared_logger w1).
  change (heap w2) with (heap w1).
  rewrite E1, R1, S1. split; [reflexivity|]. split.
  - eexists. split; [reflexivity|]. split; reflexivity.
  - split; [reflexivity|]. split; [reflexivity|]. exists path. exact H1.
Qed.

Lemma tens_below d :
  0 < d ->
  Z.to_nat (d / 10)
  = Nat.add (if d mod 10 =? 0 then 1%nat else 0%nat)
      (Z.to_nat ((d - 1) / 10)).
Proof.
  intros H. destruct (d mod 10 =? 0) eqn:E.
  - apply Z.eqb_eq in E.
    assert (d / 10 = (d - 1) / 10 + 1 /\ 0 <= (d - 1) / 10)
      by (Z.div_mod_to_equations; lia).
    lia.
  - apply Z.eqb_neq in E.
    assert (d / 10 = (d - 1) / 10) by (Z.div_mod_to_equations; lia). lia.
Qed.




(** X12. [count_down] of [qlogger.py] with a negative duration does
    not end: however many rounds are allowed, the loop is still
    running. *)
Theorem qlogger_count_down_below_zero_never_ends later callers fuel :
  forall d w,
    qlogger_ready w -> d < 0 ->
    outcome (qlogger.count_down fuel later d callers) w = Ok false.
Proof.
  induction fuel as [|fuel IH]; intros d w R D; [reflexivity|].
  cbn [qlogger.count_down].
  destruct (d =? 0) eqn:Z0; [apply Z.eqb_eq in Z0; lia|].
  set (body := if d mod 10 =? 0 then _ else ret tt).
  assert (B : outcome body w = Ok tt /\ qlogger_ready (exec body w)).
  { subst body. destruct (d mod 10 =? 0).
    - destruct (qlogger_wait_step w d callers R)
        as (O & _ & _ & S0 & path & Hh).
      split; [exact O|]. right. split; [exact S0|]. exists path. exact Hh.
    - split; [reflexivity|exact R]. }
  destruct B as (O & R').
  rewrite outcome_bind, O. rewrite outcome_bind.
  change (outcome (sleep later) (exec body w)) with (@Ok unit tt).
  apply IH; [apply qlogger_ready_sleep, R' | lia].
Qed.

Lemma qlogger_count_down_below_zero_never_ends_witness :
  outcome (qlogger.count_down 50 (fun e => e) (-1) [main_frame]) (boot env0)
  = Ok false.
Proof.
  apply (qlogger_count_down_below_zero_never_ends (fun e => e) [main_frame] 50
           (-1) (boot env0)).
  - left. reflexivity.
  - lia.
Defined.

(** ** Constructing a [CustomLogger] more than once *)

Lemma custom_init_boot e name log_to_file log_file :
  custom_logger.__init__ name log_to_file log_file (boot e)
  = (Ok app_logger, custom_built e name log_to_file log_file 1).
Proof.
  unfold custom_logger.__init__, logging.getLogger, custom_built.
  fold (logger_key name).
  unfold bind at 1. unfold bind at 1. cbn [get boot loggerDict].
  rewrite lookup_empty.
  destruct log_to_file; cbn; unfold file_lines; cbn; rewrite ?lookup_empty;
    reflexivity.
Qed.

Lemma concat_replicate_end {A} (hs : list A) k :
  concat (replicate k hs) ++ hs = concat (replicate (S k) hs).
Proof.
  rewrite replicate_S_end, concat_app. cbn. rewrite app_nil_r. reflexivity.
Qed.

Lemma custom_init_again e name log_to_file log_file k :
  custom_logger.__init__ name log_to_file log_file
    (custom_built e name log_to_file log_file (S k))
  = (Ok app_logger, custom_built e name log_to_file log_file (S (S k))).
Proof.
  unfold custom_logger.__init__, logging.getLogger.
  fold (logger_key name).
  unfold bind at 1. unfold bind at 1. cbn [get custom_built loggerDict].
  rewrite lookup_singleton_eq.
  pose proof (concat_replicate_end (custom_handlers log_to_file log_file)
                (S k)) as H.
  unfold custom_built. rewrite <- H. clear H.
  set (hs := concat (replicate (S k) (custom_handlers log_to_file log_file))).
  destruct log_to_file.
  - cbn. unfold file_lines. cbn. rewrite lookup_singleton_eq. cbn.
    rewrite insert_singleton_eq.
    unfold ret, set_heap, set_files, with_handler, with_level. cbn.
    rewrite <- !app_assoc. reflexivity.
  - cbn. reflexivity.
Qed.

Lemma construct_again e name log_to_file log_file k :
  forall j,
    construct k name log_to_file log_file
      (custom_built e name log_to_file log_file (S j))
    = (Ok tt, custom_built e name log_to_file log_file (S (k + j))).
Proof.
  induction k as [|k IH]; intros j; [reflexivity|].
  cbn [construct]. unfold bind at 1. rewrite custom_init_again, IH.
  rewrite Nat.add_succ_r. reflexivity.
Qed.

Lemma construct_boot e name log_to_file log_file k :
  construct (S k) name log_to_file log_file (boot e)
  = (Ok tt, custom_built e name log_to_file log_file (S k)).
Proof.
  cbn [construct]. unfold bind at 1. rewrite custom_init_boot.
  rewrite construct_again, Nat.add_0_r. reflexivity.
Qed.

Lemma flat_map_concat_replicate {A B} (f : A -> list B) hs n :
  flat_map f (concat (replicate n hs)) = concat (replicate n (flat_map f hs)).
Proof.
  induction n as [|n IH]; [reflexivity|].
  cbn [replicate concat]. rewrite flat_map_app, IH. reflexivity.
Qed.

Lemma concat_replicate_singleton {A} (x : A) n :
  concat (replicate n [x]) = replicate n x.
Proof. induction n as [|n IH]; [reflexivity|]. cbn. rewrite IH. reflexivity. Qed.

Lemma takers_all r hs :
  Forall (fun h => h_level h <= r_levelno r) hs -> takers r hs = hs.
Proof.
  unfold takers. induction 1 as [|h hs H F IH]; [reflexivity|].
  cbn [List.filter]. apply Z.leb_le in H. rewrite H, IH. reflexivity.
Qed.

Lemma Forall_concat_replicate {A} (P : A -> Prop) hs n :
  Forall P hs -> Forall P (concat (replicate n hs)).
Proof.
  intros H. induction n as [|n IH]; [constructor|].
  cbn [replicate concat]. apply Forall_app. split; assumption.
Qed.

(** The record a level method of [custom_logger.py] makes *)
Lemma custom_lines e name log_to_file log_file m text :
  let r := logging.makeRecord e (logger_key name) (method_level m)
             (module_path e, custom_site m) text [] in
  flat_map (console_out e r) (custom_handlers log_to_file log_file)
  = [custom_console_line e name m text] /\
  flat_map (file_out log_file e r) (custom_handlers log_to_file log_file)
  = if log_to_file then [custom_file_line e name m text] else [].
Proof.
  intros r. unfold console_out, file_out, custom_handlers,
    logging.Handler_format.
  destruct log_to_file; cbn [flat_map h_target h_formatter default
    logging.format app]; unfold logging.Formatter_format,
    logging.formatMessage; cbn; rewrite ?String.eqb_refl, ?append_empty_r;
    split; reflexivity.
Qed.

(** X13. Constructing a [CustomLogger] a further time under the same
    name adds its handlers to the same logger once more: after [k + 1]
    constructions the logger holds [k + 1] copies of them, and one call
    of a level method makes one record, hands [k + 1] lines to the
    console stream and, when there is a file, writes [k + 1] equal lines
    to it, whose place in brackets is the logging statement inside
    [custom_logger.py]; no handler reports an error. *)
Theorem custom_logger_writes_once_per_construction e name log_to_file log_file
    k m message fr callers :
  let w0 := exec (construct (S k) name log_to_file log_file) (boot e) in
  let w := exec (custom_call m app_logger message (fr :: callers)) w0 in
  let text := custom_text m e fr message in
  l_handlers <$> heap w0 !! 0%nat
  = Some (concat (replicate (S k) (custom_handlers log_to_file log_file))) /\
  length (console w) = S k /\
  file_lines w log_file
  = (if log_to_file
     then replicate (S k) (custom_file_line e name m text) else []) /\
  length (records w) = 1%nat /\
  stderr_errors w = 0%nat.
Proof.
  intros w0 w text. subst w w0. unfold exec at 1 3 5 7 9.
  rewrite construct_boot. cbn [snd].
  split; [reflexivity|].
  unfold exec. rewrite custom_call_run.
  set (w0 := custom_built e name log_to_file log_file (S k)).
  set (hs := concat (replicate (S k) (custom_handlers log_to_file log_file))).
  set (lg := {| l_name := logger_key name; l_level := DEBUG; l_filters := [];
                l_handlers := hs; l_disabled := false |}).
  rewrite (log_unfold _ lg) by reflexivity.
  assert (En : logging.isEnabledFor lg (method_level m) = true)
    by (destruct m; reflexivity).
  rewrite En. unfold logging.handle.
  cbn [lg l_disabled l_filters logging.Filterer_filter]. fold lg.
  change (env (set_stack_walks _ w0)) with e.
  change (env w0) with e. fold text.
  change (l_name lg) with (logger_key name).
  set (r := logging.makeRecord e (logger_key name) (method_level m)
              (module_path e, custom_site m) text []).
  set (w1 := set_records _ _).
  change (snd (logging.callHandlers lg r w1))
    with (exec (logging.callHandlers lg r) w1).
  rewrite (callHandlers_emits console console_out lg r Handler_handle_console).
  rewrite (callHandlers_emits (fun w => file_lines w log_file)
             (file_out log_file) lg r (Handler_handle_file log_file)).
  rewrite (callHandlers_preserves records lg r) by reflexivity.
  rewrite (callHandlers_no_error lg r) by reflexivity.
  assert (T : takers r (l_handlers lg) = hs).
  { apply takers_all. apply Forall_concat_replicate.
    unfold custom_handlers.
    destruct log_to_file; repeat constructor; destruct m; discriminate. }
  rewrite T. unfold hs. rewrite !flat_map_concat_replicate.
  change (env w1) with e.
  destruct (custom_lines e name log_to_file log_file m text) as (C & F).
  cbv zeta in C, F. fold r in C, F. rewrite C, F.
  split; [|split; [|split; reflexivity]].
  - rewrite concat_replicate_singleton. cbn [console w1 w0 custom_built
      set_records set_stack_walks app]. apply length_replicate.
  - assert (F0 : file_lines w1 log_file = []).
    { unfold file_lines. cbn. destruct log_to_file.
      - rewrite lookup_singleton_eq. reflexivity.
      - rewrite lookup_empty. reflexivity. }
    rewrite F0. destruct log_to_file.
    + apply concat_replicate_singleton.
    + clear. induction k as [|k IH]; [reflexivity|exact IH].
Qed.

(** ** Timers, and arguments that no placeholder takes *)

(** X14. [start_timer] returns normally with the start time set to
    the current time, whether or not INFO is enabled. A later
    [end_timer] on that object returns normally and never logs the
    warning: when INFO is enabled it makes exactly one record, at INFO,
    with the time elapsed since the start; when INFO is disabled it
    changes nothing. *)
Theorem started_timer_ends_with_elapsed_time w self lg log_msg :
  heap w !! custom_logger.logger self = Some lg ->
  exists self',
    outcome (custom_logger.start_timer self log_msg) w = Ok self' /\
    custom_logger.logger self' = custom_logger.logger self /\
    custom_logger.start_time self' = Some (now (env w)) /\
    forall w' lg' log_msg',
      heap w' !! custom_logger.logger self = Some lg' ->
      let w'' := exec (custom_logger.end_timer self' log_msg') w' in
      outcome (custom_logger.end_timer self' log_msg') w' = Ok tt /\
      if logging.isEnabledFor lg' INFO
      then exists r,
             records w'' = records w' ++ [r] /\ r_levelno r = INFO /\
             r_msg r = "End: " +:+ log_msg' +:+ " | Elapsed Time: "
                         +:+ elapsed_since (env w') (now (env w))
      else w'' = w'.
Proof.
  intros Hh.
  exists {| custom_logger.logger := custom_logger.logger self;
            custom_logger.start_time := Some (now (env w)) |}.
  split; [|split; [reflexivity|split; [reflexivity|]]].
  - unfold custom_logger.start_timer. rewrite outcome_bind.
    change (outcome get w) with (@Ok World w). change (exec get w) with w.
    cbv beta iota. rewrite outcome_bind.
    cbn [custom_logger.logger]. rewrite (log_total_on _ lg) by exact Hh.
    reflexivity.
  - intros w' lg' log_msg' Hh' w''. subst w''.
    unfold custom_logger.end_timer, outcome, exec, bind, get.
    cbn [custom_logger.start_time custom_logger.logger fst snd].
    split; [apply (log_total_on _ lg'), Hh'|].
    rewrite (log_unfold _ lg') by exact Hh'.
    destruct (logging.isEnabledFor lg' INFO); [|reflexivity].
    eexists. split; [|split].
    + change (snd (logging.handle lg' ?r ?v))
        with (exec (logging.handle lg' r) v).
      rewrite handle_preserves by reflexivity. reflexivity.
    + reflexivity.
    + reflexivity.
Qed.

Lemma started_timer_ends_with_elapsed_time_witness :
  let w := exec (custom_logger.__init__ "app" false "app.log") (boot env0) in
  exists self',
    outcome (custom_logger.start_timer app_logger "load") w = Ok self' /\
    custom_logger.start_time self' = Some clock0 /\
    exists r,
      records (exec (custom_logger.end_timer self' "done") w)
      = records w ++ [r] /\
      r_levelno r = INFO /\
      r_msg r = "End: done | Elapsed Time: 0:00:01.500000".
Proof.
  intros w.
  destruct (started_timer_ends_with_elapsed_time w app_logger
              {| l_name := "app"; l_level := DEBUG; l_filters := [];
                 l_handlers := custom_handlers false "app.log";
                 l_disabled := false |} "load" eq_refl)
    as (self' & O & _ & S0 & E).
  exists self'. split; [exact O|]. split; [exact S0|].
  exact (proj2 (E w _ "done" eq_refl)).
Defined.

Lemma percent_left_over s args :
  PyStr.char_in "%" s = false -> args <> [] -> PyStr.percent s args = None.
Proof.
  intros H A. induction s as [|c s IH].
  - destruct args; [contradiction|reflexivity].
  - cbn [PyStr.char_in] in H. apply orb_false_iff in H as [Hc Hs].
    specialize (IH Hs).
    destruct c as [[] [] [] [] [] [] [] []]; try discriminate Hc;
      cbn [PyStr.percent]; rewrite IH; reflexivity.
Qed.

(** X15. A level method of [qlogger.py] called with arguments for a
    text that holds no [%] returns normally and makes its record, but
    the line is not written: the file stays as it is, and each of the
    two handlers, failing to format the record, reports the error
    instead (on [sys.stderr]). *)
Theorem arguments_without_placeholder_are_reported_not_written w self path m
    msg args fr callers :
  heap w !! self = Some (q_configured path None None) ->
  args <> [] ->
  PyStr.char_in "%" (facade_text qlogger.exception_text m (env w) fr msg)
  = false ->
  let w' := exec (qlogger_call m self msg args (fr :: callers)) w in
  outcome (qlogger_call m self msg args (fr :: callers)) w = Ok tt /\
  file_lines w' path = file_lines w path /\
  stderr_errors w' = (stderr_errors w + 2)%nat /\
  length (records w') = S (length (records w)).
Proof.
  intros Hh A P w'. subst w'. unfold outcome, exec.
  rewrite qlogger_call_run.
  set (text := facade_text qlogger.exception_text m (env w) fr msg) in *.
  set (w0 := set_stack_walks _ w).
  destruct (log_q_sinks w0 self path None None INFO text args
              (module_path (env w), qlogger_site m) Hh ltac:(discriminate))
    as (O & _ & F & R & _).
  unfold outcome, exec in O, F, R.
  split; [exact O|]. rewrite F, R.
  assert (N : forall site,
            rendered (env w0) None
              (logging.makeRecord (env w0) "custom_logger" INFO site text args)
            = []).
  { intros site. unfold rendered.
    change (logging.format (env w0) (default (PlainFormatter [Fmessage]) None)
              ?r) with (logging.Formatter_format [Fmessage] r).
    rewrite format_message_only. unfold logging.getMessage.
    cbn [logging.makeRecord r_args r_msg].
    destruct args as [|a args]; [contradiction|].
    rewrite percent_left_over by (assumption || discriminate). reflexivity. }
  rewrite !N, !app_nil_r, length_app.
  split; [reflexivity|].
  split; [|change (records w0) with (records w); rewrite Nat.add_1_r;
           reflexivity].
  rewrite (log_unfold _ (q_configured path None None)) by exact Hh.
  cbn [logging.isEnabledFor q_configured l_disabled l_level].
  change (DEBUG <=? INFO) with true. cbv iota.
  unfold logging.handle, logging.callHandlers.
  cbn [q_configured l_disabled l_filters l_handlers logging.Filterer_filter
       for_each h_level].
  set (r := logging.makeRecord _ _ _ _ _ _).
  change (DEBUG <=? r_levelno r) with true. cbv iota.
  assert (Fm : forall e h, h_formatter h = None ->
                           logging.Handler_format e h r = None).
  { intros e h Hf. unfold logging.Handler_format. rewrite Hf.
    change (logging.format e (default (PlainFormatter [Fmessage]) None) r)
      with (logging.Formatter_format [Fmessage] r).
    rewrite format_message_only. unfold logging.getMessage.
    cbn [r logging.makeRecord r_args r_msg].
    destruct args as [|a args]; [contradiction|].
    apply percent_left_over; [assumption | discriminate]. }
  assert (Hr : forall h v, h_formatter h = None ->
                           logging.Handler_handle h r v
                           = (Ok tt, set_stderr_errors (S (stderr_errors v)) v)).
  { intros h v Hf. unfold logging.Handler_handle, bind, get.
    rewrite (Fm _ h Hf). reflexivity. }
  unfold bind. rewrite Hr by reflexivity. cbv iota beta.
  rewrite Hr by reflexivity. cbn. lia.
Qed.

Lemma arguments_without_placeholder_are_reported_not_written_witness :
  let w := qlogger_started env0 in
  let w' := exec (qlogger_call FInfo 0 "ready" ["now"] [main_frame]) w in
  outcome (qlogger_call FInfo 0 "ready" ["now"] [main_frame]) w = Ok tt /\
  file_lines w' "test_console_2024-05-01-10-30-00.log"
  = file_lines w "test_console_2024-05-01-10-30-00.log" /\
  stderr_errors w' = (stderr_errors w + 2)%nat /\
  length (records w') = S (length (records w)).
Proof.
  apply (arguments_without_placeholder_are_reported_not_written
           (qlogger_started env0) 0 "test_console_2024-05-01-10-30-00.log"
           FInfo "ready" ["now"] main_frame []).
  - reflexivity.
  - discriminate.
  - vm_compute. reflexivity.
Defined.

(** ** Structured lines *)

Lemma char_in_app c a b :
  PyStr.char_in c (a +:+ b) = PyStr.char_in c a || PyStr.char_in c b.
Proof.
  induction a as [|d a IH]; [reflexivity|].
  change (String d a +:+ b) with (String d (a +:+ b)).
  cbn [PyStr.char_in]. rewrite IH, orb_assoc. reflexivity.
Qed.

Lemma pretty_N_char_no_break x :
  Ascii.eqb "010" (pretty_N_char x) = false.
Proof. unfold pretty_N_char. repeat case_match; reflexivity. Qed.

Lemma pretty_N_go_no_break x :
  forall s, PyStr.char_in "010" s = false ->
            PyStr.char_in "010" (pretty_N_go x s) = false.
Proof.
  induction (N.lt_wf_0 x) as [x _ IH]; intros s H.
  assert (x = 0 \/ 0 < x)%N as [->|P] by lia.
  - rewrite pretty_N_go_0. exact H.
  - rewrite pretty_N_go_step by exact P. apply IH.
    + apply N.div_lt; [exact P | reflexivity].
    + cbn [PyStr.char_in]. rewrite pretty_N_char_no_break. exact H.
Qed.

Lemma pretty_N_no_break (x : N) : PyStr.char_in "010" (pretty x) = false.
Proof.
  unfold pretty, pretty_N. destruct (decide (x = 0%N)); [reflexivity|].
  apply pretty_N_go_no_break. reflexivity.
Qed.

Lemma pretty_Z_no_break (x : Z) : PyStr.char_in "010" (pretty x) = false.
Proof.
  unfold pretty, pretty_Z. destruct x as [|p|p].
  - reflexivity.
  - apply (pretty_N_no_break (N.pos p)).
  - rewrite char_in_app. apply orb_false_iff. split; [reflexivity|].
    apply (pretty_N_no_break (N.pos p)).
Qed.

Lemma json_escape_char_no_break c :
  PyStr.char_in "010" (logging.json_escape_char c) = false.
Proof. destruct c as [[] [] [] [] [] [] [] []]; reflexivity. Qed.

Lemma json_escape_no_break s :
  PyStr.char_in "010" (logging.json_escape s) = false.
Proof.
  induction s as [|c s IH]; [reflexivity|].
  cbn [logging.json_escape].
  rewrite char_in_app, json_escape_char_no_break, IH. reflexivity.
Qed.

Lemma json_str_no_break s : PyStr.char_in "010" (logging.json_str s) = false.
Proof.
  unfold logging.json_str. cbn [PyStr.char_in].
  rewrite char_in_app, json_escape_no_break. reflexivity.
Qed.

(** X16. The line [JSONFormatter.format] makes for a record holds no
    line break, whatever the message: in structured mode every record
    takes exactly one line of the log file. *)
Theorem structured_record_is_one_line e r :
  PyStr.char_in "010" (logging.JSON_format e r) = false /\
  forall path lvl,
    Forall (fun line => PyStr.char_in "010" line = false)
      (file_out path e r (final_logger.file_handler path lvl true)).
Proof.
  assert (J : PyStr.char_in "010" (logging.JSON_format e r) = false).
  { unfold logging.JSON_format.
    rewrite !char_in_app, !json_str_no_break, pretty_Z_no_break.
    reflexivity. }
  split; [exact J|]. intros path lvl. unfold file_out.
  rewrite file_handler_format. cbn [h_target final_logger.file_handler].
  rewrite String.eqb_refl. repeat constructor. exact J.
Qed.

(** ** [shutdown_logger] without a logger *)

Lemma stop_total ql : total (logging.stop ql).
Proof.
  unfold logging.stop. destruct (ql_running ql); [|apply total_ret].
  apply total_bind; [apply total_get|]. intros w.
  apply total_bind; [apply drain_total | intros; apply total_ret].
Qed.

Lemma stop_preserves {C} (proj : World -> C) ql :
  (forall v w, proj (set_console v w) = proj w) ->
  (forall v w, proj (set_files v w) = proj w) ->
  (forall v w, proj (set_log_queue v w) = proj w) ->
  (forall v w, proj (set_stderr_errors v w) = proj w) ->
  preserves proj (logging.stop ql).
Proof.
  intros H1 H2 H3 H4. unfold logging.stop.
  destruct (ql_running ql); [|apply preserves_ret].
  apply preserves_bind; [apply preserves_get|]. intros w.
  apply preserves_bind; [apply drain_preserves; assumption|].
  intros. apply preserves_ret.
Qed.

(** X17. [shutdown_logger] raises [AttributeError] when no shared
    logger has been built; without a listener the state is left as it
    was. *)
Theorem shutdown_without_logger_raises w :
  shared_logger w = None ->
  outcome final_logger.shutdown_logger w = Raise AttributeError /\
  (queue_listener w = None -> exec final_logger.shutdown_logger w = w).
Proof.
  intros Hs. split.
  - unfold final_logger.shutdown_logger.
    rewrite outcome_bind. change (outcome get w) with (@Ok World w).
    change (exec get w) with w. cbv beta iota.
    set (m := match queue_listener w with
              | Some ql => _
              | None => ret tt
              end).
    assert (T : total m).
    { subst m. destruct (queue_listener w) as [ql|]; [|apply total_ret].
      apply total_bind; [apply stop_total | intros; apply total_modify]. }
    assert (P : preserves shared_logger m).
    { subst m. destruct (queue_listener w) as [ql|]; [|apply preserves_ret].
      apply preserves_bind; [apply stop_preserves; reflexivity|].
      intros. apply preserves_modify. reflexivity. }
    rewrite outcome_bind. destruct (T w) as [a ->].
    rewrite outcome_bind. change (outcome get ?v) with (@Ok World v).
    change (exec get ?v) with v. cbv beta iota.
    rewrite outcome_bind, P, Hs. reflexivity.
  - intros Hq. unfold exec, final_logger.shutdown_logger, bind, get.
    rewrite Hq. cbn. unfold deref. rewrite Hs. reflexivity.
Qed.

Lemma shutdown_without_logger_raises_witness :
  outcome final_logger.shutdown_logger (boot env0) = Raise AttributeError /\
  (queue_listener (boot env0) = None ->
   exec final_logger.shutdown_logger (boot env0) = boot env0).
Proof. apply (shutdown_without_logger_raises (boot env0)). reflexivity. Defined.

(** ** [count_down] of [final_logger.py] *)

Lemma final_level_environ e e' lvl :
  environ e' = environ e -> final_level e' lvl = final_level e lvl.
Proof. intros H. unfold final_level. rewrite H. reflexivity. Qed.

Lemma final_ready_sleep e later w :
  (forall e', environ (later e') = environ e') ->
  final_ready e w -> final_ready e (exec (sleep later) w).
Proof.
  intros L (E & H). split.
  - unfold exec, sleep, modify. cbn. rewrite L. exact E.
  - destruct H as [B|H]; [left|right; exact H].
    unfold exec, sleep, modify. cbn [snd]. rewrite B at 2.
    apply set_env_boot.
Qed.

(** The body of the loop when the seconds left are a multiple of ten *)
Lemma final_wait_step e w k callers :
  final_ready e w ->
  let m := let* w0 := get in
           let* lg := final_logger.get_logger "test_console" DEBUG false in
           match lg with
           | Some l =>
               final_logger.info l
                 ("Wait for: " +:+ pretty (k / 60) +:+ " min :"
                    +:+ pretty (k mod 60) +:+ " secs") []
                 (own_frame w0 "count_down" 198 :: callers)
           | None => raise AttributeError
           end in
  outcome m w = Ok tt /\
  (exists new,
     records (exec m w) = records w ++ new /\
     length new = (if is_production e then 0%nat else 1%nat) /\
     Forall (fun r => r_levelno r = INFO /\
                      r_msg r = wait_text (env w) 198 k) new) /\
  final_ready e (exec m w).
Proof.
  intros (Ev & R) m.
  assert (G : exists w1 path lvl st,
            final_logger.get_logger "test_console" DEBUG false w
            = (Ok (Some 0%nat), w1) /\
            env w1 = env w /\ records w1 = records w /\
            shared_logger w1 = Some 0%nat /\
            heap w1 !! 0%nat
            = Some (final_configured path lvl st (final_level e DEBUG))).
  { destruct R as [E|(S0 & path & lvl & st & level & Hh)].
    - exists (final_started (env w) "test_console" DEBUG false),
        (final_path (env w) "test_console"), DEBUG, false.
      rewrite E at 1. rewrite final_get_logger_boot.
      repeat split; [rewrite E; reflexivity|].
      cbn. rewrite (final_level_environ e (env w)) by exact Ev. reflexivity.
    - eexists _, path, lvl, st.
      rewrite (final_get_logger_again w 0%nat _ _ _ _ S0 Hh).
      repeat split; [exact S0|].
      cbn. rewrite list_lookup_alter_eq, Hh.
      rewrite (final_level_environ e (env w)) by exact Ev. reflexivity. }
  destruct G as (w1 & path & lvl & st & G & E1 & R1 & S1 & H1).
  set (lg := final_configured path lvl st (final_level e DEBUG)) in *.
  assert (Em : m w
               = final_logger.info 0
                   ("Wait for: " +:+ pretty (k / 60) +:+ " min :"
                      +:+ pretty (k mod 60) +:+ " secs") []
                   (own_frame w "count_down" 198 :: callers) w1).
  { subst m. unfold bind at 1. cbn [get]. unfold bind at 1. rewrite G.
    reflexivity. }
  unfold outcome, exec. rewrite Em. clear Em. subst m.
  rewrite final_info_run.
  set (w2 := set_stack_walks _ w1).
  set (text := plain_template _ _ _ _ _).
  assert (T : text = wait_text (env w) 198 k)
    by (unfold text, wait_text; rewrite E1; reflexivity).
  assert (H2 : heap w2 !! 0%nat = Some lg) by exact H1.
  pose proof (log_total_on 0%nat lg INFO text []
                (module_path (env w1), 75) w2 H2) as O.
  pose proof (log_preserves env 0%nat INFO text [] (module_path (env w1), 75)
                ltac:(reflexivity) ltac:(reflexivity) ltac:(reflexivity)
                ltac:(reflexivity) ltac:(reflexivity) w2) as Pe.
  pose proof (log_preserves shared_logger 0%nat INFO text []
                (module_path (env w1), 75)
                ltac:(reflexivity) ltac:(reflexivity) ltac:(reflexivity)
                ltac:(reflexivity) ltac:(reflexivity) w2) as Ps.
  pose proof (log_preserves heap 0%nat INFO text []
                (module_path (env w1), 75)
                ltac:(reflexivity) ltac:(reflexivity) ltac:(reflexivity)
                ltac:(reflexivity) ltac:(reflexivity) w2) as Ph.
  unfold outcome in O. unfold exec in Pe, Ps, Ph.
  split; [exact O|]. split.
  - rewrite (log_unfold _ lg) by exact H2.
    unfold logging.isEnabledFor.
    cbn [lg final_configured l_disabled l_level]. unfold final_level.
    fold (is_production e).
    destruct (is_production e).
    + exists []. rewrite app_nil_r. repeat split; [exact R1|constructor].
    + change (DEBUG <=? INFO) with true. cbv iota.
      eexists [_]. split; [|split; [reflexivity|]].
      * change (snd (logging.handle ?l ?r ?v))
          with (exec (logging.handle l r) v).
        rewrite handle_preserves by reflexivity.
        cbn [records set_records]. change (records w2) with (records w1).
        rewrite R1. reflexivity.
      * repeat constructor. exact T.
  - split.
    + rewrite Pe. change (env w2) with (env w1). rewrite E1. exact Ev.
    + right. rewrite Ps, Ph. split; [exact S1|].
      exists path, lvl, st, (final_level e DEBUG). exact H1.
Qed.

(** The loop of [count_down], round by round *)
Lemma final_count_down_rounds e later callers fuel :
  (forall e', environ (later e') = environ e') ->
  forall d w,
    final_ready e w -> 0 <= d -> (Z.to_nat d < fuel)%nat ->
    let m := final_logger.count_down fuel later d callers in
    outcome m w = Ok true /\
    exists new,
      records (exec m w) = records w ++ new /\
      length new = (if is_production e then 0%nat else Z.to_nat (d / 10)) /\
      Forall (fun r => r_levelno r = INFO) new.
Proof.
  intros L. induction fuel as [|fuel IH]; intros d w R D F m; [lia|].
  subst m. cbn [final_logger.count_down].
  destruct (d =? 0) eqn:Z0.
  { apply Z.eqb_eq in Z0. subst d. split; [reflexivity|].
    exists []. rewrite app_nil_r. repeat split; [|constructor].
    destruct (is_production e); reflexivity. }
  apply Z.eqb_neq in Z0.
  set (body := if d mod 10 =? 0 then _ else ret tt).
  assert (B : outcome body w = Ok tt /\
              (exists new,
                 records (exec body w) = records w ++ new /\
                 length new
                 = (if is_production e then 0%nat
                    else if d mod 10 =? 0 then 1%nat else 0%nat) /\
                 Forall (fun r => r_levelno r = INFO) new) /\
              final_ready e (exec body w)).
  { subst body. destruct (d mod 10 =? 0) eqn:T.
    - destruct (final_wait_step e w d callers R)
        as (O & (new & Rr & Lr & Fr) & R').
      split; [exact O|]. split; [|exact R'].
      exists new. split; [exact Rr|]. split; [exact Lr|].
      eapply Forall_impl; [exact Fr|]. intros r (H & _). exact H.
    - split; [reflexivity|]. split; [|exact R].
      exists []. rewrite app_nil_r. repeat split; [|constructor].
      destruct (is_production e); reflexivity. }
  destruct B as (O & (n1 & R1 & L1 & F1) & R').
  rewrite outcome_bind, exec_bind, O.
  rewrite outcome_bind, exec_bind.
  change (outcome (sleep later) (exec body w)) with (@Ok unit tt).
  set (w2 := exec (sleep later) (exec body w)).
  assert (R2 : final_ready e w2) by (apply final_ready_sleep; assumption).
  destruct (IH (d - 1) w2 R2 ltac:(lia) ltac:(lia)) as (O2 & n2 & Rn & L2 & F2).
  split; [exact O2|].
  exists (n1 ++ n2). split; [|split].
  - rewrite Rn. change (records w2) with (records (exec body w)).
    rewrite R1, app_assoc. reflexivity.
  - rewrite length_app, L1, L2. destruct (is_production e); [reflexivity|].
    symmetry. apply tens_below. lia.
  - apply Forall_app. split; assumption.
Qed.

Lemma final_unused_ready e w : final_unused e w -> final_ready e w.
Proof.
  intros [->|(path & lvl & st & level & ->)].
  - split; [reflexivity|]. left. reflexivity.
  - split; [reflexivity|]. right. split; [reflexivity|].
    exists path, lvl, st, level. reflexivity.
Qed.

(** X18. [count_down] of [final_logger.py], started in a process that
    has not logged yet (a fresh one, or one that has only acquired the
    logger) and whose environment variables stay as they are, ends for
    every duration that is not negative; it makes one INFO record for
    each multiple of ten it counts, and none at all with
    [ENV=production]. *)
Theorem final_count_down_logs_each_tenth_second e later callers fuel d w :
  (forall e', environ (later e') = environ e') ->
  final_unused e w -> 0 <= d -> (Z.to_nat d < fuel)%nat ->
  let m := final_logger.count_down fuel later d callers in
  outcome m w = Ok true /\
  exists new,
    records (exec m w) = records w ++ new /\
    length new = (if is_production e then 0%nat else Z.to_nat (d / 10)) /\
    Forall (fun r => r_levelno r = INFO) new.
Proof.
  intros L U D F.
  apply (final_count_down_rounds e later callers fuel L d w); auto.
  apply final_unused_ready, U.
Qed.

Lemma final_count_down_logs_each_tenth_second_witness :
  outcome (final_logger.count_down 16 (fun e => e) 15 [main_frame]) (boot env0)
  = Ok true /\
  exists new,
    records (exec (final_logger.count_down 16 (fun e => e) 15 [main_frame])
               (boot env0))
    = records (boot env0) ++ new /\
    length new = (if is_production env0 then 0%nat else Z.to_nat (15 / 10)) /\
    Forall (fun r => r_levelno r = INFO) new.
Proof.
  apply (final_count_down_logs_each_tenth_second env0 (fun e => e)
           [main_frame] 16 15 (boot env0)).
  - reflexivity.
  - left. reflexivity.
  - lia.
  - vm_compute. lia.
Defined.

(** ** [log_exception] *)

Lemma append_assoc (a b c : string) : (a +:+ b) +:+ c = a +:+ b +:+ c.
Proof.
  induction a as [|x a IH]; [reflexivity|].
  change (String x ((a +:+ b) +:+ c) = String x (a +:+ b +:+ c)).
  rewrite IH. reflexivity.
Qed.

Lemma located_append dt ci message rest :
  custom_logger.located dt ci message +:+ rest
  = custom_logger.located dt ci (message +:+ rest).
Proof. unfold custom_logger.located. rewrite !append_assoc. reflexivity. Qed.

Lemma log_exception_run self message exc callers w :
  custom_logger.log_exception self message exc callers w =
  match callers with
  | fr :: _ =>
      logging.log (custom_logger.logger self) ERROR
        (custom_text MError (env w) fr
           (message +:+ NL +:+ "Exception: " +:+ exc))
        [] (module_path (env w), 109)
        (set_stack_walks (S (stack_walks w)) w)
  | [] => (Raise IndexError, set_stack_walks (S (stack_walks w)) w)
  end.
Proof.
  destruct callers as [|fr callers]; [reflexivity|].
  unfold custom_text. rewrite <- located_append, !append_assoc. reflexivity.
Qed.

(** With the same text and level, the line of the logging statement
    shows in the record's line number and nowhere else in what
    [Logger.log] decides. *)
Lemma log_site_irrelevant self level text args site site' w :
  outcome (logging.log self level text args site) w
  = outcome (logging.log self level text args site') w /\
  r_msg <$> records (exec (logging.log self level text args site) w)
  = r_msg <$> records (exec (logging.log self level text args site') w) /\
  r_levelno <$> records (exec (logging.log self level text args site) w)
  = r_levelno <$> records (exec (logging.log self level text args site') w).
Proof.
  destruct (heap w !! self) as [lg|] eqn:H.
  - rewrite !(log_total_on _ lg) by exact H. split; [reflexivity|].
    unfold exec. rewrite !(log_unfold _ lg) by exact H.
    destruct (logging.isEnabledFor lg level); [|auto].
    change (snd (logging.handle lg ?r ?v)) with (exec (logging.handle lg r) v).
    rewrite !handle_preserves by reflexivity. cbn [records set_records].
    rewrite !fmap_app. auto.
  - unfold outcome, exec, logging.log, bind, deref. rewrite H. auto.
Qed.

(** X19. [log_exception(message, exc)] logs what [log_error] logs
    for the message followed by a line break, [Exception: ] and the
    text of [exc]: the same outcome, the same text at the same
    severity, the same single stack walk. *)
Theorem log_exception_is_log_error_of_the_longer_message self message exc
    callers w :
  let longer := message +:+ NL +:+ "Exception: " +:+ exc in
  let w1 := exec (custom_logger.log_exception self message exc callers) w in
  let w2 := exec (custom_logger.log_error self longer callers) w in
  outcome (custom_logger.log_exception self message exc callers) w
  = outcome (custom_logger.log_error self longer callers) w /\
  r_msg <$> records w1 = r_msg <$> records w2 /\
  r_levelno <$> records w1 = r_levelno <$> records w2 /\
  stack_walks w1 = stack_walks w2.
Proof.
  intros longer w1 w2. subst w1 w2. unfold outcome, exec.
  rewrite log_exception_run.
  destruct callers as [|fr callers]; [repeat split|].
  change (custom_logger.log_error self longer (fr :: callers) w)
    with (custom_call MError self longer (fr :: callers) w).
  rewrite custom_call_run. fold longer.
  destruct (log_site_irrelevant (custom_logger.logger self) ERROR
              (custom_text MError (env w) fr longer) []
              (module_path (env w), 109)
              (module_path (env w), custom_site MError)
              (set_stack_walks (S (stack_walks w)) w)) as (O & M & L).
  unfold outcome, exec in O, M, L. repeat split; try assumption.
  change (stack_walks (exec (logging.log (custom_logger.logger self) ERROR
                               (custom_text MError (env w) fr longer) []
                               (module_path (env w), 109))
                         (set_stack_walks (S (stack_walks w)) w))
          = stack_walks (exec (logging.log (custom_logger.logger self) ERROR
                                 (custom_text MError (env w) fr longer) []
                                 (module_path (env w), custom_site MError))
                           (set_stack_walks (S (stack_walks w)) w))).
  rewrite !log_preserves by reflexivity. reflexivity.
Qed.

(** ** Arguments in structured mode *)












